(** * SmartCI backend: the [/analyze] endpoint of [main.py]

    A shallow embedding of [analyze_repo] (main.py, lines 51-220) and of the
    Python operations it relies on, followed by the properties of the
    commit-window pipeline.

    Conventions of the embedding:
    - Python [int] is [Z]; Python [float] is IEEE-754 binary64, taken from
      the Standard Library's [SpecFloat] (precision 53, emax 1024), so every
      float operation below rounds exactly as CPython's does;
    - Python [str] is [string] (a byte string; only ASCII is needed here);
    - a raised exception is the [Raise] constructor of [result]; every
      exception of [exn] derives from Python's [Exception], so a clause
      [except Exception] catches all of them, [HTTPException] included;
    - the external collaborators (git, the per-pair analyzer, [json.loads],
      [tempfile.mkdtemp], [str] of an exception) are the fields of a
      [World] record; every call of an external process leaves an [event]
      in the trace of the run. *)

From Stdlib Require Import ZArith List String Ascii Bool Lia.
From Stdlib Require Import Floats.SpecFloat Floats.PrimFloat Floats.FloatOps.
From Stdlib Require Import Numbers.Cyclic.Int63.Uint63 DecimalString DecimalN.
From Stdlib Require Import QArith Qpower Lqa.
Import ListNotations.

Local Open Scope string_scope.
Local Open Scope list_scope.
Local Open Scope Z_scope.

(* ------------------------------------------------------------------ *)
(** ** Exceptions and results *)

Inductive exn : Type :=
| HTTPException (status_code : Z) (detail : string)
| TimeoutExpired          (* subprocess.TimeoutExpired *)
| JSONDecodeError         (* json.JSONDecodeError *)
| IndexError
| KeyError (key : string)
| TypeError
| AttributeError
| ZeroDivisionError
| OverflowError
| ValueError
| OSError (msg : string).

Inductive result (A : Type) : Type :=
| Ok (a : A)
| Raise (e : exn).
Arguments Ok {A} a.
Arguments Raise {A} e.

Definition rbind {A B} (r : result A) (k : A -> result B) : result B :=
  match r with
  | Ok a => k a
  | Raise e => Raise e
  end.

Declare Scope res_scope.
Delimit Scope res_scope with res.
Notation "x <- r ;; k" := (rbind r (fun x => k))
  (at level 61, r at next level, right associativity) : res_scope.

Fixpoint mapM {A B} (f : A -> result B) (l : list A) : result (list B) :=
  match l with
  | [] => Ok []
  | a :: l' =>
      (b <- f a ;;
       bs <- mapM f l' ;;
       Ok (b :: bs))%res
  end.

(* ------------------------------------------------------------------ *)
(** ** Python string operations used by the endpoint *)

Module PyStr.

(** [bool(s)]: a string is truthy when it is not empty. *)
Definition nonempty (s : string) : bool :=
  match s with
  | EmptyString => false
  | String _ _ => true
  end.

(** [needle in hay]. *)
Fixpoint contains (needle hay : string) : bool :=
  prefix needle hay ||
  match hay with
  | EmptyString => false
  | String _ hay' => contains needle hay'
  end.

(** [s.rstrip(c)] for a one-character argument. *)
Fixpoint rstrip (c : ascii) (s : string) : string :=
  match s with
  | EmptyString => EmptyString
  | String a s' =>
      match rstrip c s' with
      | EmptyString => if Ascii.eqb a c then EmptyString else String a EmptyString
      | r => String a r
      end
  end.

(** [s.split(sep)] for a one-character separator: never an empty list. *)
Fixpoint split (sep : ascii) (s : string) : list string :=
  match s with
  | EmptyString => [EmptyString]
  | String a s' =>
      if Ascii.eqb a sep then EmptyString :: split sep s'
      else match split sep s' with
           | [] => [String a EmptyString]
           | h :: t => String a h :: t
           end
  end.

(** ASCII whitespace, as [str.isspace] has it: TAB..CR, FS..US, space. *)
Definition isspace (a : ascii) : bool :=
  let n := nat_of_ascii a in
  (Nat.leb 9 n && Nat.leb n 13) || (Nat.leb 28 n && Nat.leb n 32).

Fixpoint lstrip_ws (s : string) : string :=
  match s with
  | EmptyString => EmptyString
  | String a s' => if isspace a then lstrip_ws s' else s
  end.

Fixpoint rstrip_ws (s : string) : string :=
  match s with
  | EmptyString => EmptyString
  | String a s' =>
      match rstrip_ws s' with
      | EmptyString => if isspace a then EmptyString else String a EmptyString
      | r => String a r
      end
  end.

(** [s.strip()]. *)
Definition strip (s : string) : string := rstrip_ws (lstrip_ws s).

(** [s.replace(old, new)] for a non-empty [old]: occurrences are replaced
    left to right and do not overlap.  [skip] counts the characters of an
    occurrence still to be dropped. *)
Fixpoint replace_from (old new s : string) (skip : nat) : string :=
  match s with
  | EmptyString => EmptyString
  | String a s' =>
      match skip with
      | S k => replace_from old new s' k
      | O =>
          if prefix old s
          then (new ++ replace_from old new s' (String.length old - 1)%nat)%string
          else String a (replace_from old new s' O)
      end
  end.

Definition replace (old new s : string) : string := replace_from old new s O.

(** [parts[-k]] for [k >= 1]. *)
Definition index_from_end (parts : list string) (k : nat) : result string :=
  if (Nat.ltb (List.length parts) k)
  then Raise IndexError
  else match nth_error parts (List.length parts - k) with
       | Some s => Ok s
       | None => Raise IndexError
       end.

(** [l[i]] for [i >= 0]. *)
Definition getitem (l : list string) (i : nat) : result string :=
  match nth_error l i with
  | Some s => Ok s
  | None => Raise IndexError
  end.

End PyStr.

(* ------------------------------------------------------------------ *)
(** ** Binary64 arithmetic as Python performs it *)

Module PyFloat.

Definition prec : Z := 53.
Definition emax : Z := 1024.

(** An [int] as an exact, not yet rounded, binary number. *)
Definition exact (z : Z) : spec_float :=
  match z with
  | Z0 => S754_zero false
  | Zpos p => S754_finite false p 0
  | Zneg p => S754_finite true p 0
  end.

(** An operation on ints that overflows the float range raises
    [OverflowError]; Python never hands back an infinity there. *)
Definition checked (x : spec_float) : result spec_float :=
  match x with
  | S754_infinity _ => Raise OverflowError
  | _ => Ok x
  end.

(** [float(z)], the implicit conversion of an [int] operand: the nearest
    binary64 value, ties to even. *)
Definition of_int (z : Z) : result spec_float :=
  checked (binary_normalize prec emax z 0 false).

(** [a / b] on two ints: the correctly rounded quotient.  [SFdiv] does not
    need normalised operands: its core shifts the dividend until the integer
    quotient carries at least 53 bits and rounds once, the remainder telling
    on which side of the midpoint the exact quotient lies. *)
Definition truediv (a b : Z) : result spec_float :=
  if b =? 0 then Raise ZeroDivisionError
  else checked (SFdiv prec emax (exact a) (exact b)).

(** [x * y] and [x / y] on floats. *)
Definition mul (x y : spec_float) : spec_float := SFmul prec emax x y.

Definition div (x y : spec_float) : result spec_float :=
  match y with
  | S754_zero _ => Raise ZeroDivisionError
  | _ => Ok (SFdiv prec emax x y)
  end.

(** The integer part of [m * 2^e], for a positive mantissa. *)
Definition magnitude (m : positive) (e : Z) : Z :=
  match e with
  | Zneg p => Z.shiftr (Zpos m) (Zpos p)
  | _ => Z.shiftl (Zpos m) e
  end.

(** [int(x)]: truncation toward zero. *)
Definition to_int (x : spec_float) : result Z :=
  match x with
  | S754_zero _ => Ok 0
  | S754_finite s m e => Ok (if s then - magnitude m e else magnitude m e)
  | S754_infinity _ => Raise OverflowError
  | S754_nan => Raise ValueError
  end.

(** [math.floor(x)]: rounding toward minus infinity (used on the
    specification side only; the source calls [int]). *)
Definition floor (x : spec_float) : result Z :=
  match x with
  | S754_zero _ => Ok 0
  | S754_finite false m e => Ok (magnitude m e)
  | S754_finite true m e =>
      let q := magnitude m e in
      let exact_int :=
        match e with
        | Zneg p => Z.shiftl q (Zpos p) =? Zpos m
        | _ => true
        end in
      Ok (if exact_int then - q else - q - 1)
  | S754_infinity _ => Raise OverflowError
  | S754_nan => Raise ValueError
  end.

(** A float that is not a negative number. *)
Definition nonneg (x : spec_float) : bool :=
  match x with
  | S754_finite true _ _ => false
  | S754_infinity true => false
  | _ => true
  end.

End PyFloat.

(** A Python number: the operands of [*] and [int] below are ints or
    floats, and an int meeting a float is converted first. *)
Inductive number : Type :=
| NInt (n : Z)
| NFloat (x : spec_float).

Module PyNum.

(** [a * b]. *)
Definition mul (a b : number) : result number :=
  match a, b with
  | NInt x, NInt y => Ok (NInt (x * y))
  | NInt x, NFloat y => (fx <- PyFloat.of_int x ;; Ok (NFloat (PyFloat.mul fx y)))%res
  | NFloat x, NInt y => (fy <- PyFloat.of_int y ;; Ok (NFloat (PyFloat.mul x fy)))%res
  | NFloat x, NFloat y => Ok (NFloat (PyFloat.mul x y))
  end.

(** [a / b]. *)
Definition truediv (a b : number) : result number :=
  match a, b with
  | NInt x, NInt y => (q <- PyFloat.truediv x y ;; Ok (NFloat q))%res
  | NInt x, NFloat y =>
      (fx <- PyFloat.of_int x ;; q <- PyFloat.div fx y ;; Ok (NFloat q))%res
  | NFloat x, NInt y =>
      (fy <- PyFloat.of_int y ;; q <- PyFloat.div x fy ;; Ok (NFloat q))%res
  | NFloat x, NFloat y => (q <- PyFloat.div x y ;; Ok (NFloat q))%res
  end.

(** [int(a)]. *)
Definition int (a : number) : result Z :=
  match a with
  | NInt n => Ok n
  | NFloat x => PyFloat.to_int x
  end.

(** [math.floor(a)]. *)
Definition floor (a : number) : result Z :=
  match a with
  | NInt n => Ok n
  | NFloat x => PyFloat.floor x
  end.

End PyNum.

(* ------------------------------------------------------------------ *)
(** ** Values produced by [json.loads] and the dynamic operations on them *)

#[local] Set Warnings "-register-all".

Inductive json : Type :=
| JNull
| JBool (b : bool)
| JInt (n : Z)
| JFloat (x : spec_float)
| JStr (s : string)
| JList (l : list json)
| JDict (kvs : list (string * json)).

Module PyObj.

(** Lookup in a dict kept as an association list in insertion order. *)
Fixpoint lookup (k : string) (kvs : list (string * json)) : option json :=
  match kvs with
  | [] => None
  | (k', v) :: kvs' => if String.eqb k k' then Some v else lookup k kvs'
  end.

(** [bool(v)]. *)
Definition truthy (v : json) : bool :=
  match v with
  | JNull => false
  | JBool b => b
  | JInt n => negb (n =? 0)
  | JFloat x => match x with S754_zero _ => false | _ => true end
  | JStr s => PyStr.nonempty s
  | JList l => match l with [] => false | _ => true end
  | JDict kvs => match kvs with [] => false | _ => true end
  end.

(** [v.get(k, default)]: only a dict has the method. *)
Definition get (v : json) (k : string) (default : json) : result json :=
  match v with
  | JDict kvs => Ok (match lookup k kvs with Some x => x | None => default end)
  | _ => Raise AttributeError
  end.

(** [v[k]] with a string key. *)
Definition getitem (v : json) (k : string) : result json :=
  match v with
  | JDict kvs =>
      match lookup k kvs with
      | Some x => Ok x
      | None => Raise (KeyError k)
      end
  | _ => Raise TypeError
  end.

(** [v == s] for a string literal [s]. *)
Definition eq_str (v : json) (s : string) : bool :=
  match v with
  | JStr s' => String.eqb s' s
  | _ => false
  end.

(** [v.values()]. *)
Definition values (v : json) : result (list json) :=
  match v with
  | JDict kvs => Ok (map snd kvs)
  | _ => Raise AttributeError
  end.

(** [len(v)]. *)
Definition len (v : json) : result Z :=
  match v with
  | JStr s => Ok (Z.of_nat (String.length s))
  | JList l => Ok (Z.of_nat (List.length l))
  | JDict kvs => Ok (Z.of_nat (List.length kvs))
  | _ => Raise TypeError
  end.

(** [sum(...)] over ints. *)
Definition sum (l : list Z) : Z := fold_left Z.add l 0.

End PyObj.

(* ------------------------------------------------------------------ *)
(** ** The environment of a request and the trace of a run *)

(** [subprocess.CompletedProcess] with [capture_output=True, text=True]. *)
Record CompletedProcess : Type := {
  returncode : Z;
  stdout : string;
  stderr : string
}.

(** The calls that leave the process, in the order they are made. *)
Inductive event : Type :=
| EvMkdtemp (prefix : string)
| EvClone (repo_url temp_dir : string)
| EvLog (temp_dir : string)
| EvAnalyze (temp_dir base_sha head_sha : string)
| EvRmtree (temp_dir : string).

(** What the endpoint does not compute itself.  A [subprocess.run] either
    returns a completed process or raises ([TimeoutExpired] when its
    timeout elapses, [OSError] when the program cannot be started). *)
Record World : Type := {
  mkdtemp : string -> result string;
  git_clone : string -> string -> result CompletedProcess;
  git_log : string -> result CompletedProcess;
  smart_ci : string -> string -> string -> result CompletedProcess;
  json_loads : string -> result json;
  exn_str : exn -> string
}.

(** A computation that logs the external calls it makes and may raise. *)
Definition M (A : Type) : Type := (list event * result A)%type.

Definition ret {A} (a : A) : M A := ([], Ok a).

Definition raise {A} (e : exn) : M A := ([], Raise e).

Definition lift {A} (r : result A) : M A := ([], r).

Definition emit {A} (ev : event) (r : result A) : M A := ([ev], r).

Definition bind {A B} (m : M A) (k : A -> M B) : M B :=
  match m with
  | (t, Ok a) => let (t', r) := k a in (t ++ t', r)
  | (t, Raise e) => (t, Raise e)
  end.

(** [try: m  except Exception as e: h e]. *)
Definition try_except {A} (m : M A) (h : exn -> M A) : M A :=
  match m with
  | (t, Ok a) => (t, Ok a)
  | (t, Raise e) => let (t', r) := h e in (t ++ t', r)
  end.

(** [try: m  finally: c], for a cleanup [c] that cannot raise. *)
Definition finally {A} (m : M A) (c : list event) : M A :=
  (fst m ++ c, snd m).

Declare Scope proc_scope.
Delimit Scope proc_scope with proc.
Notation "x <- m ;; k" := (bind m (fun x => k))
  (at level 61, m at next level, right associativity) : proc_scope.

Fixpoint for_each {S : Type} (body : nat -> S -> M S) (idx : list nat) (s : S) : M S :=
  match idx with
  | [] => ret s
  | i :: idx' => (s' <- body i s ;; for_each body idx' s')%proc
  end.

(* ------------------------------------------------------------------ *)
(** ** The per-pair computation (main.py, lines 145-166) *)

(** The locals [base_time], [smart_time], [total_test_count], [selected]
    of one analyzed pair. *)
Record PairMetrics : Type := {
  pm_base_time : Z;
  pm_smart_time : Z;
  pm_total_test_count : Z;
  pm_selected : Z
}.

(** The five running totals of lines 107-111. *)
Record Accum : Type := {
  total_current_time : Z;
  total_smart_time : Z;
  total_tests : Z;
  total_selected : Z;
  analyzed : Z
}.

Definition acc0 : Accum :=
  {| total_current_time := 0; total_smart_time := 0; total_tests := 0;
     total_selected := 0; analyzed := 0 |}.

(** Lines 162-166. *)
Definition accumulate (acc : Accum) (pm : PairMetrics) : Accum :=
  {| total_current_time := total_current_time acc + pm_base_time pm;
     total_smart_time := total_smart_time acc + pm_smart_time pm;
     total_tests := total_tests acc + pm_total_test_count pm;
     total_selected := total_selected acc + pm_selected pm;
     analyzed := analyzed acc + 1 |}.

(** Line 147. *)
Definition total_test_count (i : nat) : Z := 1000 + Z.of_nat i * 50.

(** Line 158. *)
Definition base_time (i : nat) : Z := 1200 + Z.of_nat i * 30.

(** Line 150: [sum(len(funcs) for funcs in
    analysis.get('changed_functions', {}).values())]. *)
Definition func_count (analysis : json) : result Z :=
  (cf <- PyObj.get analysis "changed_functions" (JDict []) ;;
   vs <- PyObj.values cf ;;
   lens <- mapM PyObj.len vs ;;
   Ok (PyObj.sum lens))%res.

(** Lines 149-155: the selected test count of a verdict at position [i]. *)
Definition select_tests (i : nat) (analysis : json) : result Z :=
  (mode <- PyObj.getitem analysis "analysis_mode" ;;
   if PyObj.eq_str mode "smart_selection" then
     n <- func_count analysis ;;
     Ok (Z.max 50 (n * 15))
   else
     mode' <- PyObj.getitem analysis "analysis_mode" ;;
     if PyObj.eq_str mode' "no_changes" then Ok 0
     else Ok (total_test_count i))%res.

(** Line 159: [selected / total if total > 0 else 0], a float or the
    int [0]. *)
Definition ratio_of (selected total : Z) : result number :=
  if total >? 0 then PyNum.truediv (NInt selected) (NInt total)
  else Ok (NInt 0).

(** Lines 159-160: [int(base_time * ratio)]. *)
Definition smart_time_of (base selected total : Z) : result Z :=
  (ratio <- ratio_of selected total ;;
   product <- PyNum.mul (NInt base) ratio ;;
   PyNum.int product)%res.

(** Lines 157-160 as a function of the workload, the selection and the
    position. *)
Definition simulate_metrics (total selected : Z) (i : nat) : result PairMetrics :=
  (smart <- smart_time_of (base_time i) selected total ;;
   Ok {| pm_base_time := base_time i;
         pm_smart_time := smart;
         pm_total_test_count := total;
         pm_selected := selected |})%res.

(** Lines 147-160. *)
Definition pair_metrics (i : nat) (analysis : json) : result PairMetrics :=
  (selected <- select_tests i analysis ;;
   simulate_metrics (total_test_count i) selected i)%res.

(** Lines 145-160: what a decoded verdict contributes. *)
Definition interpret_verdict (i : nat) (analysis : json) : result (option PairMetrics) :=
  (ok <- PyObj.get analysis "success" JNull ;;
   if PyObj.truthy ok then
     pm <- pair_metrics i analysis ;;
     Ok (Some pm)
   else Ok None)%res.

(** Lines 119-166, the body of the inner [try].  The two [continue]s and
    the fall-through all leave the totals as they were. *)
Definition analyze_pair (w : World) (temp_dir : string) (i : nat)
    (head_sha base_sha : string) (acc : Accum) : M Accum :=
  (result <- emit (EvAnalyze temp_dir base_sha head_sha)
                  (smart_ci w temp_dir base_sha head_sha) ;;
   if (returncode result =? 0) && PyStr.nonempty (PyStr.strip (stdout result))
   then
     match json_loads w (stdout result) with
     | Raise JSONDecodeError => ret acc
     | Raise e => raise e
     | Ok analysis =>
         contribution <- lift (interpret_verdict i analysis) ;;
         match contribution with
         | Some pm => ret (accumulate acc pm)
         | None => ret acc
         end
     end
   else ret acc)%proc.

(** Lines 114-170: one iteration; [except Exception: continue]. *)
Definition loop_body (w : World) (temp_dir : string) (commits : list string)
    (i : nat) (acc : Accum) : M Accum :=
  (head_sha <- lift (PyStr.getitem commits i) ;;
   base_sha <- lift (PyStr.getitem commits (i + 1)) ;;
   try_except (analyze_pair w temp_dir i head_sha base_sha acc)
              (fun _ => ret acc))%proc.

(** Line 113: [range(min(len(commits) - 1, 20))]. *)
Definition pair_indices (commits : list string) : list nat :=
  seq 0 (Nat.min (List.length commits - 1) 20).

(** Lines 107-170. *)
Definition analyze_commits (w : World) (temp_dir : string) (commits : list string)
    : M Accum :=
  for_each (loop_body w temp_dir commits) (pair_indices commits) acc0.

(* ------------------------------------------------------------------ *)
(** ** Reduction, projection and the response (lines 172-205) *)

Record AnalyzeResponse : Type := {
  success : bool;
  repo_name : string;
  current_time : Z;
  smart_time : Z;
  savings_percent : Z;
  commits_analyzed : Z;
  tests_total : Z;
  tests_avg_selected : Z;
  monthly_savings : string;
  error : option string
}.

(** [a // b] on ints. *)
Definition floordiv (a b : Z) : result Z :=
  if b =? 0 then Raise ZeroDivisionError else Ok (a / b).

(** Line 181: [int(((avg_current - avg_smart) / avg_current) * 100)]. *)
Definition savings_pct_of (avg_current avg_smart : Z) : result Z :=
  (q <- PyNum.truediv (NInt (avg_current - avg_smart)) (NInt avg_current) ;;
   p <- PyNum.mul q (NInt 100) ;;
   PyNum.int p)%res.

(** Lines 187-191. *)
Definition dollar_savings_of (avg_current avg_smart : Z) : result Z :=
  (minutes_saved <- PyNum.truediv (NInt (avg_current - avg_smart)) (NInt 60) ;;
   tenfold <- PyNum.mul minutes_saved (NInt 10) ;;
   daily_savings <- PyNum.mul tenfold (NInt 100) ;;
   monthly_savings <- PyNum.mul daily_savings (NInt 20) ;;
   hourly_rate <- PyNum.truediv (NInt 150000) (NInt (52 * 40)) ;;
   hours <- PyNum.truediv monthly_savings (NInt 60) ;;
   dollars <- PyNum.mul hours hourly_rate ;;
   PyNum.int dollars)%res.

(** The format specification [,] on an int: decimal digits in groups of
    three, a leading minus sign for a negative number. *)
Fixpoint group_rev (rev_digits : list ascii) (k : nat) : list ascii :=
  match rev_digits with
  | [] => []
  | d :: ds =>
      match k with
      | 3%nat => ","%char :: d :: group_rev ds 1
      | _ => d :: group_rev ds (S k)
      end
  end.

Definition format_grouped (n : Z) : string :=
  let digits := DecimalString.NilZero.string_of_uint (N.to_uint (Z.abs_N n)) in
  let body := string_of_list_ascii (rev (group_rev (rev (list_ascii_of_string digits)) 0)) in
  if n <? 0 then String "-" body else body.

(** Lines 172-205, once the loop has finished. *)
Definition respond (name : string) (acc : Accum) : result AnalyzeResponse :=
  if analyzed acc =? 0
  then Raise (HTTPException 400 "No commits could be analyzed")
  else
    (avg_current <- floordiv (total_current_time acc) (analyzed acc) ;;
     avg_smart <- floordiv (total_smart_time acc) (analyzed acc) ;;
     savings_pct <- savings_pct_of avg_current avg_smart ;;
     avg_tests <- floordiv (total_tests acc) (analyzed acc) ;;
     avg_selected <- floordiv (total_selected acc) (analyzed acc) ;;
     dollar_savings <- dollar_savings_of avg_current avg_smart ;;
     Ok {| success := true;
           repo_name := name;
           current_time := avg_current;
           smart_time := avg_smart;
           savings_percent := savings_pct;
           commits_analyzed := analyzed acc;
           tests_total := avg_tests;
           tests_avg_selected := avg_selected;
           monthly_savings := String "$" (format_grouped dollar_savings);
           error := None |})%res.

(* ------------------------------------------------------------------ *)
(** ** The pipeline and the endpoint *)

(** Line 96: [[c for c in stdout.strip().split('\n') if c]]. *)
Definition parse_commits (out : string) : list string :=
  filter PyStr.nonempty (PyStr.split "010" (PyStr.strip out)).

(** Lines 73-205: the body of the outer [try]. *)
Definition pipeline (w : World) (repo_url name temp_dir : string) : M AnalyzeResponse :=
  (clone_result <- emit (EvClone repo_url temp_dir) (git_clone w repo_url temp_dir) ;;
   if negb (returncode clone_result =? 0)
   then raise (HTTPException 400
                 ("Failed to clone repository: " ++ stderr clone_result)%string)
   else
     commits_result <- emit (EvLog temp_dir) (git_log w temp_dir) ;;
     let commits := parse_commits (stdout commits_result) in
     if Nat.ltb (List.length commits) 2
     then raise (HTTPException 400 "Repository must have at least 2 commits")
     else
       acc <- analyze_commits w temp_dir commits ;;
       lift (respond name acc))%proc.

(** Lines 207-212: the two [except] clauses, tried in order. *)
Definition on_error (w : World) (e : exn) : M AnalyzeResponse :=
  match e with
  | TimeoutExpired => raise (HTTPException 408 "Analysis timed out")
  | _ => raise (HTTPException 500 (exn_str w e))
  end.

(** Line 59. *)
Definition valid_url (repo_url : string) : bool :=
  PyStr.nonempty repo_url && PyStr.contains "github.com" repo_url.

(** Line 70. *)
Definition temp_prefix (owner name : string) : string :=
  ("smartci_" ++ owner ++ "_" ++ name ++ "_")%string.

(** Lines 52-220. *)
Definition analyze_repo (w : World) (repo_url : string) : M AnalyzeResponse :=
  if negb (valid_url repo_url)
  then raise (HTTPException 400 "Invalid GitHub URL")
  else
    let parts := PyStr.split "/" (PyStr.rstrip "/" repo_url) in
    (owner <- lift (PyStr.index_from_end parts 2) ;;
     last <- lift (PyStr.index_from_end parts 1) ;;
     let name := PyStr.replace ".git" EmptyString last in
     temp_dir <- emit (EvMkdtemp (temp_prefix owner name))
                      (mkdtemp w (temp_prefix owner name)) ;;
     finally (try_except (pipeline w repo_url name temp_dir) (on_error w))
             [EvRmtree temp_dir])%proc.

(** The commit pairs handed to the analyzer in a trace, as (head, base),
    in the order of the calls. *)
Fixpoint pairs_of_trace (t : list event) : list (string * string) :=
  match t with
  | [] => []
  | EvAnalyze _ b h :: t' => (h, b) :: pairs_of_trace t'
  | _ :: t' => pairs_of_trace t'
  end.

(* ------------------------------------------------------------------ *)
(** ** The formulas of the specification, for comparison with the code *)

Module Spec.

(** Section 4.4: [baseline_time(i) = 1200 + 30*i]. *)
Definition baseline_time (i : nat) : Z := 1200 + 30 * Z.of_nat i.

(** Section 4.4: [ratio = selected_tests / total_tests if total_tests > 0
    else 0]. *)
Definition ratio (selected_tests total_tests : Z) : result number :=
  if 0 <? total_tests
  then PyNum.truediv (NInt selected_tests) (NInt total_tests)
  else Ok (NInt 0).

(** Section 4.4: [smart_time = floor(baseline_time(i) * ratio)], once with
    Python's division and product and once with the exact quotient. *)
Definition smart_time (total_tests selected_tests : Z) (i : nat) : result Z :=
  (r <- ratio selected_tests total_tests ;;
   p <- PyNum.mul (NInt (baseline_time i)) r ;;
   PyNum.floor p)%res.

Definition smart_time_exact (total_tests selected_tests : Z) (i : nat) : Z :=
  if 0 <? total_tests
  then baseline_time i * selected_tests / total_tests
  else 0.

(** Section 4.5: [floor(100 * (avg_current - avg_smart) / avg_current)],
    once with Python's division and once with the exact quotient. *)
Definition savings_percent (avg_current avg_smart : Z) : result Z :=
  (q <- PyNum.truediv (NInt (100 * (avg_current - avg_smart))) (NInt avg_current) ;;
   PyNum.floor q)%res.

Definition savings_percent_exact (avg_current avg_smart : Z) : Z :=
  100 * (avg_current - avg_smart) / avg_current.

End Spec.

(* ------------------------------------------------------------------ *)
(** ** Notions used to state the properties *)

(** [commits[i]], for an index known to be in range. *)
Definition commit_at (commits : list string) (i : nat) : string :=
  nth i commits EmptyString.

(** The analyzer call of position [i]. *)
Definition call_event (temp_dir : string) (commits : list string) (i : nat) : event :=
  EvAnalyze temp_dir (commit_at commits (i + 1)) (commit_at commits i).

(** The pair at position [i] was analyzed: its iteration, run on empty
    totals, counts one analyzed pair. *)
Definition pair_analyzed (w : World) (temp_dir : string) (commits : list string)
    (i : nat) : bool :=
  match snd (loop_body w temp_dir commits i acc0) with
  | Ok acc => analyzed acc =? 1
  | Raise _ => false
  end.

(** The four ways the analysis of one pair fails (Section 4.2 of the
    specification): timeout, exit status, empty output, malformed output. *)
Inductive pair_failure (w : World) (temp_dir head_sha base_sha : string) : Prop :=
| Failure_timeout :
    smart_ci w temp_dir base_sha head_sha = Raise TimeoutExpired ->
    pair_failure w temp_dir head_sha base_sha
| Failure_exit_status : forall result,
    smart_ci w temp_dir base_sha head_sha = Ok result ->
    returncode result <> 0 ->
    pair_failure w temp_dir head_sha base_sha
| Failure_empty_output : forall result,
    smart_ci w temp_dir base_sha head_sha = Ok result ->
    PyStr.nonempty (PyStr.strip (stdout result)) = false ->
    pair_failure w temp_dir head_sha base_sha
| Failure_malformed_output : forall result,
    smart_ci w temp_dir base_sha head_sha = Ok result ->
    json_loads w (stdout result) = Raise JSONDecodeError ->
    pair_failure w temp_dir head_sha base_sha.



(** What the iteration at position [i] adds to the totals, if anything:
    [analyze_pair] followed by [except Exception: continue], without the
    totals. *)
Definition pair_outcome (w : World) (temp_dir : string) (i : nat)
    (head_sha base_sha : string) : option PairMetrics :=
  match smart_ci w temp_dir base_sha head_sha with
  | Ok result =>
      if (returncode result =? 0) && PyStr.nonempty (PyStr.strip (stdout result))
      then match json_loads w (stdout result) with
           | Ok analysis =>
               match interpret_verdict i analysis with
               | Ok contribution => contribution
               | Raise _ => None
               end
           | Raise _ => None
           end
      else None
  | Raise _ => None
  end.

Definition add_outcome (acc : Accum) (o : option PairMetrics) : Accum :=
  match o with
  | Some pm => accumulate acc pm
  | None => acc
  end.

Definition outcome_at (w : World) (temp_dir : string) (commits : list string)
    (i : nat) : option PairMetrics :=
  pair_outcome w temp_dir i (commit_at commits i) (commit_at commits (i + 1)).

Definition step_outcome (w : World) (temp_dir : string) (commits : list string)
    (acc : Accum) (i : nat) : Accum :=
  add_outcome acc (outcome_at w temp_dir commits i).

Definition is_some {A} (o : option A) : bool :=
  match o with
  | Some _ => true
  | None => false
  end.

(** The bounds the positions 0..19 put on the totals. *)
Definition totals_in_range (acc : Accum) : Prop :=
  0 <= analyzed acc /\
  1200 * analyzed acc <= total_current_time acc <= 1770 * analyzed acc /\
  0 <= total_smart_time acc /\
  1000 * analyzed acc <= total_tests acc <= 1950 * analyzed acc /\
  0 <= total_selected acc.

Definition is_http (e : exn) : bool :=
  match e with
  | HTTPException _ _ => true
  | _ => false
  end.

(** A computation that raises, if at all, an exception of the arithmetic. *)
Definition arith_only {A} (r : result A) : Prop :=
  forall e, r = Raise e -> is_http e = false.

(** A decidable check of the full run at position [i]: with every test
    selected the smart time is the baseline time. *)
Definition full_run_ok (i : nat) : bool :=
  match smart_time_of (base_time i) (total_test_count i) (total_test_count i) with
  | Ok s => s =? base_time i
  | Raise _ => false
  end.

(** The value of a binary64 number as a rational, to state how far a
    rounded result lies from the exact one. *)

Definition pow2 (e : Z) : Q := Qpower (2 # 1) e.

(** The value of the positive float with mantissa [M] and exponent [E]. *)
Definition fval (M : positive) (E : Z) : Q := (inject_Z (Zpos M) * pow2 E)%Q.

(* ------------------------------------------------------------------ *)
(** ** Concrete environments, for evaluating the endpoint *)

Module Demo.

Definition completed (rc : Z) (out err : string) : result CompletedProcess :=
  Ok {| returncode := rc; stdout := out; stderr := err |}.

(** [str(e)] as current Starlette renders an [HTTPException]
    (status code, colon, detail); the class name otherwise. *)
Definition show_exn (e : exn) : string :=
  match e with
  | HTTPException c d =>
      (DecimalString.NilZero.string_of_int (Z.to_int c) ++ ": " ++ d)%string
  | TimeoutExpired => "TimeoutExpired"
  | JSONDecodeError => "JSONDecodeError"
  | IndexError => "list index out of range"
  | KeyError k => k
  | TypeError => "TypeError"
  | AttributeError => "AttributeError"
  | ZeroDivisionError => "division by zero"
  | OverflowError => "OverflowError"
  | ValueError => "ValueError"
  | OSError m => m
  end.

(** A decoder that knows the finitely many outputs of a demo analyzer. *)
Fixpoint decode (table : list (string * json)) (s : string) : result json :=
  match table with
  | [] => Raise JSONDecodeError
  | (k, v) :: table' => if String.eqb s k then Ok v else decode table' s
  end.

(** A verdict as the analyzer prints it, already decoded. *)
Definition verdict (ok : bool) (mode : string) (changed : list (string * json)) : json :=
  JDict [("success", JBool ok); ("analysis_mode", JStr mode);
         ("changed_functions", JDict changed)].

(** [n] function names in one file. *)
Definition names (n : nat) : json := JList (repeat (JStr "f") n).

Definition table : list (string * json) :=
  [("NO_CHANGES", verdict true "no_changes" []);
   ("FULL_RUN", verdict true "full_run" []);
   ("OTHER", verdict true "experimental" []);
   ("SMART_0", verdict true "smart_selection" []);
   ("SMART_19", verdict true "smart_selection" [("a.py", names 19)]);
   ("SMART_28", verdict true "smart_selection" [("a.py", names 20); ("b.py", names 8)]);
   ("SMART_67", verdict true "smart_selection" [("a.py", names 67)]);
   ("SMART_100", verdict true "smart_selection" [("a.py", names 60); ("b.py", names 40)]);
   ("FAILED", verdict false "full_run" [])].

(** A repository whose clone ends as [clone], whose log prints [log_out]
    and whose analyzer answers by the head commit. *)
Definition world (clone : result CompletedProcess) (log_out : string)
    (analyzer : string -> result CompletedProcess) : World :=
  {| mkdtemp := fun prefix => Ok ("/tmp/" ++ prefix ++ "x")%string;
     git_clone := fun _ _ => clone;
     git_log := fun _ => completed 0 log_out EmptyString;
     smart_ci := fun _ _ head_sha => analyzer head_sha;
     json_loads := decode table;
     exn_str := show_exn |}.

Definition nl : string := String "010" EmptyString.

Definition url : string := "https://github.com/octo/demo.git".

Definition dir : string := "/tmp/smartci_octo_demo_x".

Definition clone_ok : result CompletedProcess := completed 0 EmptyString EmptyString.

(** Three commits, newest first, as [git log --format=%H] prints them. *)
Definition log3 : string := ("c0" ++ nl ++ "c1" ++ nl ++ "c2" ++ nl)%string.

Definition commits3 : list string := ["c0"; "c1"; "c2"].

(** The analyzer prints [text] for the pair headed by [c0] and times out
    on every other pair. *)
Definition first_pair_only (text : string) (head_sha : string)
  : result CompletedProcess :=
  if String.eqb head_sha "c0" then completed 0 text EmptyString
  else Raise TimeoutExpired.

(** The clone exits with status 128. *)
Definition w_clone_fails : World :=
  world (completed 128 EmptyString "fatal: repository not found") EmptyString
        (fun _ => Raise TimeoutExpired).

(** Every pair analysis times out. *)
Definition w_timeouts : World := world clone_ok log3 (fun _ => Raise TimeoutExpired).

(** One analyzed pair, with 28 changed functions. *)
Definition w_smart28 : World := world clone_ok log3 (first_pair_only "SMART_28").

(** One analyzed pair, with 100 changed functions. *)
Definition w_smart100 : World := world clone_ok log3 (first_pair_only "SMART_100").

(** One analyzed pair of an unrecognized mode. *)
Definition w_other : World := world clone_ok log3 (first_pair_only "OTHER").

Definition smart28 : json :=
  verdict true "smart_selection" [("a.py", names 20); ("b.py", names 8)].

Definition smart100 : json :=
  verdict true "smart_selection" [("a.py", names 60); ("b.py", names 40)].

(** The totals after the run of [w_smart28]. *)
Definition acc_smart28 : Accum :=
  {| total_current_time := 1200; total_smart_time := 504;
     total_tests := 1000; total_selected := 420; analyzed := 1 |}.

(** An int as the processor's binary64. *)
Definition hardware (z : Z) : float := PrimFloat.of_uint63 (Uint63.of_Z z).

End Demo.

(* ------------------------------------------------------------------ *)
(** ** Further notions: names, log lines, numerals, verdicts *)

(** [c in s] for a character. *)
Fixpoint has_char (c : ascii) (s : string) : bool :=
  match s with
  | EmptyString => false
  | String a s' => Ascii.eqb a c || has_char c s'
  end.

(** [k] slashes. *)
Fixpoint slashes (k : nat) : string :=
  match k with
  | O => EmptyString
  | S k' => String "/" (slashes k')
  end.

(** Lines 65-67: the owner and the repository name read off the URL. *)
Definition request_names (repo_url : string) : result (string * string) :=
  let parts := PyStr.split "/" (PyStr.rstrip "/" repo_url) in
  (owner <- PyStr.index_from_end parts 2 ;;
   last <- PyStr.index_from_end parts 1 ;;
   Ok (owner, PyStr.replace ".git" EmptyString last))%res.

(** An external call of a run that concerns the repository [repo_url] and
    the workspace [temp_dir] only. *)
Definition in_workspace (repo_url temp_dir : string) (ev : event) : Prop :=
  match ev with
  | EvClone u d => u = repo_url /\ d = temp_dir
  | EvLog d => d = temp_dir
  | EvAnalyze d _ _ => d = temp_dir
  | EvMkdtemp _ | EvRmtree _ => False
  end.

(** The exceptions of Python's arithmetic on ints and floats. *)
Definition is_arith (e : exn) : bool :=
  match e with
  | ZeroDivisionError | OverflowError | ValueError => true
  | _ => false
  end.

Definition raises_arith {A} (r : result A) : Prop :=
  forall e, r = Raise e -> is_arith e = true.

(** The repository of [Demo.w_timeouts] when [git log] itself times out. *)
Definition w_log_timeout : World :=
  {| mkdtemp := mkdtemp Demo.w_timeouts;
     git_clone := git_clone Demo.w_timeouts;
     git_log := fun _ => Raise TimeoutExpired;
     smart_ci := smart_ci Demo.w_timeouts;
     json_loads := json_loads Demo.w_timeouts;
     exn_str := exn_str Demo.w_timeouts |}.

(** A line of [git log --format=%H]: not empty and free of whitespace. *)
Fixpoint no_space (s : string) : bool :=
  match s with
  | EmptyString => true
  | String a s' => negb (PyStr.isspace a) && no_space s'
  end.

Definition is_word (s : string) : bool := PyStr.nonempty s && no_space s.

(** The output of [git log --format=%H] for the commits [hs]: one line
    each, every line ended by a newline. *)
Fixpoint log_lines (hs : list string) : string :=
  match hs with
  | [] => EmptyString
  | h :: t => (h ++ String "010" (log_lines t))%string
  end.

(** The lines [h :: t] joined by newlines. *)
Fixpoint join_nl (h : string) (t : list string) : string :=
  match t with
  | [] => h
  | h2 :: t' => (h ++ String "010" (join_nl h2 t'))%string
  end.

(** The grouped numeral without its commas, as [str.replace] would leave
    it. *)
Definition ungroup (s : string) : string :=
  string_of_list_ascii
    (filter (fun a => negb (Ascii.eqb a ",")) (list_ascii_of_string s)).

(** The decimal numeral of a natural number, as [str] prints it. *)
Definition numeral (n : N) : string :=
  DecimalString.NilZero.string_of_uint (N.to_uint n).

(** Lines 187-191 in exact arithmetic: the seconds saved per commit, times
    10 commits a day, 100 engineers and 20 days, over 60 twice, at
    150000 / (52 * 40) dollars an hour. *)
Definition dollar_savings_exact (avg_current avg_smart : Z) : Z :=
  (avg_current - avg_smart) * (10 * 100 * 20) * 150000 / (60 * 60 * (52 * 40)).

(** A decidable check of the dollar figure for [d] seconds saved. *)
Definition dollars_ok (d : Z) : bool :=
  match dollar_savings_of d 0 with
  | Ok v =>
      let e := dollar_savings_exact d 0 in
      (e - 1 <=? v) && (v <=? e) && ((d mod 39 =? 0) || (v =? e))
  | Raise _ => false
  end.

(** The repository of [Demo.w_timeouts] when every pair analysis reports
    a full run. *)
Definition w_full_runs : World :=
  Demo.world Demo.clone_ok Demo.log3 (fun _ => Demo.completed 0 "FULL_RUN" EmptyString).

(** A decoded verdict from which lines 145-160 draw no metrics: it is not
    an object, its [success] is absent or falsy, its mode is absent, or,
    under [smart_selection], its [changed_functions] is not an object or
    maps a file to something without a length. *)
Inductive unusable_verdict : json -> Prop :=
| Unusable_not_an_object : forall v,
    (forall kvs, v <> JDict kvs) -> unusable_verdict v
| Unusable_no_success : forall kvs,
    PyObj.lookup "success" kvs = None -> unusable_verdict (JDict kvs)
| Unusable_falsy_success : forall kvs ok,
    PyObj.lookup "success" kvs = Some ok -> PyObj.truthy ok = false ->
    unusable_verdict (JDict kvs)
| Unusable_no_mode : forall kvs,
    PyObj.lookup "analysis_mode" kvs = None -> unusable_verdict (JDict kvs)
| Unusable_changed_not_an_object : forall kvs cf,
    PyObj.lookup "analysis_mode" kvs = Some (JStr "smart_selection") ->
    PyObj.lookup "changed_functions" kvs = Some cf ->
    (forall entries, cf <> JDict entries) ->
    unusable_verdict (JDict kvs)
| Unusable_unsized_value : forall kvs entries file v,
    PyObj.lookup "analysis_mode" kvs = Some (JStr "smart_selection") ->
    PyObj.lookup "changed_functions" kvs = Some (JDict entries) ->
    In (file, v) entries -> PyObj.len v = Raise TypeError ->
    unusable_verdict (JDict kvs).

(** The repository of [Demo.w_timeouts] when every pair analysis reports
    no change. *)
Definition w_no_changes : World :=
  Demo.world Demo.clone_ok Demo.log3 (fun _ => Demo.completed 0 "NO_CHANGES" EmptyString).

(** A float that is not a positive number. *)
Definition float_nonpos (x : spec_float) : bool :=
  match x with
  | S754_finite false _ _ => false
  | S754_infinity false => false
  | _ => true
  end.

(** One analyzed pair, with 67 changed functions: 1005 of 1000 tests. *)
Definition w_smart67 : World :=
  Demo.world Demo.clone_ok Demo.log3 (Demo.first_pair_only "SMART_67").

(** The count of changed function names of a verdict object, as the data
    model has it: 0 without a [changed_functions] entry, the total size of
    the values of a [changed_functions] object, and nothing when the entry
    is not an object or one of its values has no size. *)
Definition changed_count (kvs : list (string * json)) : option Z :=
  match PyObj.lookup "changed_functions" kvs with
  | None => Some 0
  | Some (JDict entries) =>
      match mapM PyObj.len (map snd entries) with
      | Ok sizes => Some (PyObj.sum sizes)
      | Raise _ => None
      end
  | Some _ => None
  end.

(** A valid success verdict: an object whose [success] is truthy and
    which names a mode; under [smart_selection] its changed functions can
    be counted, and fifteen times their count stays below [2^39]. *)
Definition valid_success_verdict (analysis : json) : Prop :=
  exists kvs ok mode,
    analysis = JDict kvs
    /\ PyObj.lookup "success" kvs = Some ok /\ PyObj.truthy ok = true
    /\ PyObj.lookup "analysis_mode" kvs = Some mode
    /\ (mode = JStr "smart_selection" ->
        exists f, changed_count kvs = Some f /\ 15 * f < 2 ^ 39).

(** The analysis of the pair at position [i] succeeds: the analyzer
    returns with exit status 0 and an output that is not blank and decodes
    to a valid success verdict.  Stated on what the analyzer and the
    decoder answer, not on what the loop does with it. *)
Definition pair_succeeds (w : World) (temp_dir : string) (commits : list string)
    (i : nat) : Prop :=
  exists result analysis,
    smart_ci w temp_dir (commit_at commits (i + 1)) (commit_at commits i) = Ok result
    /\ returncode result = 0
    /\ PyStr.nonempty (PyStr.strip (stdout result)) = true
    /\ json_loads w (stdout result) = Ok analysis
    /\ valid_success_verdict analysis.

(** The analysis of the pair at position [i] fails or is skipped: the
    analyzer cannot be run or times out, exits with another status than 0,
    prints nothing, or prints what cannot be decoded or decodes to a
    verdict without usable content. *)
Inductive pair_skipped (w : World) (temp_dir : string) (commits : list string)
    (i : nat) : Prop :=
| Skipped_not_run : forall e,
    smart_ci w temp_dir (commit_at commits (i + 1)) (commit_at commits i) = Raise e ->
    pair_skipped w temp_dir commits i
| Skipped_exit_status : forall result,
    smart_ci w temp_dir (commit_at commits (i + 1)) (commit_at commits i) = Ok result ->
    returncode result <> 0 ->
    pair_skipped w temp_dir commits i
| Skipped_blank_output : forall result,
    smart_ci w temp_dir (commit_at commits (i + 1)) (commit_at commits i) = Ok result ->
    PyStr.nonempty (PyStr.strip (stdout result)) = false ->
    pair_skipped w temp_dir commits i
| Skipped_not_decoded : forall result e,
    smart_ci w temp_dir (commit_at commits (i + 1)) (commit_at commits i) = Ok result ->
    json_loads w (stdout result) = Raise e ->
    pair_skipped w temp_dir commits i
| Skipped_unusable : forall result analysis,
    smart_ci w temp_dir (commit_at commits (i + 1)) (commit_at commits i) = Ok result ->
    json_loads w (stdout result) = Ok analysis ->
    unusable_verdict analysis ->
    pair_skipped w temp_dir commits i.

(** The one case between the two: a [smart_selection] verdict that counts
    so many changed functions that fifteen times their count reaches
    [2^39]. *)
Definition pair_oversized (w : World) (temp_dir : string) (commits : list string)
    (i : nat) : Prop :=
  exists result kvs f,
    smart_ci w temp_dir (commit_at commits (i + 1)) (commit_at commits i) = Ok result
    /\ json_loads w (stdout result) = Ok (JDict kvs)
    /\ PyObj.lookup "analysis_mode" kvs = Some (JStr "smart_selection")
    /\ changed_count kvs = Some f /\ 2 ^ 39 <= 15 * f.

(* ------------------------------------------------------------------ *)
(** * Evaluations of the embedding *)

Example split_url :
  PyStr.split "/" (PyStr.rstrip "/" "https://github.com/octo/demo.git/")
  = ["https:"; EmptyString; "github.com"; "octo"; "demo.git"].
Proof. reflexivity. Qed.

Example replace_git : PyStr.replace ".git" EmptyString "demo.git" = "demo".
Proof. reflexivity. Qed.

Example parse_log3 : parse_commits Demo.log3 = Demo.commits3.
Proof. reflexivity. Qed.

(** [285 / 1000] is [0x1.23d70a3d70a3dp-2], below 0.285. *)
Example truediv_285_1000 :
  PyFloat.truediv 285 1000 = Ok (S754_finite false 5134103575202365 (-54)).
Proof. vm_compute. reflexivity. Qed.

(** [(2**200 + 1) / 3] is [0x1.5555555555555p+198]: one rounding of the
    exact quotient. *)
Example truediv_big :
  PyFloat.truediv (2 ^ 200 + 1) 3 = Ok (S754_finite false 6004799503160661 146).
Proof. vm_compute. reflexivity. Qed.

Example truediv_overflow : PyFloat.truediv (2 ^ 2000) 3 = Raise OverflowError.
Proof. vm_compute. reflexivity. Qed.

Example truediv_underflow : PyFloat.truediv 3 (2 ^ 2000) = Ok (S754_zero false).
Proof. vm_compute. reflexivity. Qed.

(** The same quotients and products on the kernel's primitive binary64. *)
Example truediv_on_hardware :
  PyFloat.truediv 285 1000
  = Ok (Prim2SF (PrimFloat.div (Demo.hardware 285) (Demo.hardware 1000)))
  /\ PyFloat.truediv 150000 2080
     = Ok (Prim2SF (PrimFloat.div (Demo.hardware 150000) (Demo.hardware 2080))).
Proof. vm_compute. split; reflexivity. Qed.

Example savings_on_hardware :
  (q <- PyNum.truediv (NInt 696) (NInt 1200) ;; PyNum.mul q (NInt 100))%res
  = Ok (NFloat (Prim2SF (PrimFloat.mul
                           (PrimFloat.div (Demo.hardware 696) (Demo.hardware 1200))
                           (Demo.hardware 100)))).
Proof. vm_compute. reflexivity. Qed.

(** [int(-12 / 10)] is [-1] and [math.floor(-12 / 10)] is [-2]. *)
Example to_int_negative :
  (x <- PyFloat.truediv (-12) 10 ;; PyFloat.to_int x)%res = Ok (-1) /\
  (x <- PyFloat.truediv (-12) 10 ;; PyFloat.floor x)%res = Ok (-2).
Proof. vm_compute. split; reflexivity. Qed.

(** [int(1200 * (285 / 1000))] is 341: the product is
    341.99999999999994, while the exact value of 1200 * 285 / 1000 is 342. *)
Example smart_time_285 :
  smart_time_of 1200 285 1000 = Ok 341 /\ 1200 * 285 / 1000 = 342.
Proof. vm_compute. split; reflexivity. Qed.

Example format_480769 : format_grouped 480769 = "480,769".
Proof. reflexivity. Qed.

Example format_negative : format_grouped (-1234567) = "-1,234,567".
Proof. reflexivity. Qed.

Example format_small : format_grouped 0 = "0" /\ format_grouped 999 = "999".
Proof. split; reflexivity. Qed.

(** A complete run: the first pair has 28 changed functions, so 420 of
    1000 tests are selected; the second pair times out and is skipped. *)
Example run_smart28 :
  analyze_repo Demo.w_smart28 Demo.url
  = ([EvMkdtemp "smartci_octo_demo_"; EvClone Demo.url Demo.dir; EvLog Demo.dir;
      EvAnalyze Demo.dir "c1" "c0"; EvAnalyze Demo.dir "c2" "c1";
      EvRmtree Demo.dir],
     Ok {| success := true; repo_name := "demo";
           current_time := 1200; smart_time := 504; savings_percent := 57;
           commits_analyzed := 1; tests_total := 1000; tests_avg_selected := 420;
           monthly_savings := "$278,846"; error := None |}).
Proof. vm_compute. reflexivity. Qed.

(** The statuses that come out as the handlers intend. *)
Example invalid_url_answers_400 :
  forall w, analyze_repo w "https://gitlab.com/octo/demo"
            = ([], Raise (HTTPException 400 "Invalid GitHub URL")).
Proof. intros w. reflexivity. Qed.

Example clone_timeout_answers_408 :
  snd (analyze_repo (Demo.world (Raise TimeoutExpired) EmptyString
                                (fun _ => Raise TimeoutExpired))
                    Demo.url)
  = Raise (HTTPException 408 "Analysis timed out").
Proof. vm_compute. reflexivity. Qed.

Example internal_fault_answers_500 :
  snd (analyze_repo (Demo.world (Raise (OSError "git: not found")) EmptyString
                                (fun _ => Raise TimeoutExpired))
                    Demo.url)
  = Raise (HTTPException 500 "git: not found").
Proof. vm_compute. reflexivity. Qed.

(** The other two 400s raised inside the [try] reach the client as 500s,
    like the one of a failed clone: a history of one commit, and a run in
    which no pair could be analyzed. *)
Example short_history_answers_500 :
  snd (analyze_repo (Demo.world Demo.clone_ok "c0" (fun _ => Raise TimeoutExpired))
                    Demo.url)
  = Raise (HTTPException 500 "400: Repository must have at least 2 commits").
Proof. vm_compute. reflexivity. Qed.

Example no_pairs_answers_500 :
  snd (analyze_repo Demo.w_timeouts Demo.url)
  = Raise (HTTPException 500 "400: No commits could be analyzed").
Proof. vm_compute. reflexivity. Qed.

(* ------------------------------------------------------------------ *)
(** * Lemmas *)

(** ** Signs of binary64 results *)

Lemma round_aux_nonneg :
  forall m e l,
    PyFloat.nonneg (binary_round_aux PyFloat.prec PyFloat.emax false m e l) = true.
Proof.
  intros m e l. unfold binary_round_aux.
  destruct (shr_fexp PyFloat.prec PyFloat.emax m e l) as [mrs e1].
  destruct (shr_fexp PyFloat.prec PyFloat.emax _ e1 loc_Exact) as [mrs2 e2].
  destruct (shr_m mrs2); try reflexivity.
  destruct (e2 <=? PyFloat.emax - PyFloat.prec); reflexivity.
Qed.

Lemma checked_ok : forall x y, PyFloat.checked x = Ok y -> y = x.
Proof. intros x y H. destruct x; simpl in H; congruence. Qed.

Lemma of_int_nonneg :
  forall z x, 0 <= z -> PyFloat.of_int z = Ok x -> PyFloat.nonneg x = true.
Proof.
  intros z x Hz H. apply checked_ok in H. subst x.
  destruct z as [|p|p]; try reflexivity; [|lia].
  unfold binary_normalize, binary_round.
  destruct (shl_align p 0 _) as [mz ez]. apply round_aux_nonneg.
Qed.

Lemma truediv_nonneg :
  forall a b x,
    0 <= a -> 0 < b -> PyFloat.truediv a b = Ok x -> PyFloat.nonneg x = true.
Proof.
  intros a b x Ha Hb H. unfold PyFloat.truediv in H.
  destruct (b =? 0); [discriminate|].
  apply checked_ok in H. subst x.
  destruct a as [|p|p]; [| |lia]; destruct b as [|q|q]; try lia; try reflexivity.
  unfold PyFloat.exact, SFdiv.
  destruct (SFdiv_core_binary _ _ _ _ _ _) as [[mz ez] lz].
  apply round_aux_nonneg.
Qed.

Lemma mul_nonneg :
  forall x y,
    PyFloat.nonneg x = true -> PyFloat.nonneg y = true ->
    PyFloat.nonneg (PyFloat.mul x y) = true.
Proof.
  intros x y Hx Hy. unfold PyFloat.mul, SFmul.
  destruct x as [sx|sx| |sx mx ex], y as [sy|sy| |sy my ey];
    try reflexivity; try discriminate;
    try (destruct sx; try discriminate); try (destruct sy; try discriminate);
    try reflexivity.
  apply round_aux_nonneg.
Qed.

Lemma magnitude_nonneg : forall m e, 0 <= PyFloat.magnitude m e.
Proof.
  intros m e. unfold PyFloat.magnitude. destruct e.
  - apply Z.shiftl_nonneg. lia.
  - apply Z.shiftl_nonneg. lia.
  - apply Z.shiftr_nonneg. lia.
Qed.

Lemma to_int_nonneg :
  forall x n, PyFloat.nonneg x = true -> PyFloat.to_int x = Ok n -> 0 <= n.
Proof.
  intros x n Hx H. destruct x as [s|s| |s m e]; simpl in H; try discriminate.
  - injection H as <-. lia.
  - destruct s; [discriminate|]. injection H as <-. apply magnitude_nonneg.
Qed.

(** On a float that is not negative, [math.floor] and [int] agree. *)
Lemma floor_eq_to_int :
  forall x, PyFloat.nonneg x = true -> PyFloat.floor x = PyFloat.to_int x.
Proof.
  intros x Hx. destruct x as [s|s| |s m e]; try reflexivity.
  destruct s; [discriminate|reflexivity].
Qed.

(** ** Rounding of the binary64 operations *)

(** *** Digits *)

Lemma digits2_pos_bounds :
  forall p, 2 ^ (Zpos (digits2_pos p) - 1) <= Zpos p < 2 ^ Zpos (digits2_pos p).
Proof.
  induction p as [p IH|p IH|]; cbn [digits2_pos].
  - rewrite Pos2Z.inj_succ.
    replace (Z.succ (Zpos (digits2_pos p)) - 1) with (Z.succ (Zpos (digits2_pos p) - 1)) by lia.
    rewrite !Z.pow_succ_r by lia. lia.
  - rewrite Pos2Z.inj_succ.
    replace (Z.succ (Zpos (digits2_pos p)) - 1) with (Z.succ (Zpos (digits2_pos p) - 1)) by lia.
    rewrite !Z.pow_succ_r by lia. lia.
  - simpl. lia.
Qed.

Lemma Zdigits2_bounds :
  forall m, 0 < m -> 2 ^ (Zdigits2 m - 1) <= m < 2 ^ Zdigits2 m.
Proof. intros [|p|p] H; try lia. apply digits2_pos_bounds. Qed.

Lemma Zdigits2_unique :
  forall m k, 0 < k -> 2 ^ (k - 1) <= m < 2 ^ k -> Zdigits2 m = k.
Proof.
  intros m k Hk [Hlo Hhi].
  assert (Hm : 0 < m) by (pose proof (Z.pow_pos_nonneg 2 (k - 1)); lia).
  destruct (Zdigits2_bounds m Hm) as [Hlo' Hhi'].
  assert (Hd : 0 < Zdigits2 m) by (destruct m; simpl in *; lia).
  destruct (Z.lt_trichotomy (Zdigits2 m) k) as [Hlt|[Heq|Hgt]]; [|exact Heq|].
  - exfalso. assert (2 ^ Zdigits2 m <= 2 ^ (k - 1)) by (apply Z.pow_le_mono_r; lia). lia.
  - exfalso. assert (2 ^ k <= 2 ^ (Zdigits2 m - 1)) by (apply Z.pow_le_mono_r; lia). lia.
Qed.

(** *** Shifting a mantissa to the right *)

Lemma shr_1_m :
  forall mrs, 0 <= shr_m mrs -> shr_m (shr_1 mrs) = shr_m mrs / 2.
Proof.
  intros [m r s] Hm. cbn [shr_m] in *. unfold shr_1.
  destruct m as [|[p|p|]|p]; cbn [shr_m]; try lia;
    rewrite <- Z.div2_div; reflexivity.
Qed.

Lemma Zpow2_pos : forall n, 0 <= n -> 0 < 2 ^ n.
Proof. intros n Hn. apply Z.pow_pos_nonneg; lia. Qed.

Lemma div_pow2_twice :
  forall a m n, 0 <= m -> 0 <= n -> a / 2 ^ m / 2 ^ n = a / 2 ^ (m + n).
Proof.
  intros a m n Hm Hn. pose proof (Zpow2_pos m Hm). pose proof (Zpow2_pos n Hn).
  rewrite Z.div_div by lia. rewrite Z.pow_add_r by lia. reflexivity.
Qed.

Lemma iter_shr_1_m :
  forall p mrs,
    0 <= shr_m mrs ->
    shr_m (SpecFloat.iter_pos shr_1 p mrs) = shr_m mrs / 2 ^ Zpos p.
Proof.
  induction p as [p IH|p IH|]; intros mrs Hm; cbn [SpecFloat.iter_pos].
  - assert (H1 : 0 <= shr_m (shr_1 mrs)) by (rewrite shr_1_m by exact Hm; apply Z.div_pos; lia).
    assert (H2 : 0 <= shr_m (SpecFloat.iter_pos shr_1 p (shr_1 mrs)))
      by (rewrite IH by exact H1; apply Z.div_pos; [exact H1|apply Zpow2_pos; lia]).
    rewrite IH by exact H2. rewrite IH by exact H1. rewrite shr_1_m by exact Hm.
    replace (shr_m mrs / 2) with (shr_m mrs / 2 ^ 1) by (rewrite Z.pow_1_r; reflexivity).
    rewrite !div_pow2_twice by lia. f_equal. f_equal. lia.
  - assert (H2 : 0 <= shr_m (SpecFloat.iter_pos shr_1 p mrs))
      by (rewrite IH by exact Hm; apply Z.div_pos; [exact Hm|apply Zpow2_pos; lia]).
    rewrite IH by exact H2. rewrite IH by exact Hm.
    rewrite div_pow2_twice by lia. f_equal. f_equal. lia.
  - rewrite shr_1_m by exact Hm. reflexivity.
Qed.

Lemma shr_record_of_loc_m : forall m l, shr_m (shr_record_of_loc m l) = m.
Proof. intros m [|[| |]]; reflexivity. Qed.

(** [shr] by [n >= 0] places divides the mantissa by [2^n] and adds [n] to
    the exponent. *)
Lemma shr_m_e :
  forall mrs e n,
    0 <= shr_m mrs -> 0 <= n ->
    shr_m (fst (shr mrs e n)) = shr_m mrs / 2 ^ n /\ snd (shr mrs e n) = e + n.
Proof.
  intros mrs e n Hm Hn. unfold shr. destruct n as [|p|p]; try lia.
  - cbn [fst snd]. rewrite Z.pow_0_r, Z.div_1_r. split; [reflexivity|lia].
  - cbn [fst snd]. split; [apply iter_shr_1_m; exact Hm|reflexivity].
Qed.

Lemma round_nearest_even_cases :
  forall m l, round_nearest_even m l = m \/ round_nearest_even m l = m + 1.
Proof.
  intros m [|[| |]]; cbn [round_nearest_even]; auto.
  destruct (Z.even m); auto.
Qed.

(** *** Rounding a mantissa of at least 53 bits in the normal range *)

Lemma fexp_normal :
  forall x, -1074 <= x - 53 -> fexp PyFloat.prec PyFloat.emax x = x - 53.
Proof.
  intros x Hx. unfold fexp, emin, PyFloat.prec, PyFloat.emax. lia.
Qed.

Lemma digits_at_least_53 : forall m, 2 ^ 52 <= m -> 53 <= Zdigits2 m.
Proof.
  intros m Hm.
  assert (H0 : 0 < m) by (pose proof (Zpow2_pos 52); lia).
  destruct (Zdigits2_bounds m H0) as [_ Hhi].
  destruct (Z_lt_le_dec (Zdigits2 m) 53) as [Hlt|Hge]; [|exact Hge].
  exfalso.
  assert (0 <= Zdigits2 m) by (destruct m; simpl; lia).
  assert (2 ^ Zdigits2 m <= 2 ^ 52) by (apply Z.pow_le_mono_r; lia). lia.
Qed.

(** The mantissa kept by the first shift has exactly 53 bits. *)
Lemma kept_mantissa_bounds :
  forall m, 2 ^ 52 <= m ->
    2 ^ 52 <= m / 2 ^ (Zdigits2 m - 53) < 2 ^ 53.
Proof.
  intros m Hm.
  assert (H0 : 0 < m) by (pose proof (Zpow2_pos 52); lia).
  pose proof (digits_at_least_53 m Hm) as Hd.
  destruct (Zdigits2_bounds m H0) as [Hlo Hhi].
  set (n := Zdigits2 m - 53) in *.
  assert (Hn : 0 <= n) by lia.
  pose proof (Zpow2_pos n Hn) as Hp.
  replace (Zdigits2 m - 1) with (n + 52) in Hlo by lia.
  replace (Zdigits2 m) with (n + 53) in Hhi by lia.
  rewrite Z.pow_add_r in Hlo, Hhi by lia.
  split.
  - apply Z.div_le_lower_bound; lia.
  - apply Z.div_lt_upper_bound; lia.
Qed.

Lemma round_aux_normal :
  forall m e l,
    2 ^ 52 <= m ->
    -1074 <= Zdigits2 m + e - 53 <= 970 ->
    exists M E M1,
      binary_round_aux PyFloat.prec PyFloat.emax false m e l = S754_finite false M E
      /\ (M1 = m / 2 ^ (Zdigits2 m - 53) \/ M1 = m / 2 ^ (Zdigits2 m - 53) + 1)
      /\ ((M1 < 2 ^ 53 /\ Zpos M = M1 /\ E = e + (Zdigits2 m - 53))
          \/ (M1 = 2 ^ 53 /\ Zpos M = 2 ^ 52 /\ E = e + (Zdigits2 m - 53) + 1)).
Proof.
  intros m e l Hm Hrange.
  pose proof (digits_at_least_53 m Hm) as Hd.
  pose proof (kept_mantissa_bounds m Hm) as Hkept.
  assert (H0 : 0 < m) by (pose proof (Zpow2_pos 52); lia).
  set (n := Zdigits2 m - 53) in *.
  unfold binary_round_aux, shr_fexp.
  rewrite fexp_normal by lia.
  replace (Zdigits2 m + e - 53 - e) with n by lia.
  destruct (shr_m_e (shr_record_of_loc m l) e n) as [Hm1 He1];
    [rewrite shr_record_of_loc_m; lia|lia|].
  rewrite shr_record_of_loc_m in Hm1.
  destruct (shr (shr_record_of_loc m l) e n) as [mrs1 e1]. cbn [fst snd] in Hm1, He1.
  subst e1.
  set (M1 := round_nearest_even (shr_m mrs1) (loc_of_shr_record mrs1)).
  assert (HM1 : M1 = m / 2 ^ n \/ M1 = m / 2 ^ n + 1).
  { unfold M1. rewrite <- Hm1. apply round_nearest_even_cases. }
  assert (HM1b : 2 ^ 52 <= M1 <= 2 ^ 53) by lia.
  destruct (Z_lt_le_dec M1 (2 ^ 53)) as [Hlt|Hge].
  - (* the rounded mantissa still has 53 bits *)
    assert (Hd1 : Zdigits2 M1 = 53) by (apply Zdigits2_unique; [lia|]; simpl (53 - 1); lia).
    rewrite Hd1, fexp_normal by lia.
    replace (53 + (e + n) - 53 - (e + n)) with 0 by lia.
    cbn [shr shr_record_of_loc shr_m].
    destruct M1 as [|P|P] eqn:HP; try lia.
    replace (e + n <=? PyFloat.emax - PyFloat.prec) with true
      by (symmetry; apply Z.leb_le; unfold PyFloat.emax, PyFloat.prec; lia).
    exists P, (e + n), (Zpos P). split; [reflexivity|]. split; [exact HM1|].
    left. split; [exact Hlt|]. split; reflexivity.
  - (* the rounded mantissa is 2^53 and is shifted once more *)
    assert (HM1e : M1 = 2 ^ 53) by lia.
    assert (Hd1 : Zdigits2 M1 = 54) by (rewrite HM1e; reflexivity).
    rewrite Hd1, fexp_normal by lia.
    replace (54 + (e + n) - 53 - (e + n)) with 1 by lia.
    rewrite HM1e. cbn [shr shr_record_of_loc SpecFloat.iter_pos].
    change (shr_m (shr_1 {| shr_m := 2 ^ 53; shr_r := false; shr_s := false |}))
      with (2 ^ 52).
    change (2 ^ 52) with (Zpos (2 ^ 52)%positive) at 1.
    cbv iota beta.
    replace (e + n + 1 <=? PyFloat.emax - PyFloat.prec) with true
      by (symmetry; apply Z.leb_le; unfold PyFloat.emax, PyFloat.prec; lia).
    exists (2 ^ 52)%positive, (e + n + 1), (2 ^ 53). split; [reflexivity|].
    split; [rewrite <- HM1e; exact HM1|].
    right. split; [reflexivity|]. split; reflexivity.
Qed.

(** *** Values as rationals *)

Lemma pow2_pos : forall e, (0 < pow2 e)%Q.
Proof. intros e. apply Qpower_0_lt. reflexivity. Qed.

Lemma pow2_add : forall a b, (pow2 (a + b) == pow2 a * pow2 b)%Q.
Proof. intros a b. apply Qpower_plus. discriminate. Qed.

Lemma pow2_Z : forall k, 0 <= k -> (pow2 k == inject_Z (2 ^ k))%Q.
Proof. intros k Hk. unfold pow2. rewrite Zpower_Qpower by exact Hk. reflexivity. Qed.

Lemma pow2_ge_1 : forall k, 0 <= k -> (1 <= pow2 k)%Q.
Proof.
  intros k Hk. rewrite pow2_Z by exact Hk.
  change 1%Q with (inject_Z 1). rewrite <- Zle_Qle.
  pose proof (Z.pow_pos_nonneg 2 k). lia.
Qed.

Lemma pow2_le : forall a b, a <= b -> (pow2 a <= pow2 b)%Q.
Proof.
  intros a b Hab. replace b with (a + (b - a)) by lia. rewrite pow2_add.
  pose proof (pow2_pos a). pose proof (pow2_ge_1 (b - a) ltac:(lia)). nra.
Qed.

Lemma pow2_inv : forall k, (pow2 k * pow2 (- k) == 1)%Q.
Proof. intros k. rewrite <- pow2_add. replace (k + - k) with 0 by lia. reflexivity. Qed.

(** [m / 2^k] is the floor of [m * 2^(-k)]. *)
Lemma div_pow2_floor :
  forall m k, 0 <= k ->
    (inject_Z (m / 2 ^ k) <= inject_Z m * pow2 (- k))%Q /\
    (inject_Z m * pow2 (- k) < inject_Z (m / 2 ^ k) + 1)%Q.
Proof.
  intros m k Hk.
  assert (Hp : 0 < 2 ^ k) by (apply Z.pow_pos_nonneg; lia).
  pose proof (Z.mul_div_le m (2 ^ k) Hp) as Hlo.
  pose proof (Z.mul_succ_div_gt m (2 ^ k) Hp) as Hhi.
  pose proof (pow2_inv k) as Hinv. rewrite (pow2_Z k Hk) in Hinv.
  pose proof (pow2_pos (- k)) as Hpos.
  rewrite Zle_Qle in Hlo. rewrite Zlt_Qlt in Hhi.
  rewrite inject_Z_mult in Hlo, Hhi.
  unfold Z.succ in Hhi. rewrite inject_Z_plus in Hhi.
  change (inject_Z 1) with 1%Q in Hhi.
  set (p := inject_Z (2 ^ k)) in *. set (q := inject_Z (m / 2 ^ k)) in *.
  set (x := inject_Z m) in *. set (i := pow2 (- k)) in *.
  split.
  - assert (H : (p * q * i <= x * i)%Q)
      by (apply Qmult_le_compat_r; [exact Hlo|apply Qlt_le_weak; exact Hpos]).
    assert (Hq : (p * q * i == q)%Q)
      by (transitivity (q * (p * i))%Q; [ring|rewrite Hinv; ring]).
    rewrite Hq in H. exact H.
  - assert (H : (x * i < p * (q + 1) * i)%Q)
      by (apply Qmult_lt_compat_r; [exact Hpos|exact Hhi]).
    assert (Hq : (p * (q + 1) * i == q + 1)%Q)
      by (transitivity ((q + 1) * (p * i))%Q; [ring|rewrite Hinv; ring]).
    rewrite Hq in H. exact H.
Qed.

Lemma pow2_succ : forall e, (pow2 (e + 1) == 2 * pow2 e)%Q.
Proof. intros e. rewrite pow2_add. change (pow2 1) with (2 # 1)%Q. ring. Qed.

(** A rounded mantissa of the normal range is within one unit in the last
    place of the number it rounds. *)
Lemma round_aux_value :
  forall m e l,
    2 ^ 52 <= m ->
    -1074 <= Zdigits2 m + e - 53 <= 970 ->
    exists M E,
      binary_round_aux PyFloat.prec PyFloat.emax false m e l = S754_finite false M E
      /\ (inject_Z m * pow2 e - pow2 (e + (Zdigits2 m - 53)) <= fval M E)%Q
      /\ (fval M E <= inject_Z m * pow2 e + pow2 (e + (Zdigits2 m - 53)))%Q
      /\ e + (Zdigits2 m - 53) <= E <= e + (Zdigits2 m - 53) + 1
      /\ 2 ^ 52 <= Zpos M < 2 ^ 53.
Proof.
  intros m e l Hm Hrange.
  destruct (round_aux_normal m e l Hm Hrange) as [M [E [M1 [Heq [HM1 Hcase]]]]].
  pose proof (digits_at_least_53 m Hm) as Hd.
  pose proof (kept_mantissa_bounds m Hm) as Hkept.
  set (n := Zdigits2 m - 53) in *.
  exists M, E. split; [exact Heq|].
  set (u := pow2 (e + n)).
  assert (Hu : (0 < u)%Q) by apply pow2_pos.
  (* the value of the result is [M1 * u] *)
  assert (Hval : (fval M E == inject_Z M1 * u)%Q).
  { unfold fval, u. destruct Hcase as [[_ [-> ->]]|[-> [-> ->]]]; [reflexivity|].
    rewrite pow2_succ.
    change (inject_Z (2 ^ 52)) with (4503599627370496 # 1)%Q.
    change (inject_Z (2 ^ 53)) with (9007199254740992 # 1)%Q. ring. }
  (* the kept mantissa brackets the number *)
  destruct (div_pow2_floor m n ltac:(lia)) as [Hlo Hhi].
  assert (Hpe : (pow2 (- n) * u == pow2 e)%Q).
  { unfold u. rewrite <- pow2_add. replace (- n + (e + n)) with e by lia. reflexivity. }
  set (A := inject_Z (m / 2 ^ n)) in *.
  set (X := (inject_Z m * pow2 e)%Q).
  assert (HX : (inject_Z m * pow2 (- n) * u == X)%Q).
  { unfold X. rewrite <- Hpe. ring. }
  assert (H1 : (A * u <= X)%Q).
  { rewrite <- HX. apply Qmult_le_compat_r; [exact Hlo|apply Qlt_le_weak; exact Hu]. }
  assert (H2 : (X < (A + 1) * u)%Q).
  { rewrite <- HX. apply Qmult_lt_compat_r; [exact Hu|exact Hhi]. }
  assert (HV : (inject_Z M1 * u == A * u)%Q \/ (inject_Z M1 * u == (A + 1) * u)%Q).
  { destruct HM1 as [->| ->]; [left; reflexivity|right].
    rewrite inject_Z_plus. reflexivity. }
  assert (Hbounds : (X - u <= fval M E)%Q /\ (fval M E <= X + u)%Q).
  { rewrite Hval. destruct HV as [HV|HV]; rewrite HV; split; lra. }
  split; [apply Hbounds|]. split; [apply Hbounds|].
  clear Hval Hbounds HV H1 H2 HX Hpe Hlo Hhi. unfold A in *. clear A.
  destruct Hcase as [[Hlt [HM ->]]|[_ [HM ->]]]; (split; [lia|]).
  - rewrite HM. destruct HM1 as [->| ->]; lia.
  - rewrite HM. simpl. lia.
Qed.

(** *** The quotient of two ints *)

Lemma div_core_small :
  forall d a,
    0 < d < 2 ^ 53 -> 0 < a < 2 ^ 53 ->
    let s := 53 + Zdigits2 a - Zdigits2 d in
    exists l,
      SFdiv_core_binary PyFloat.prec PyFloat.emax d 0 a 0
      = (d * 2 ^ s / a, - s, l).
Proof.
  intros d a Hd Ha s.
  assert (Hd1 : 1 <= Zdigits2 d <= 53).
  { destruct (Zdigits2_bounds d ltac:(lia)) as [Hlo Hhi].
    assert (0 < Zdigits2 d) by (destruct d; simpl; lia).
    split; [lia|].
    destruct (Z_le_gt_dec (Zdigits2 d) 53) as [H1|H1]; [exact H1|exfalso].
    assert (2 ^ 53 <= 2 ^ (Zdigits2 d - 1)) by (apply Z.pow_le_mono_r; lia). lia. }
  assert (Hd2 : 1 <= Zdigits2 a <= 53).
  { destruct (Zdigits2_bounds a ltac:(lia)) as [Hlo Hhi].
    assert (0 < Zdigits2 a) by (destruct a; simpl; lia).
    split; [lia|].
    destruct (Z_le_gt_dec (Zdigits2 a) 53) as [H1|H1]; [exact H1|exfalso].
    assert (2 ^ 53 <= 2 ^ (Zdigits2 a - 1)) by (apply Z.pow_le_mono_r; lia). lia. }
  unfold SFdiv_core_binary.
  rewrite fexp_normal by lia.
  replace (Z.min (Zdigits2 d + 0 - (Zdigits2 a + 0) - 53) (0 - 0)) with (- s)
    by (unfold s; lia).
  replace (0 - 0 - - s) with s by lia.
  assert (Hs : 0 < s) by (unfold s; lia).
  destruct s as [|ps|ps] eqn:Hps; try lia.
  rewrite Z.shiftl_mul_pow2 by lia.
  destruct (Z.div_eucl (d * 2 ^ Zpos ps) a) as [q r] eqn:Hdiv.
  exists (new_location a r). f_equal. f_equal.
  unfold Z.div. rewrite Hdiv. reflexivity.
Qed.

Lemma digits_small : forall z, 0 < z < 2 ^ 53 -> 1 <= Zdigits2 z <= 53.
Proof.
  intros z Hz.
  destruct (Zdigits2_bounds z ltac:(lia)) as [Hlo Hhi].
  assert (0 < Zdigits2 z) by (destruct z; simpl; lia).
  split; [lia|].
  destruct (Z_le_gt_dec (Zdigits2 z) 53) as [H1|H1]; [exact H1|exfalso].
  assert (2 ^ 53 <= 2 ^ (Zdigits2 z - 1)) by (apply Z.pow_le_mono_r; lia). lia.
Qed.

Lemma Qmult_le_cancel_pos :
  forall a x y : Q, (0 < a)%Q -> (a * x <= a * y)%Q -> (x <= y)%Q.
Proof. intros a x y Ha H. apply (Qmult_le_l x y a Ha). exact H. Qed.

Lemma Qmult_lt_cancel_pos :
  forall a x y : Q, (0 < a)%Q -> (a * x < a * y)%Q -> (x < y)%Q.
Proof. intros a x y Ha H. apply (Qmult_lt_l x y a Ha). exact H. Qed.

(** The float quotient of two positive ints below 2^53 is within three
    units of weight [2^e0] of the exact quotient [x]. *)
Lemma truediv_value :
  forall d a (x : Q),
    0 < d < 2 ^ 53 -> 0 < a < 2 ^ 53 ->
    (inject_Z a * x == inject_Z d)%Q ->
    exists M E,
      PyFloat.truediv d a = Ok (S754_finite false M E)
      /\ (x - 3 * pow2 (Zdigits2 d - Zdigits2 a - 53) <= fval M E)%Q
      /\ (fval M E <= x + 2 * pow2 (Zdigits2 d - Zdigits2 a - 53))%Q
      /\ Zdigits2 d - Zdigits2 a - 53 <= E <= Zdigits2 d - Zdigits2 a - 53 + 2
      /\ 2 ^ 52 <= Zpos M < 2 ^ 53.
Proof.
  intros d a x Hd Ha Hx.
  pose proof (digits_small d Hd) as Hd1. pose proof (digits_small a Ha) as Hd2.
  destruct (Zdigits2_bounds d ltac:(lia)) as [Hdlo Hdhi].
  destruct (Zdigits2_bounds a ltac:(lia)) as [Halo Hahi].
  destruct (div_core_small d a Hd Ha) as [l Hcore]. cbv zeta in Hcore.
  set (s := 53 + Zdigits2 a - Zdigits2 d) in *.
  replace (Zdigits2 d - Zdigits2 a - 53) with (- s) by (unfold s; lia).
  assert (Hs : 1 <= s <= 105) by (unfold s; lia).
  set (Q0 := d * 2 ^ s / a) in *.
  (* the integer quotient has 53 or 54 bits *)
  assert (HQ0 : 2 ^ 52 <= Q0 < 2 ^ 54).
  { unfold Q0. split.
    - apply Z.div_le_lower_bound; [lia|].
      assert (Hp : 2 ^ Zdigits2 a * 2 ^ 52 = 2 ^ (Zdigits2 d - 1) * 2 ^ s).
      { rewrite <- !Z.pow_add_r by lia. f_equal. unfold s. lia. }
      assert (0 < 2 ^ s) by (apply Z.pow_pos_nonneg; lia).
      assert (0 < 2 ^ 52) by (apply Z.pow_pos_nonneg; lia). nia.
    - apply Z.div_lt_upper_bound; [lia|].
      assert (Hp : 2 ^ Zdigits2 d * 2 ^ s = 2 ^ (Zdigits2 a - 1) * 2 ^ 54).
      { rewrite <- !Z.pow_add_r by lia. f_equal. unfold s. lia. }
      assert (0 < 2 ^ s) by (apply Z.pow_pos_nonneg; lia).
      assert (0 < 2 ^ 54) by (apply Z.pow_pos_nonneg; lia). nia. }
  assert (HD : 53 <= Zdigits2 Q0 <= 54).
  { split; [apply digits_at_least_53; lia|].
    destruct (Zdigits2_bounds Q0 ltac:(pose proof (Zpow2_pos 52); lia)) as [Hlo _].
    destruct (Z_le_gt_dec (Zdigits2 Q0) 54) as [H1|H1]; [exact H1|exfalso].
    assert (2 ^ 54 <= 2 ^ (Zdigits2 Q0 - 1)) by (apply Z.pow_le_mono_r; lia). lia. }
  destruct (round_aux_value Q0 (- s) l ltac:(lia) ltac:(lia))
    as [M [E [Heq [Hlo [Hhi [HE HM]]]]]].
  exists M, E. split.
  { unfold PyFloat.truediv.
    replace (a =? 0) with false by (symmetry; apply Z.eqb_neq; lia).
    destruct d as [|pd|pd]; try lia. destruct a as [|pa|pa]; try lia.
    cbn [PyFloat.exact SFdiv xorb]. rewrite Hcore. rewrite Heq. reflexivity. }
  (* the exact quotient lies between [Q0] and [Q0 + 1] units *)
  assert (Hpa : (0 < inject_Z a)%Q) by (change 0%Q with (inject_Z 0); rewrite <- Zlt_Qlt; lia).
  pose proof (pow2_pos (- s)) as Hi.
  pose proof (pow2_inv s) as Hinv. rewrite (pow2_Z s ltac:(lia)) in Hinv.
  assert (Hq1 : a * Q0 <= d * 2 ^ s) by (unfold Q0; apply Z.mul_div_le; lia).
  assert (Hq2 : d * 2 ^ s < a * (Q0 + 1))
    by (unfold Q0; apply (Z.mul_succ_div_gt (d * 2 ^ s) a); lia).
  rewrite Zle_Qle in Hq1. rewrite Zlt_Qlt in Hq2.
  rewrite !inject_Z_mult in Hq1, Hq2. rewrite inject_Z_plus in Hq2.
  change (inject_Z 1) with 1%Q in Hq2. rewrite <- Hx in Hq1, Hq2.
  set (A := inject_Z a) in *. set (q := inject_Z Q0) in *.
  set (p := inject_Z (2 ^ s)) in *. set (i := pow2 (- s)) in *.
  assert (Hx1 : (q * i <= x)%Q).
  { apply (Qmult_le_cancel_pos A); [exact Hpa|].
    assert (H : (A * q * i <= A * x * p * i)%Q)
      by (apply Qmult_le_compat_r; [exact Hq1|apply Qlt_le_weak; exact Hi]).
    assert (E1 : (A * x * p * i == A * x)%Q)
      by (transitivity (A * x * (p * i))%Q; [ring|rewrite Hinv; ring]).
    rewrite E1 in H. rewrite <- Qmult_assoc in H. exact H. }
  assert (Hx2 : (x < (q + 1) * i)%Q).
  { apply (Qmult_lt_cancel_pos A); [exact Hpa|].
    assert (H : (A * x * p * i < A * (q + 1) * i)%Q)
      by (apply Qmult_lt_compat_r; [exact Hi|exact Hq2]).
    assert (E1 : (A * x * p * i == A * x)%Q)
      by (transitivity (A * x * (p * i))%Q; [ring|rewrite Hinv; ring]).
    rewrite E1 in H. rewrite <- Qmult_assoc in H. exact H. }
  assert (Hu : (pow2 (- s + (Zdigits2 Q0 - 53)) <= 2 * i)%Q).
  { unfold i. rewrite <- pow2_succ. apply pow2_le. lia. }
  split; [|split; [|split; [lia|exact HM]]].
  - lra.
  - lra.
Qed.

Lemma digits_mono : forall d a, 0 < d <= a -> Zdigits2 d <= Zdigits2 a.
Proof.
  intros d a H.
  destruct (Zdigits2_bounds d ltac:(lia)) as [Hdlo _].
  destruct (Zdigits2_bounds a ltac:(lia)) as [_ Hahi].
  destruct (Z_le_gt_dec (Zdigits2 d) (Zdigits2 a)) as [H1|H1]; [exact H1|exfalso].
  assert (0 < Zdigits2 a) by (destruct a; simpl; lia).
  assert (2 ^ Zdigits2 a <= 2 ^ (Zdigits2 d - 1)) by (apply Z.pow_le_mono_r; lia). lia.
Qed.

(** *** The product of two floats and the truncation *)

(** The float product of two normal numbers is within one unit of weight
    [2^(E + F + 53)] of the exact product. *)
Lemma mul_value :
  forall M E H F,
    2 ^ 52 <= Zpos M < 2 ^ 53 -> 2 ^ 52 <= Zpos H < 2 ^ 53 ->
    -1074 <= E + F + 52 -> E + F + 53 <= 970 ->
    exists M' E',
      PyFloat.mul (S754_finite false M E) (S754_finite false H F) = S754_finite false M' E'
      /\ (fval M E * fval H F - pow2 (E + F + 53) <= fval M' E')%Q
      /\ (fval M' E' <= fval M E * fval H F + pow2 (E + F + 53))%Q.
Proof.
  intros M E H F HM HH Hlo Hhi.
  assert (Hm : 2 ^ 104 <= Zpos (M * H) < 2 ^ 106).
  { rewrite Pos2Z.inj_mul.
    change (2 ^ 104) with (2 ^ 52 * 2 ^ 52). change (2 ^ 106) with (2 ^ 53 * 2 ^ 53).
    split; [apply Z.mul_le_mono_nonneg; lia|apply Z.mul_lt_mono_nonneg; lia]. }
  assert (HD : 105 <= Zdigits2 (Zpos (M * H)) <= 106).
  { destruct (Zdigits2_bounds (Zpos (M * H)) ltac:(lia)) as [Hdlo Hdhi].
    set (D := Zdigits2 (Zpos (M * H))) in *.
    assert (0 < D) by (unfold D; simpl; lia).
    split.
    - destruct (Z_le_gt_dec 105 D) as [H1|H1]; [exact H1|exfalso].
      assert (2 ^ D <= 2 ^ 104) by (apply Z.pow_le_mono_r; lia). lia.
    - destruct (Z_le_gt_dec D 106) as [H1|H1]; [exact H1|exfalso].
      assert (2 ^ 106 <= 2 ^ (D - 1)) by (apply Z.pow_le_mono_r; lia). lia. }
  destruct (round_aux_value (Zpos (M * H)) (E + F) loc_Exact) as [M' [E' [Heq [Hl [Hh _]]]]].
  - change (2 ^ 52) with 4503599627370496. change (2 ^ 104) with 20282409603651670423947251286016 in Hm. lia.
  - lia.
  - exists M', E'. split; [exact Heq|].
    assert (Hval : (inject_Z (Zpos (M * H)) * pow2 (E + F) == fval M E * fval H F)%Q).
    { unfold fval. rewrite Pos2Z.inj_mul, inject_Z_mult, pow2_add. ring. }
    assert (Hu : (pow2 (E + F + (Zdigits2 (Zpos (M * H)) - 53)) <= pow2 (E + F + 53))%Q)
      by (apply pow2_le; lia).
    rewrite Hval in Hl, Hh. split; lra.
Qed.

(** [int] of a positive float is the floor of its value. *)
Lemma magnitude_floor :
  forall M E,
    (inject_Z (PyFloat.magnitude M E) <= fval M E)%Q /\
    (fval M E < inject_Z (PyFloat.magnitude M E) + 1)%Q.
Proof.
  intros M E. unfold fval, PyFloat.magnitude. destruct E as [|p|p].
  - rewrite Z.shiftl_0_r. change (pow2 0) with 1%Q. split; lra.
  - rewrite Z.shiftl_mul_pow2 by lia. rewrite inject_Z_mult.
    rewrite (pow2_Z (Zpos p)) by lia. split; lra.
  - rewrite Z.shiftr_div_pow2 by lia.
    change (Zneg p) with (- Zpos p).
    apply div_pow2_floor. lia.
Qed.

(** *** The savings percent against the exact quotient *)

Lemma of_int_100 : PyFloat.of_int 100 = Ok (S754_finite false 7036874417766400 (-46)).
Proof. reflexivity. Qed.

Lemma fval_100 : (fval 7036874417766400 (-46) == 100)%Q.
Proof. reflexivity. Qed.

Lemma pow2_m44 : (pow2 (-44) == 1 # 17592186044416)%Q.
Proof. reflexivity. Qed.

Lemma pow2_m53 : (pow2 (-53) == 1 # 9007199254740992)%Q.
Proof. reflexivity. Qed.

Lemma inject_Z_lt_cancel : forall x y : Z, (inject_Z x < inject_Z y + 1)%Q -> x <= y.
Proof.
  intros x y H. change 1%Q with (inject_Z 1) in H.
  rewrite <- inject_Z_plus in H. rewrite <- Zlt_Qlt in H. lia.
Qed.

(** Line 181 on averages [0 <= s <= a < 2048]: the result is the floor of
    the exact percentage, or one less. *)
Lemma savings_pct_floor_or_less :
  forall a s, 0 < a < 2 ^ 11 -> 0 <= s <= a ->
    exists p, savings_pct_of a s = Ok p
      /\ 100 * (a - s) / a - 1 <= p <= 100 * (a - s) / a.
Proof.
  intros a s Ha Hs.
  destruct (Z.eq_dec s a) as [->|Hne].
  { exists 0. unfold savings_pct_of. rewrite Z.sub_diag.
    split; [|rewrite Z.mul_0_r, Z.div_0_l by lia; lia].
    unfold PyNum.truediv, PyFloat.truediv.
    replace (a =? 0) with false by (symmetry; apply Z.eqb_neq; lia).
    destruct a as [|pa|pa]; try lia. reflexivity. }
  set (d := a - s) in *.
  assert (Hd : 0 < d <= a) by (unfold d; lia).
  change (2 ^ 11) with 2048 in Ha.
  assert (Hpa : (0 < inject_Z a)%Q) by (change 0%Q with (inject_Z 0); rewrite <- Zlt_Qlt; lia).
  set (x := (inject_Z d / inject_Z a)%Q).
  assert (Hx : (inject_Z a * x == inject_Z d)%Q).
  { unfold x. field. intros H0. rewrite H0 in Hpa. apply (Qlt_irrefl 0 Hpa). }
  pose proof (digits_mono d a Hd) as Hdm.
  pose proof (digits_small d ltac:(change (2 ^ 53) with 9007199254740992; lia)) as Hd1.
  pose proof (digits_small a ltac:(change (2 ^ 53) with 9007199254740992; lia)) as Hd2.
  assert (Hda : Zdigits2 a <= 11).
  { destruct (Zdigits2_bounds a ltac:(lia)) as [Halo _].
    destruct (Z_le_gt_dec (Zdigits2 a) 11) as [H1|H1]; [exact H1|exfalso].
    assert (2 ^ 11 <= 2 ^ (Zdigits2 a - 1)) by (apply Z.pow_le_mono_r; lia).
    change (2 ^ 11) with 2048 in *. lia. }
  destruct (truediv_value d a x) as [M [E [Hq [Hql [Hqh [HE HM]]]]]];
    [change (2 ^ 53) with 9007199254740992; lia
    |change (2 ^ 53) with 9007199254740992; lia|exact Hx|].
  set (e0 := Zdigits2 d - Zdigits2 a - 53) in *.
  destruct (mul_value M E 7036874417766400 (-46) HM ltac:(vm_compute; split; congruence + reflexivity))
    as [M' [E' [Hmul [Hml Hmh]]]]; [unfold e0 in HE; lia|unfold e0 in HE; lia|].
  exists (PyFloat.magnitude M' E'). split.
  { unfold savings_pct_of, PyNum.truediv. fold d. rewrite Hq. cbn [rbind PyNum.mul].
    rewrite of_int_100. cbn [rbind]. rewrite Hmul. reflexivity. }
  destruct (magnitude_floor M' E') as [Hfl Hfh].
  set (p := PyFloat.magnitude M' E') in *.
  set (r := fval M' E') in *.
  rewrite fval_100 in Hml, Hmh.
  assert (Hu1 : (pow2 e0 <= 1 # 9007199254740992)%Q)
    by (rewrite <- pow2_m53; apply pow2_le; unfold e0; lia).
  assert (Hu2 : (pow2 (E + -46 + 53) <= 1 # 17592186044416)%Q)
    by (rewrite <- pow2_m44; apply pow2_le; unfold e0 in HE; lia).
  pose proof (pow2_pos e0) as Hp1. pose proof (pow2_pos (E + -46 + 53)) as Hp2.
  (* the exact percentage against its floor *)
  set (F0 := 100 * d / a).
  assert (Hf1 : a * F0 <= 100 * d) by (unfold F0; apply Z.mul_div_le; lia).
  assert (Hf2 : 100 * d + 1 <= a * (F0 + 1)).
  { pose proof (Z.mul_succ_div_gt (100 * d) a ltac:(lia)). unfold F0. lia. }
  rewrite Zle_Qle in Hf1, Hf2.
  rewrite !inject_Z_plus, !inject_Z_mult in Hf2. rewrite !inject_Z_mult in Hf1.
  rewrite inject_Z_plus in Hf2.
  change (inject_Z 1) with 1%Q in Hf2. change (inject_Z 100) with 100%Q in Hf1, Hf2.
  rewrite <- Hx in Hf1, Hf2.
  assert (HA : (inject_Z a <= 2047)%Q)
    by (change 2047%Q with (inject_Z 2047); rewrite <- Zle_Qle; lia).
  set (A := inject_Z a) in *. set (f := inject_Z F0) in *.
  assert (Hx1 : (f <= 100 * x)%Q).
  { apply (Qmult_le_cancel_pos A); [exact Hpa|].
    setoid_replace (A * (100 * x))%Q with (100 * (A * x))%Q by ring. exact Hf1. }
  assert (Hx2 : ((1 # 2048) < f + 1 - 100 * x)%Q).
  { destruct (Qlt_le_dec (1 # 2048) (f + 1 - 100 * x)) as [H1|H1]; [exact H1|exfalso].
    assert (H2 : (A * (f + 1 - 100 * x) <= A * (1 # 2048))%Q)
      by (apply Qmult_le_l; [exact Hpa|exact H1]).
    assert (H3 : (A * (f + 1 - 100 * x) == A * (f + 1) - 100 * (A * x))%Q) by ring.
    rewrite H3 in H2. lra. }
  split.
  - assert (Hr : (f - 1 < r)%Q) by lra.
    assert (Hc : (inject_Z (F0 - 2) < inject_Z p + 1 - 1)%Q).
    { unfold Z.sub. rewrite inject_Z_plus. change (inject_Z (- (2))) with (-2 # 1)%Q. fold f. lra. }
    assert (Hc' : (inject_Z (F0 - 2) < inject_Z p)%Q) by lra.
    rewrite <- Zlt_Qlt in Hc'. lia.
  - assert (Hr : (r < f + 1)%Q) by lra.
    assert (Hc : (inject_Z p < inject_Z F0 + 1)%Q) by (fold f; lra).
    apply inject_Z_lt_cancel in Hc. lia.
Qed.

(** *** The conversion of an int *)

Lemma iter_xO_pow2 : forall d p, Zpos (Pos.iter xO p d) = Zpos p * 2 ^ Zpos d.
Proof.
  intros d p. induction d as [|d IH] using Pos.peano_ind.
  - cbn [Pos.iter]. lia.
  - rewrite Pos.iter_succ, Pos2Z.inj_xO, IH, Pos2Z.inj_succ.
    rewrite Z.pow_succ_r by lia. lia.
Qed.

(** A mantissa of exactly 53 bits is not rounded. *)
Lemma round_aux_exact :
  forall m e,
    2 ^ 52 <= Zpos m < 2 ^ 53 -> -1074 <= e <= 970 ->
    binary_round_aux PyFloat.prec PyFloat.emax false (Zpos m) e loc_Exact
    = S754_finite false m e.
Proof.
  intros m e Hm He.
  assert (Hd : Zdigits2 (Zpos m) = 53)
    by (apply Zdigits2_unique; [lia|]; simpl (53 - 1); exact Hm).
  unfold binary_round_aux, shr_fexp.
  rewrite Hd, fexp_normal by lia.
  replace (53 + e - 53 - e) with 0 by lia.
  cbn [shr shr_record_of_loc shr_m loc_of_shr_record round_nearest_even].
  rewrite Hd, fexp_normal by lia.
  replace (53 + e - 53 - e) with 0 by lia.
  cbn [shr shr_record_of_loc shr_m].
  replace (e <=? PyFloat.emax - PyFloat.prec) with true
    by (symmetry; apply Z.leb_le; unfold PyFloat.emax, PyFloat.prec; lia).
  reflexivity.
Qed.

(** [float(z)] is exact for an int of at most 53 bits. *)
Lemma of_int_value :
  forall z, 0 < z < 2 ^ 53 ->
    exists M,
      PyFloat.of_int z = Ok (S754_finite false M (Zdigits2 z - 53))
      /\ 2 ^ 52 <= Zpos M < 2 ^ 53
      /\ (fval M (Zdigits2 z - 53) == inject_Z z)%Q.
Proof.
  intros z Hz. destruct z as [|p|p]; try lia.
  pose proof (digits_small (Zpos p) Hz) as HD.
  destruct (Zdigits2_bounds (Zpos p) ltac:(lia)) as [Hlo Hhi].
  unfold PyFloat.of_int, binary_normalize, binary_round.
  cbn [Zdigits2] in *. set (D := Zpos (digits2_pos p)) in *.
  replace (D + 0) with D by lia. rewrite fexp_normal by lia.
  unfold shl_align. replace (D - 53 - 0) with (D - 53) by lia.
  destruct (D - 53) as [|d|d] eqn:Hd; try lia.
  - assert (H53 : D = 53) by lia. rewrite H53 in Hlo. simpl (53 - 1) in Hlo.
    rewrite round_aux_exact by lia.
    exists p. split; [reflexivity|]. split; [lia|].
    unfold fval. change (pow2 0) with 1%Q. ring.
  - assert (Hm : 2 ^ 52 <= Zpos (Pos.iter xO p d) < 2 ^ 53).
    { rewrite iter_xO_pow2.
      assert (H1 : 2 ^ (D - 1) * 2 ^ Zpos d = 2 ^ 52)
        by (rewrite <- Z.pow_add_r by lia; f_equal; lia).
      assert (H2 : 2 ^ D * 2 ^ Zpos d = 2 ^ 53)
        by (rewrite <- Z.pow_add_r by lia; f_equal; lia).
      pose proof (Zpow2_pos (Zpos d) ltac:(lia)). nia. }
    rewrite round_aux_exact by (try exact Hm; lia).
    exists (Pos.iter xO p d). split; [reflexivity|]. split; [exact Hm|].
    unfold fval. rewrite iter_xO_pow2, inject_Z_mult.
    rewrite <- (pow2_Z (Zpos d)) by lia.
    rewrite <- Qmult_assoc, <- pow2_add.
    replace (Zpos d + Zneg d) with 0 by lia. change (pow2 0) with 1%Q. ring.
Qed.

Lemma digits_upper : forall z k, 0 < z < 2 ^ k -> Zdigits2 z <= k.
Proof.
  intros z k Hz.
  destruct (Zdigits2_bounds z ltac:(lia)) as [Hlo _].
  destruct (Z_le_gt_dec (Zdigits2 z) k) as [H1|H1]; [exact H1|exfalso].
  assert (0 <= k) by (destruct k; try lia; simpl in Hz; lia).
  assert (2 ^ k <= 2 ^ (Zdigits2 z - 1)) by (apply Z.pow_le_mono_r; lia). lia.
Qed.

Lemma inject_Z_pos : forall z, 0 < z -> (0 < inject_Z z)%Q.
Proof. intros z Hz. change 0%Q with (inject_Z 0). rewrite <- Zlt_Qlt. exact Hz. Qed.

(** *** The smart time against the exact quotient *)

(** Lines 159-160 on a baseline below 2048 and a selection below [2^39]:
    the result is the floor of the exact [base * selected / total], or one
    less. *)
Lemma smart_time_floor_or_less :
  forall base selected total,
    0 < base < 2 ^ 11 -> 0 <= selected < 2 ^ 39 -> 0 < total < 2 ^ 53 ->
    exists s,
      smart_time_of base selected total = Ok s
      /\ base * selected / total - 1 <= s <= base * selected / total.
Proof.
  intros base selected total Hb Hs Ht.
  assert (Hb53 : 0 < base < 2 ^ 53)
    by (change (2 ^ 11) with 2048 in Hb; change (2 ^ 53) with 9007199254740992; lia).
  destruct (of_int_value base Hb53) as [Mb [Hof [HMb HBv]]].
  unfold smart_time_of, ratio_of.
  replace (total >? 0) with true by (symmetry; apply Z.gtb_lt; lia).
  cbn [PyNum.truediv].
  destruct (Z.eq_dec selected 0) as [->|Hne].
  { exists 0. rewrite Z.mul_0_r, Z.div_0_l by lia. split; [|lia].
    unfold PyFloat.truediv.
    replace (total =? 0) with false by (symmetry; apply Z.eqb_neq; lia).
    destruct total as [|pt|pt]; try lia.
    cbn [PyFloat.exact SFdiv xorb PyFloat.checked rbind PyNum.mul].
    rewrite Hof. reflexivity. }
  assert (Hs53 : 0 < selected < 2 ^ 53)
    by (change (2 ^ 39) with 549755813888 in Hs; change (2 ^ 53) with 9007199254740992; lia).
  pose proof (inject_Z_pos total ltac:(lia)) as HpA.
  pose proof (inject_Z_pos base ltac:(lia)) as HpB.
  set (x := (inject_Z selected / inject_Z total)%Q).
  assert (Hx : (inject_Z total * x == inject_Z selected)%Q).
  { unfold x. field. intros H0. rewrite H0 in HpA. apply (Qlt_irrefl 0 HpA). }
  pose proof (digits_small selected Hs53) as Hdd.
  pose proof (digits_upper selected 39 ltac:(lia)) as Hdd39.
  pose proof (digits_small total Ht) as Hda.
  pose proof (digits_small base Hb53) as Hdb.
  pose proof (digits_upper base 11 ltac:(lia)) as Hdb11.
  destruct (truediv_value selected total x Hs53 Ht Hx) as [M [E [Hq [Hql [Hqh [HE HM]]]]]].
  set (e0 := Zdigits2 selected - Zdigits2 total - 53) in *.
  destruct (mul_value Mb (Zdigits2 base - 53) M E HMb HM)
    as [M' [E' [Hmul [Hml Hmh]]]]; [lia|lia|].
  exists (PyFloat.magnitude M' E'). split.
  { rewrite Hq. cbn [rbind PyNum.mul]. rewrite Hof. cbn [rbind PyNum.int].
    rewrite Hmul. reflexivity. }
  destruct (magnitude_floor M' E') as [Hfl Hfh].
  set (p := PyFloat.magnitude M' E') in *.
  set (r := fval M' E') in *. set (q := fval M E) in *.
  rewrite HBv in Hml, Hmh.
  set (B := inject_Z base) in *. set (A := inject_Z total) in *.
  set (u := pow2 e0) in *.
  pose proof (pow2_pos e0) as Hu. fold u in Hu.
  (* the units of the two roundings *)
  assert (Hw : (pow2 (Zdigits2 base - 53 + E + 53) <= 8192 * u)%Q).
  { assert (E13 : (pow2 (e0 + 13) == 8192 * u)%Q)
      by (rewrite pow2_add; unfold u; change (pow2 13) with (8192 # 1)%Q; ring).
    rewrite <- E13. apply pow2_le. lia. }
  assert (HB : (B <= 2047)%Q)
    by (unfold B; change 2047%Q with (inject_Z 2047); rewrite <- Zle_Qle;
        change (2 ^ 11) with 2048 in Hb; lia).
  assert (HBu : (B * u <= 2047 * u)%Q)
    by (apply Qmult_le_compat_r; [exact HB|apply Qlt_le_weak; exact Hu]).
  assert (HBq1 : (B * (x - 3 * u) <= B * q)%Q) by (apply Qmult_le_l; assumption).
  assert (HBq2 : (B * q <= B * (x + 2 * u))%Q) by (apply Qmult_le_l; assumption).
  set (v := pow2 (- Zdigits2 total)).
  assert (Huv : (16384 * u <= v)%Q).
  { assert (E14 : (pow2 (- Zdigits2 total - 14 + 14) == 16384 * pow2 (- Zdigits2 total - 14))%Q)
      by (rewrite pow2_add; change (pow2 14) with (16384 # 1)%Q; ring).
    replace (- Zdigits2 total - 14 + 14) with (- Zdigits2 total) in E14 by lia.
    unfold v. rewrite E14.
    apply Qmult_le_l; [reflexivity|]. apply pow2_le. unfold e0. lia. }
  assert (Hv1 : (v <= 1)%Q).
  { unfold v. change 1%Q with (pow2 0). apply pow2_le. lia. }
  (* the exact product against its floor *)
  set (F0 := base * selected / total).
  assert (Hf1 : total * F0 <= base * selected) by (unfold F0; apply Z.mul_div_le; lia).
  assert (Hf2 : base * selected + 1 <= total * (F0 + 1)).
  { pose proof (Z.mul_succ_div_gt (base * selected) total ltac:(lia)). unfold F0. lia. }
  rewrite Zle_Qle in Hf1, Hf2.
  rewrite !inject_Z_plus, !inject_Z_mult in Hf2. rewrite !inject_Z_mult in Hf1.
  rewrite inject_Z_plus in Hf2.
  change (inject_Z 1) with 1%Q in Hf2.
  fold B in Hf1, Hf2. fold A in Hf1, Hf2. rewrite <- Hx in Hf1, Hf2. fold A in Hf1, Hf2.
  set (f := inject_Z F0) in *.
  assert (Hx1 : (f <= B * x)%Q).
  { apply (Qmult_le_cancel_pos A); [exact HpA|].
    setoid_replace (A * (B * x))%Q with (B * (A * x))%Q by ring. exact Hf1. }
  assert (HA : (A < pow2 (Zdigits2 total))%Q).
  { rewrite pow2_Z by lia. unfold A. rewrite <- Zlt_Qlt.
    apply (Zdigits2_bounds total). lia. }
  assert (Hx2 : (v < f + 1 - B * x)%Q).
  { destruct (Qlt_le_dec v (f + 1 - B * x)) as [H1|H1]; [exact H1|exfalso].
    assert (H2 : (A * (f + 1 - B * x) <= A * v)%Q)
      by (apply Qmult_le_l; [exact HpA|exact H1]).
    assert (H3 : (A * (f + 1 - B * x) == A * (f + 1) - B * (A * x))%Q) by ring.
    assert (H4 : (A * v < pow2 (Zdigits2 total) * v)%Q)
      by (apply Qmult_lt_compat_r; [apply pow2_pos|exact HA]).
    pose proof (pow2_inv (Zdigits2 total)) as H5. fold v in H5.
    rewrite H3 in H2. rewrite H5 in H4. lra. }
  assert (E1 : (B * (x - 3 * u) == B * x - 3 * (B * u))%Q) by ring.
  assert (E2 : (B * (x + 2 * u) == B * x + 2 * (B * u))%Q) by ring.
  rewrite E1 in HBq1. rewrite E2 in HBq2.
  set (Bx := (B * x)%Q) in *. set (Bq := (B * q)%Q) in *. set (Bu := (B * u)%Q) in *.
  set (w := pow2 (Zdigits2 base - 53 + E + 53)) in *.
  split.
  - assert (Hr : (f - 1 < r)%Q) by lra.
    assert (Hc : (inject_Z (F0 - 2) < inject_Z p)%Q).
    { unfold Z.sub. rewrite inject_Z_plus. change (inject_Z (- (2))) with (-2 # 1)%Q.
      fold f. lra. }
    rewrite <- Zlt_Qlt in Hc. lia.
  - assert (Hr : (r < f + 1)%Q) by lra.
    assert (Hc : (inject_Z p < inject_Z F0 + 1)%Q) by (fold f; lra).
    apply inject_Z_lt_cancel in Hc. lia.
Qed.

(** ** The simulated timing *)

Lemma base_time_spec : forall i, base_time i = Spec.baseline_time i.
Proof. intros i. unfold base_time, Spec.baseline_time. lia. Qed.

Lemma base_time_nonneg : forall i, 0 <= base_time i.
Proof. intros i. unfold base_time. lia. Qed.

Lemma smart_time_of_floor :
  forall base selected total,
    0 <= base -> 0 <= selected -> 0 <= total ->
    smart_time_of base selected total
    = (r <- Spec.ratio selected total ;;
       p <- PyNum.mul (NInt base) r ;;
       PyNum.floor p)%res.
Proof.
  intros base selected total Hb Hs Ht.
  unfold smart_time_of, ratio_of, Spec.ratio.
  rewrite Z.gtb_ltb.
  destruct (0 <? total) eqn:Hpos; [|reflexivity].
  apply Z.ltb_lt in Hpos.
  cbn [PyNum.truediv rbind].
  destruct (PyFloat.truediv selected total) as [q|e] eqn:Hq; [|reflexivity].
  cbn [rbind PyNum.mul].
  destruct (PyFloat.of_int base) as [b|e] eqn:Hbase; [|reflexivity].
  cbn [rbind PyNum.int PyNum.floor].
  symmetry. apply floor_eq_to_int. apply mul_nonneg.
  - apply (of_int_nonneg base); assumption.
  - apply (truediv_nonneg selected total); assumption.
Qed.

Lemma smart_time_of_nonneg :
  forall base selected total s,
    0 <= base -> 0 <= selected ->
    smart_time_of base selected total = Ok s -> 0 <= s.
Proof.
  intros base selected total s Hb Hs H.
  unfold smart_time_of, ratio_of in H.
  destruct (total >? 0) eqn:Hpos.
  - apply Z.gtb_lt in Hpos.
    cbn [PyNum.truediv rbind] in H.
    destruct (PyFloat.truediv selected total) as [q|e] eqn:Hq; [|discriminate].
    cbn [rbind PyNum.mul] in H.
    destruct (PyFloat.of_int base) as [b|e] eqn:Hbase; [|discriminate].
    cbn [rbind PyNum.int] in H.
    eapply to_int_nonneg; [|exact H]. apply mul_nonneg.
    + apply (of_int_nonneg base); assumption.
    + apply (truediv_nonneg selected total); assumption.
  - cbn in H. injection H as <-. lia.
Qed.

(** ** The smart time at the positions of the loop *)

(** Every position below 20, with every test selected. *)
Lemma full_run_ok_all : forallb full_run_ok (seq 0 20) = true.
Proof. vm_cast_no_check (eq_refl true). Qed.

Lemma base_time_below_2048 : forall i, (i < 20)%nat -> 0 < base_time i < 2 ^ 11.
Proof. intros i Hi. change (2 ^ 11) with 2048. unfold base_time. lia. Qed.

Lemma total_test_count_small :
  forall i, (i < 20)%nat -> 0 < total_test_count i < 2 ^ 39.
Proof.
  intros i Hi. change (2 ^ 39) with 549755813888. unfold total_test_count. lia.
Qed.

Lemma smart_time_in_range :
  forall (i : nat) (selected : Z),
    (i < 20)%nat -> 0 <= selected < 2 ^ 39 ->
    exists s,
      smart_time_of (base_time i) selected (total_test_count i) = Ok s /\
      0 <= s /\
      base_time i * selected / total_test_count i - 1 <= s
        <= base_time i * selected / total_test_count i /\
      (selected <= total_test_count i -> s <= base_time i) /\
      (selected = total_test_count i -> s = base_time i) /\
      (selected = 0 -> s = 0).
Proof.
  intros i selected Hi Hsel.
  pose proof (base_time_below_2048 i Hi) as Hb.
  pose proof (total_test_count_small i Hi) as Ht.
  assert (Ht53 : 0 < total_test_count i < 2 ^ 53)
    by (change (2 ^ 39) with 549755813888 in Ht;
        change (2 ^ 53) with 9007199254740992; lia).
  destruct (smart_time_floor_or_less (base_time i) selected (total_test_count i)
              Hb Hsel Ht53) as [s [Hs Hexact]].
  exists s. split; [exact Hs|].
  assert (H0 : 0 <= s)
    by (eapply smart_time_of_nonneg; [apply base_time_nonneg| |exact Hs]; lia).
  split; [exact H0|]. split; [exact Hexact|]. split; [|split].
  - intros Hle.
    assert (base_time i * selected / total_test_count i <= base_time i); [|lia].
    apply Z.div_le_upper_bound; [lia|]. nia.
  - intros ->.
    pose proof full_run_ok_all as Hall. rewrite forallb_forall in Hall.
    specialize (Hall i ltac:(apply in_seq; lia)). unfold full_run_ok in Hall.
    rewrite Hs in Hall. apply Z.eqb_eq in Hall. exact Hall.
  - intros ->. rewrite Z.mul_0_r, Z.div_0_l in Hexact by lia. lia.
Qed.


(** Line 181 divides by [avg_current] only. *)
Lemma savings_no_zero_division :
  forall a s, a <> 0 -> savings_pct_of a s <> Raise ZeroDivisionError.
Proof.
  intros a s Ha. unfold savings_pct_of. cbn [PyNum.truediv].
  unfold PyFloat.truediv. apply Z.eqb_neq in Ha. rewrite Ha.
  destruct (SFdiv PyFloat.prec PyFloat.emax (PyFloat.exact (a - s)) (PyFloat.exact a))
    as [sg|sg| |sg m e]; cbn; try discriminate;
    match goal with
    | |- context [PyFloat.to_int ?x] => destruct x; cbn; discriminate
    end.
Qed.

(** ** Exceptions of the arithmetic *)

Create HintDb pyarith.

Lemma arith_only_ok : forall A (a : A), arith_only (Ok a).
Proof. intros A a e H. discriminate. Qed.

Lemma arith_only_bind :
  forall A B (r : result A) (k : A -> result B),
    arith_only r -> (forall a, arith_only (k a)) -> arith_only (rbind r k).
Proof.
  intros A B r k Hr Hk e H. destruct r as [a|e0]; simpl in H.
  - exact (Hk a e H).
  - injection H as <-. apply Hr. reflexivity.
Qed.

Lemma arith_only_checked : forall x, arith_only (PyFloat.checked x).
Proof.
  intros x e H. destruct x; simpl in H; try discriminate.
  injection H as <-. reflexivity.
Qed.

Lemma arith_only_of_int : forall z, arith_only (PyFloat.of_int z).
Proof. intros z. apply arith_only_checked. Qed.

Lemma arith_only_float_truediv : forall a b, arith_only (PyFloat.truediv a b).
Proof.
  intros a b. unfold PyFloat.truediv. destruct (b =? 0).
  - intros e H. injection H as <-. reflexivity.
  - apply arith_only_checked.
Qed.

Lemma arith_only_float_div : forall x y, arith_only (PyFloat.div x y).
Proof.
  intros x y e H. destruct y; simpl in H; try discriminate.
  injection H as <-. reflexivity.
Qed.

Lemma arith_only_to_int : forall x, arith_only (PyFloat.to_int x).
Proof.
  intros x e H.
  destruct x; simpl in H; try discriminate; injection H as <-; reflexivity.
Qed.

Lemma arith_only_floordiv : forall a b, arith_only (floordiv a b).
Proof.
  intros a b e H. unfold floordiv in H. destruct (b =? 0); [|discriminate].
  injection H as <-. reflexivity.
Qed.

#[local] Hint Resolve arith_only_ok arith_only_of_int arith_only_float_truediv
  arith_only_float_div arith_only_to_int arith_only_floordiv : pyarith.

Ltac arith_only_tac :=
  repeat first
    [ apply arith_only_bind; [|intros ?]
    | solve [auto with pyarith] ].

Lemma arith_only_num_truediv : forall a b, arith_only (PyNum.truediv a b).
Proof. intros [x|x] [y|y]; cbn [PyNum.truediv]; arith_only_tac. Qed.

Lemma arith_only_num_mul : forall a b, arith_only (PyNum.mul a b).
Proof. intros [x|x] [y|y]; cbn [PyNum.mul]; arith_only_tac. Qed.

Lemma arith_only_num_int : forall a, arith_only (PyNum.int a).
Proof. intros [x|x]; cbn [PyNum.int]; arith_only_tac. Qed.

#[local] Hint Resolve arith_only_num_truediv arith_only_num_mul arith_only_num_int
  : pyarith.

Lemma arith_only_savings : forall a s, arith_only (savings_pct_of a s).
Proof. intros a s. unfold savings_pct_of. arith_only_tac. Qed.

Lemma arith_only_dollars : forall a s, arith_only (dollar_savings_of a s).
Proof. intros a s. unfold dollar_savings_of. arith_only_tac. Qed.

#[local] Hint Resolve arith_only_savings arith_only_dollars : pyarith.

(** The only [HTTPException] of lines 172-205 is the one of line 173. *)
Lemma respond_http :
  forall name acc e,
    respond name acc = Raise e -> is_http e = true ->
    analyzed acc = 0 /\ e = HTTPException 400 "No commits could be analyzed".
Proof.
  intros name acc e H Hhttp. unfold respond in H.
  destruct (analyzed acc =? 0) eqn:Hz.
  - apply Z.eqb_eq in Hz. injection H as <-. split; [exact Hz|reflexivity].
  - exfalso. revert H.
    match goal with
    | |- ?r = _ -> _ => assert (Harith : arith_only r) by arith_only_tac
    end.
    intros H. specialize (Harith _ H). congruence.
Qed.

Lemma respond_no_pairs :
  forall name acc,
    respond name acc = Raise (HTTPException 400 "No commits could be analyzed")
    <-> analyzed acc = 0.
Proof.
  intros name acc. split.
  - intros H. apply respond_http in H; [tauto|reflexivity].
  - intros Hz. unfold respond. rewrite Hz. reflexivity.
Qed.

(** ** Verdicts *)

Lemma sum_from : forall l a, fold_left Z.add l a = a + PyObj.sum l.
Proof.
  unfold PyObj.sum. induction l as [|x l IH]; intros a; cbn [fold_left].
  - lia.
  - rewrite IH, (IH (0 + x)). lia.
Qed.





Lemma eq_str_true : forall v s, PyObj.eq_str v s = true <-> v = JStr s.
Proof.
  intros v s. destruct v; cbn [PyObj.eq_str]; try (split; [discriminate|congruence]).
  rewrite String.eqb_eq. split; congruence.
Qed.


Lemma select_tests_cases :
  forall i analysis mode,
    PyObj.getitem analysis "analysis_mode" = Ok mode ->
    select_tests i analysis
    = if PyObj.eq_str mode "smart_selection"
      then (n <- func_count analysis ;; Ok (Z.max 50 (n * 15)))%res
      else if PyObj.eq_str mode "no_changes" then Ok 0
           else Ok (total_test_count i).
Proof.
  intros i analysis mode Hmode. unfold select_tests. rewrite Hmode.
  cbn [rbind]. reflexivity.
Qed.

Lemma select_tests_nonneg :
  forall i analysis sel, select_tests i analysis = Ok sel -> 0 <= sel.
Proof.
  intros i analysis sel H.
  destruct (PyObj.getitem analysis "analysis_mode") as [mode|e] eqn:Hmode.
  - rewrite (select_tests_cases i analysis mode Hmode) in H.
    destruct (PyObj.eq_str mode "smart_selection").
    + destruct (func_count analysis) as [n|e]; [|discriminate].
      cbn [rbind] in H. injection H as <-. lia.
    + destruct (PyObj.eq_str mode "no_changes"); injection H as <-;
        unfold total_test_count; lia.
  - unfold select_tests in H. rewrite Hmode in H. discriminate.
Qed.

Lemma len_nonneg : forall v n, PyObj.len v = Ok n -> 0 <= n.
Proof. intros v n H. destruct v; simpl in H; try discriminate; injection H as <-; lia. Qed.

Lemma mapM_len_nonneg :
  forall vs lens, mapM PyObj.len vs = Ok lens -> Forall (fun n => 0 <= n) lens.
Proof.
  induction vs as [|v vs IH]; intros lens H; cbn [mapM] in H.
  - injection H as <-. constructor.
  - destruct (PyObj.len v) as [n|e] eqn:Hn; [|discriminate]. cbn [rbind] in H.
    destruct (mapM PyObj.len vs) as [ns|e]; [|discriminate]. cbn [rbind] in H.
    injection H as <-. constructor; [exact (len_nonneg v n Hn)|apply IH; reflexivity].
Qed.

Lemma sum_nonneg : forall l, Forall (fun n => 0 <= n) l -> 0 <= PyObj.sum l.
Proof.
  intros l H. induction H as [|x l Hx Hl IH]; [unfold PyObj.sum; simpl; lia|].
  unfold PyObj.sum. cbn [fold_left]. rewrite sum_from. lia.
Qed.

Lemma func_count_nonneg : forall analysis n, func_count analysis = Ok n -> 0 <= n.
Proof.
  intros analysis n H. unfold func_count in H.
  destruct (PyObj.get analysis "changed_functions" (JDict [])) as [cf|e]; [|discriminate].
  cbn [rbind] in H. destruct (PyObj.values cf) as [vs|e]; [|discriminate].
  cbn [rbind] in H. destruct (mapM PyObj.len vs) as [lens|e] eqn:Hlens; [|discriminate].
  cbn [rbind] in H. injection H as <-.
  apply sum_nonneg. exact (mapM_len_nonneg vs lens Hlens).
Qed.

(** A pair that was analyzed has the workload and the baseline of its
    position. *)
Lemma pair_metrics_fields :
  forall i analysis pm,
    pair_metrics i analysis = Ok pm ->
    pm_base_time pm = base_time i /\
    pm_total_test_count pm = total_test_count i /\
    select_tests i analysis = Ok (pm_selected pm) /\
    smart_time_of (base_time i) (pm_selected pm) (total_test_count i)
    = Ok (pm_smart_time pm).
Proof.
  intros i analysis pm H. unfold pair_metrics, simulate_metrics in H.
  destruct (select_tests i analysis) as [sel|e]; [|discriminate].
  cbn [rbind] in H.
  destruct (smart_time_of (base_time i) sel (total_test_count i)) as [s|e] eqn:Hs;
    [|discriminate].
  cbn [rbind] in H. injection H as <-. cbn. auto.
Qed.

Lemma pair_metrics_nonneg :
  forall i analysis pm,
    pair_metrics i analysis = Ok pm ->
    0 <= pm_selected pm /\ 0 <= pm_smart_time pm.
Proof.
  intros i analysis pm H.
  destruct (pair_metrics_fields i analysis pm H) as [_ [_ [Hsel Hs]]].
  assert (Hsel0 : 0 <= pm_selected pm) by (eapply select_tests_nonneg; exact Hsel).
  split; [exact Hsel0|].
  eapply smart_time_of_nonneg; [apply base_time_nonneg|exact Hsel0|exact Hs].
Qed.

(** ** The loop over the commit pairs *)

Lemma filter_ext_on :
  forall (A : Type) (f g : A -> bool) (l : list A),
    (forall a, In a l -> f a = g a) -> filter f l = filter g l.
Proof.
  intros A f g l. induction l as [|a l IH]; intros H; [reflexivity|].
  cbn [filter]. rewrite (H a (or_introl eq_refl)), IH; [reflexivity|].
  intros b Hb. apply H. right. exact Hb.
Qed.

Lemma filter_empty_iff :
  forall (A : Type) (f : A -> bool) (l : list A),
    List.length (filter f l) = 0%nat <-> (forall a, In a l -> f a = false).
Proof.
  intros A f l. induction l as [|a l IH]; cbn [filter].
  - split; [intros _ b []|reflexivity].
  - destruct (f a) eqn:Hfa.
    + split; [discriminate|]. intros H.
      specialize (H a (or_introl eq_refl)). congruence.
    + rewrite IH. split.
      * intros H b [<-|Hb]; [exact Hfa|apply H; exact Hb].
      * intros H b Hb. apply H. right. exact Hb.
Qed.

Lemma commit_at_some :
  forall commits i,
    (i < List.length commits)%nat -> nth_error commits i = Some (commit_at commits i).
Proof. intros. unfold commit_at. apply nth_error_nth'. assumption. Qed.

Lemma pair_indices_in_range :
  forall commits i,
    In i (pair_indices commits) -> (i < 20 /\ i + 1 < List.length commits)%nat.
Proof. intros commits i H. unfold pair_indices in H. apply in_seq in H. lia. Qed.

Lemma pairs_of_call_events :
  forall dir commits idx,
    pairs_of_trace (map (call_event dir commits) idx)
    = map (fun i => (commit_at commits i, commit_at commits (i + 1))) idx.
Proof.
  intros dir commits idx. induction idx as [|i idx IH]; [reflexivity|].
  cbn [map pairs_of_trace call_event]. rewrite IH. reflexivity.
Qed.

Lemma analyzed_add_outcome :
  forall acc o,
    analyzed (add_outcome acc o) = analyzed acc + (if is_some o then 1 else 0).
Proof. intros acc [pm|]; simpl; lia. Qed.

Section Loop.

Variable w : World.
Variable temp_dir : string.

(** The inner [try] with its handler: one analyzer call, and the totals
    moved by the outcome of the pair. *)
Lemma analyze_pair_outcome :
  forall i h b acc,
    try_except (analyze_pair w temp_dir i h b acc) (fun _ => ret acc)
    = ([EvAnalyze temp_dir b h], Ok (add_outcome acc (pair_outcome w temp_dir i h b))).
Proof.
  intros i h b acc.
  unfold analyze_pair, pair_outcome, emit, bind.
  destruct (smart_ci w temp_dir b h) as [result|e]; [|reflexivity].
  destruct ((returncode result =? 0) && PyStr.nonempty (PyStr.strip (stdout result)));
    [|reflexivity].
  destruct (json_loads w (stdout result)) as [analysis|e].
  - unfold lift. destruct (interpret_verdict i analysis) as [[pm|]|e]; reflexivity.
  - destruct e; reflexivity.
Qed.

Lemma pair_failure_outcome :
  forall i h b, pair_failure w temp_dir h b -> pair_outcome w temp_dir i h b = None.
Proof.
  intros i h b Hf. unfold pair_outcome.
  destruct Hf as [Hrun | result Hrun Hrc | result Hrun Hout | result Hrun Hjson];
    rewrite Hrun; try reflexivity.
  - apply Z.eqb_neq in Hrc. rewrite Hrc. reflexivity.
  - rewrite Hout, andb_false_r. reflexivity.
  - rewrite Hjson. destruct (_ && _); reflexivity.
Qed.

Lemma pair_outcome_metrics :
  forall i h b pm,
    pair_outcome w temp_dir i h b = Some pm ->
    exists analysis, pair_metrics i analysis = Ok pm.
Proof.
  intros i h b pm H. unfold pair_outcome in H.
  destruct (smart_ci w temp_dir b h) as [result|e]; [|discriminate].
  destruct (_ && _); [|discriminate].
  destruct (json_loads w (stdout result)) as [analysis|e]; [|discriminate].
  unfold interpret_verdict in H.
  destruct (PyObj.get analysis "success" JNull) as [ok|e]; [|discriminate].
  cbn [rbind] in H. destruct (PyObj.truthy ok); [|discriminate].
  destruct (pair_metrics i analysis) as [pm'|e] eqn:Hpm; [|discriminate].
  cbn [rbind] in H. injection H as <-. exists analysis. exact Hpm.
Qed.

Variable commits : list string.

Lemma loop_body_outcome :
  forall i acc,
    (i + 1 < List.length commits)%nat ->
    loop_body w temp_dir commits i acc
    = ([call_event temp_dir commits i],
       Ok (step_outcome w temp_dir commits acc i)).
Proof.
  intros i acc Hi.
  unfold loop_body, PyStr.getitem.
  rewrite (commit_at_some commits i), (commit_at_some commits (i + 1)) by lia.
  unfold lift, bind. rewrite analyze_pair_outcome. reflexivity.
Qed.

Lemma for_each_outcome :
  forall idx acc,
    (forall i, In i idx -> (i + 1 < List.length commits)%nat) ->
    for_each (loop_body w temp_dir commits) idx acc
    = (map (call_event temp_dir commits) idx,
       Ok (fold_left (step_outcome w temp_dir commits) idx acc)).
Proof.
  induction idx as [|i idx IH]; intros acc Hrange.
  - reflexivity.
  - cbn [for_each].
    rewrite loop_body_outcome by (apply Hrange; left; reflexivity).
    unfold bind. rewrite IH; [reflexivity|].
    intros j Hj. apply Hrange. right. exact Hj.
Qed.

Lemma analyze_commits_outcome :
  analyze_commits w temp_dir commits
  = (map (call_event temp_dir commits) (pair_indices commits),
     Ok (fold_left (step_outcome w temp_dir commits) (pair_indices commits) acc0)).
Proof.
  unfold analyze_commits. apply for_each_outcome.
  intros i Hi. apply pair_indices_in_range in Hi. lia.
Qed.

Lemma analyzed_fold :
  forall idx acc,
    analyzed (fold_left (step_outcome w temp_dir commits) idx acc)
    = analyzed acc
      + Z.of_nat (List.length
                    (filter (fun i => is_some (outcome_at w temp_dir commits i)) idx)).
Proof.
  induction idx as [|i idx IH]; intros acc.
  - simpl. lia.
  - cbn [fold_left filter]. rewrite IH. unfold step_outcome.
    rewrite analyzed_add_outcome.
    destruct (is_some (outcome_at w temp_dir commits i)); cbn [List.length]; lia.
Qed.

Lemma pair_analyzed_outcome :
  forall i,
    (i + 1 < List.length commits)%nat ->
    pair_analyzed w temp_dir commits i = is_some (outcome_at w temp_dir commits i).
Proof.
  intros i Hi. unfold pair_analyzed.
  rewrite loop_body_outcome by exact Hi.
  cbn [snd]. unfold step_outcome. rewrite analyzed_add_outcome.
  destruct (is_some (outcome_at w temp_dir commits i)); reflexivity.
Qed.

(** The count of analyzed pairs after the loop. *)
Lemma analyzed_count :
  analyzed (fold_left (step_outcome w temp_dir commits) (pair_indices commits) acc0)
  = Z.of_nat (List.length (filter (pair_analyzed w temp_dir commits)
                                  (pair_indices commits))).
Proof.
  rewrite analyzed_fold. cbn [analyzed acc0].
  rewrite (filter_ext_on _ (pair_analyzed w temp_dir commits)
             (fun i => is_some (outcome_at w temp_dir commits i))); [lia|].
  intros i Hi. apply pair_analyzed_outcome.
  apply pair_indices_in_range in Hi. lia.
Qed.

Lemma step_in_range :
  forall acc i,
    (i < 20)%nat -> totals_in_range acc ->
    totals_in_range (step_outcome w temp_dir commits acc i).
Proof.
  intros acc i Hi Hacc. unfold step_outcome, outcome_at.
  destruct (pair_outcome w temp_dir i (commit_at commits i) (commit_at commits (i + 1)))
    as [pm|] eqn:Ho; [|exact Hacc].
  destruct (pair_outcome_metrics _ _ _ _ Ho) as [analysis Hpm].
  destruct (pair_metrics_fields _ _ _ Hpm) as [Hb [Ht _]].
  destruct (pair_metrics_nonneg _ _ _ Hpm) as [Hsel Hsmart].
  unfold totals_in_range in *.
  cbn [add_outcome accumulate analyzed total_current_time
       total_smart_time total_tests total_selected].
  rewrite Hb, Ht. unfold base_time, total_test_count. lia.
Qed.

Lemma fold_in_range :
  forall idx acc,
    (forall i, In i idx -> (i < 20)%nat) ->
    totals_in_range acc ->
    totals_in_range (fold_left (step_outcome w temp_dir commits) idx acc).
Proof.
  induction idx as [|i idx IH]; intros acc Hidx Hacc.
  - exact Hacc.
  - cbn [fold_left]. apply IH.
    + intros j Hj. apply Hidx. right. exact Hj.
    + apply step_in_range; [apply Hidx; left; reflexivity|exact Hacc].
Qed.

Lemma analyze_commits_in_range :
  forall acc,
    snd (analyze_commits w temp_dir commits) = Ok acc -> totals_in_range acc.
Proof.
  intros acc H. rewrite analyze_commits_outcome in H.
  cbn [snd] in H. injection H as <-. apply fold_in_range.
  - intros i Hi. apply pair_indices_in_range in Hi. lia.
  - unfold totals_in_range. cbn. lia.
Qed.

End Loop.

(** The run of the [try] block once the clone and the log have succeeded
    and the history has two commits or more. *)
Lemma pipeline_after_log :
  forall w url name dir cp lp,
    git_clone w url dir = Ok cp -> returncode cp = 0 ->
    git_log w dir = Ok lp ->
    (2 <= List.length (parse_commits (stdout lp)))%nat ->
    pipeline w url name dir
    = (EvClone url dir :: EvLog dir
         :: map (call_event dir (parse_commits (stdout lp)))
                (pair_indices (parse_commits (stdout lp))),
       respond name (fold_left (step_outcome w dir (parse_commits (stdout lp)))
                               (pair_indices (parse_commits (stdout lp))) acc0)).
Proof.
  intros w url name dir cp lp Hclone Hrc Hlog Hn.
  unfold pipeline, emit. rewrite Hclone. cbn [bind]. rewrite Hrc. cbn [Z.eqb negb].
  rewrite Hlog. cbn [bind].
  destruct (Nat.ltb (List.length (parse_commits (stdout lp))) 2) eqn:Hlt.
  - apply Nat.ltb_lt in Hlt. lia.
  - rewrite analyze_commits_outcome. cbn [bind lift app].
    rewrite app_nil_r. reflexivity.
Qed.

(** ** Verdicts that contribute nothing *)

Lemma mapM_len_raises :
  forall vs v, In v vs -> PyObj.len v = Raise TypeError ->
    exists e, mapM PyObj.len vs = Raise e.
Proof.
  induction vs as [|x vs IH]; intros v Hin Hv; [contradiction|].
  cbn [mapM]. destruct Hin as [->|Hin].
  - rewrite Hv. exists TypeError. reflexivity.
  - destruct (PyObj.len x) as [n|e]; [|exists e; reflexivity].
    cbn [rbind]. destruct (IH v Hin Hv) as [e He]. rewrite He.
    exists e. reflexivity.
Qed.

Lemma unusable_verdict_contributes_nothing :
  forall i analysis pm,
    unusable_verdict analysis -> interpret_verdict i analysis <> Ok (Some pm).
Proof.
  intros i analysis pm Hu H. unfold interpret_verdict in H.
  destruct Hu as [v Hv|kvs Hs|kvs ok Hs Hok|kvs Hm|kvs cf Hm Hcf Hno
                 |kvs entries file v Hm Hcf Hin Hlen].
  - destruct v; try discriminate H. exact (Hv kvs eq_refl).
  - cbn [PyObj.get rbind] in H. rewrite Hs in H. discriminate H.
  - cbn [PyObj.get rbind] in H. rewrite Hs, Hok in H. discriminate H.
  - cbn [PyObj.get rbind] in H.
    destruct (PyObj.truthy _); [|discriminate H].
    unfold pair_metrics, select_tests in H. cbn [PyObj.getitem] in H.
    rewrite Hm in H. discriminate H.
  - cbn [PyObj.get rbind] in H.
    destruct (PyObj.truthy _); [|discriminate H].
    unfold pair_metrics, select_tests, func_count in H.
    cbn [PyObj.getitem PyObj.get] in H. rewrite Hm, Hcf in H.
    cbn [rbind PyObj.eq_str] in H. rewrite String.eqb_refl in H.
    destruct cf; try discriminate H. exact (Hno kvs0 eq_refl).
  - cbn [PyObj.get rbind] in H.
    destruct (PyObj.truthy _); [|discriminate H].
    unfold pair_metrics, select_tests, func_count in H.
    cbn [PyObj.getitem PyObj.get] in H. rewrite Hm, Hcf in H.
    cbn [rbind PyObj.eq_str PyObj.values] in H. rewrite String.eqb_refl in H.
    destruct (mapM_len_raises (map snd entries) v) as [e He];
      [apply (in_map snd entries (file, v) Hin)|exact Hlen|].
    rewrite He in H. discriminate H.
Qed.

(** ** Pairs that succeed, pairs that are skipped *)

Lemma len_raises_TypeError : forall v e, PyObj.len v = Raise e -> e = TypeError.
Proof. intros v e H. destruct v; cbn in H; congruence. Qed.

Lemma mapM_len_raise_inv :
  forall vs e, mapM PyObj.len vs = Raise e ->
    exists v, In v vs /\ PyObj.len v = Raise TypeError.
Proof.
  induction vs as [|x vs IH]; intros e H; [discriminate|].
  cbn [mapM] in H. destruct (PyObj.len x) as [n|e0] eqn:Hx.
  - cbn [rbind] in H. destruct (mapM PyObj.len vs) as [ns|e1]; [discriminate|].
    destruct (IH e1 eq_refl) as [v [Hin Hv]]. exists v. split; [right; exact Hin|exact Hv].
  - exists x. split; [left; reflexivity|].
    rewrite (len_raises_TypeError x e0 Hx) in Hx. exact Hx.
Qed.

Lemma func_count_of_changed_count :
  forall kvs f,
    changed_count kvs = Some f -> func_count (JDict kvs) = Ok f /\ 0 <= f.
Proof.
  intros kvs f H. unfold changed_count in H. unfold func_count.
  cbn [PyObj.get rbind].
  destruct (PyObj.lookup "changed_functions" kvs) as [cf|].
  - destruct cf; try discriminate H. cbn [PyObj.values rbind].
    destruct (mapM PyObj.len (map snd kvs0)) as [sizes|e] eqn:Hs; [|discriminate H].
    injection H as <-. cbn [rbind]. split; [reflexivity|].
    apply sum_nonneg. exact (mapM_len_nonneg _ _ Hs).
  - injection H as <-. cbn. split; [reflexivity|lia].
Qed.

(** A valid success verdict contributes metrics at every position of the
    loop. *)
Lemma valid_verdict_contributes :
  forall i analysis,
    (i < 20)%nat -> valid_success_verdict analysis ->
    exists pm, interpret_verdict i analysis = Ok (Some pm).
Proof.
  intros i analysis Hi [kvs [ok [mode [-> [Hok [Ht [Hmode Hcount]]]]]]].
  assert (Hget : PyObj.getitem (JDict kvs) "analysis_mode" = Ok mode)
    by (cbn [PyObj.getitem]; rewrite Hmode; reflexivity).
  pose proof (total_test_count_small i Hi) as Hsmall.
  assert (Hsel : exists sel, select_tests i (JDict kvs) = Ok sel /\ 0 <= sel < 2 ^ 39).
  { rewrite (select_tests_cases i _ _ Hget).
    destruct (PyObj.eq_str mode "smart_selection") eqn:Hs.
    - apply eq_str_true in Hs. destruct (Hcount Hs) as [f [Hf Hb]].
      destruct (func_count_of_changed_count kvs f Hf) as [Hfc Hf0].
      rewrite Hfc. cbn [rbind]. eexists. split; [reflexivity|].
      change (2 ^ 39) with 549755813888 in *. lia.
    - destruct (PyObj.eq_str mode "no_changes"); eexists; (split; [reflexivity|]);
        change (2 ^ 39) with 549755813888 in *; lia. }
  destruct Hsel as [sel [Hsel Hb]].
  destruct (smart_time_in_range i sel Hi Hb) as [s [Hs _]].
  unfold interpret_verdict. cbn [PyObj.get rbind]. rewrite Hok, Ht.
  unfold pair_metrics, simulate_metrics. rewrite Hsel. cbn [rbind]. rewrite Hs.
  cbn [rbind]. eexists. reflexivity.
Qed.

Section Pairs.

Variable w : World.
Variable temp_dir : string.
Variable commits : list string.

Lemma pair_succeeds_analyzed :
  forall i, In i (pair_indices commits) ->
    pair_succeeds w temp_dir commits i -> pair_analyzed w temp_dir commits i = true.
Proof.
  intros i Hi [result [analysis [Hrun [Hrc [Hout [Hjson Hvalid]]]]]].
  apply pair_indices_in_range in Hi. destruct Hi as [Hi Hlen].
  rewrite pair_analyzed_outcome by exact Hlen.
  unfold outcome_at, pair_outcome. rewrite Hrun, Hrc, Hout. cbn [Z.eqb andb].
  rewrite Hjson.
  destruct (valid_verdict_contributes i analysis Hi Hvalid) as [pm ->]. reflexivity.
Qed.

Lemma pair_skipped_not_analyzed :
  forall i, In i (pair_indices commits) ->
    pair_skipped w temp_dir commits i -> pair_analyzed w temp_dir commits i = false.
Proof.
  intros i Hi Hskip.
  apply pair_indices_in_range in Hi. destruct Hi as [Hi Hlen].
  rewrite pair_analyzed_outcome by exact Hlen.
  unfold outcome_at, pair_outcome.
  destruct Hskip as [e Hrun|result Hrun Hrc|result Hrun Hout|result e Hrun Hjson
                    |result analysis Hrun Hjson Hu]; rewrite Hrun; try reflexivity.
  - apply Z.eqb_neq in Hrc. rewrite Hrc. reflexivity.
  - rewrite Hout, andb_false_r. reflexivity.
  - rewrite Hjson. destruct (_ && _); reflexivity.
  - rewrite Hjson. destruct (_ && _); [|reflexivity].
    pose proof (unusable_verdict_contributes_nothing i analysis) as Hno.
    destruct (interpret_verdict i analysis) as [[pm|]|e]; try reflexivity.
    exfalso. exact (Hno pm Hu eq_refl).
Qed.

(** Every pair succeeds, is skipped, or is oversized. *)
Lemma pair_classification :
  forall i,
    pair_succeeds w temp_dir commits i
    \/ pair_skipped w temp_dir commits i
    \/ pair_oversized w temp_dir commits i.
Proof.
  intros i.
  destruct (smart_ci w temp_dir (commit_at commits (i + 1)) (commit_at commits i))
    as [result|e] eqn:Hrun.
  2:{ right. left. exact (Skipped_not_run w temp_dir commits i e Hrun). }
  destruct (Z.eq_dec (returncode result) 0) as [Hrc|Hrc].
  2:{ right. left. exact (Skipped_exit_status w temp_dir commits i result Hrun Hrc). }
  destruct (PyStr.nonempty (PyStr.strip (stdout result))) eqn:Hout.
  2:{ right. left. exact (Skipped_blank_output w temp_dir commits i result Hrun Hout). }
  destruct (json_loads w (stdout result)) as [analysis|e] eqn:Hjson.
  2:{ right. left. exact (Skipped_not_decoded w temp_dir commits i result e Hrun Hjson). }
  assert (Hunusable : unusable_verdict analysis -> pair_skipped w temp_dir commits i)
    by (intros Hu; exact (Skipped_unusable w temp_dir commits i result analysis
                            Hrun Hjson Hu)).
  destruct analysis as [|b|n|x|s|l|kvs];
    try (right; left; apply Hunusable; apply Unusable_not_an_object;
         intros kvs; discriminate).
  destruct (PyObj.lookup "success" kvs) as [ok|] eqn:Hok.
  2:{ right. left. apply Hunusable. exact (Unusable_no_success kvs Hok). }
  destruct (PyObj.truthy ok) eqn:Ht.
  2:{ right. left. apply Hunusable. exact (Unusable_falsy_success kvs ok Hok Ht). }
  destruct (PyObj.lookup "analysis_mode" kvs) as [mode|] eqn:Hmode.
  2:{ right. left. apply Hunusable. exact (Unusable_no_mode kvs Hmode). }
  assert (Hsucceeds :
            (mode = JStr "smart_selection" ->
             exists f, changed_count kvs = Some f /\ 15 * f < 2 ^ 39) ->
            pair_succeeds w temp_dir commits i).
  { intros Hc. exists result, (JDict kvs).
    split; [exact Hrun|]. split; [exact Hrc|]. split; [exact Hout|].
    split; [exact Hjson|]. exists kvs, ok, mode. repeat split; assumption. }
  destruct (PyObj.eq_str mode "smart_selection") eqn:Hs.
  2:{ left. apply Hsucceeds. intros ->. cbn in Hs. discriminate Hs. }
  apply eq_str_true in Hs. subst mode.
  unfold changed_count in Hsucceeds.
  destruct (PyObj.lookup "changed_functions" kvs) as [cf|] eqn:Hcf.
  2:{ left. apply Hsucceeds. intros _. exists 0. split; [reflexivity|].
      change (2 ^ 39) with 549755813888. lia. }
  destruct cf as [|b|n|x|s|l|entries];
    try (right; left; apply Hunusable;
         apply (Unusable_changed_not_an_object kvs _ Hmode Hcf);
         intros entries; discriminate).
  destruct (mapM PyObj.len (map snd entries)) as [sizes|e] eqn:Hsizes.
  - destruct (Z_lt_ge_dec (15 * PyObj.sum sizes) (2 ^ 39)) as [Hlt|Hge].
    + left. apply Hsucceeds. intros _. exists (PyObj.sum sizes).
      split; [reflexivity|exact Hlt].
    + right. right. exists result, kvs, (PyObj.sum sizes).
      split; [exact Hrun|]. split; [exact Hjson|]. split; [exact Hmode|].
      split; [|lia]. unfold changed_count. rewrite Hcf, Hsizes. reflexivity.
  - right. left. apply Hunusable.
    destruct (mapM_len_raise_inv _ _ Hsizes) as [v [Hin Hv]].
    apply in_map_iff in Hin. destruct Hin as [[file v'] [Hsnd Hin]].
    cbn in Hsnd. subst v'.
    exact (Unusable_unsized_value kvs entries file v Hmode Hcf Hin Hv).
Qed.

(** The three cases exclude one another as far as the loop is concerned:
    a pair that succeeds is not skipped. *)
Lemma pair_succeeds_not_skipped :
  forall i, In i (pair_indices commits) ->
    pair_succeeds w temp_dir commits i -> ~ pair_skipped w temp_dir commits i.
Proof.
  intros i Hi Hs Hk.
  pose proof (pair_succeeds_analyzed i Hi Hs) as H1.
  pose proof (pair_skipped_not_analyzed i Hi Hk) as H2. congruence.
Qed.

End Pairs.

(* ------------------------------------------------------------------ *)
(** * Properties *)

(** ** Request validation and the mapping of errors to statuses *)

(** Whatever the body of the [try] raises goes through the handlers of
    lines 207-212: a timeout becomes 408, and everything else, an
    [HTTPException] raised on purpose included, becomes 500. *)
Lemma try_block_error_status :
  forall (w : World) (m : M AnalyzeResponse) (t : list event) (e : exn),
    m = (t, Raise e) ->
    try_except m (on_error w)
    = (t, Raise (match e with
                 | TimeoutExpired => HTTPException 408 "Analysis timed out"
                 | _ => HTTPException 500 (exn_str w e)
                 end)).
Proof.
  intros w m t e ->. unfold try_except, on_error.
  destruct e; cbn; rewrite app_nil_r; reflexivity.
Qed.

(** C1 (the code at the failing input). The clone of a valid URL exits
    with status 128.  Line 83 raises [HTTPException(status_code=400)]
    inside the [try], the clause [except Exception] of line 210 catches it,
    and the client receives status 500 instead of the client error. *)
Theorem clone_failure_answers_500 :
  analyze_repo Demo.w_clone_fails Demo.url
  = ([EvMkdtemp "smartci_octo_demo_"; EvClone Demo.url Demo.dir; EvRmtree Demo.dir],
     Raise (HTTPException 500
              "400: Failed to clone repository: fatal: repository not found")).
Proof. vm_compute. reflexivity. Qed.

(** C10. A URL that contains the host marker but splits, once its trailing
    slashes are dropped, into fewer than two segments makes [parts[-2]]
    raise [IndexError] before the [try] block is entered: the request ends
    with that unhandled exception and not with the 400 of an invalid URL,
    and the trace is empty, so no workspace was created. *)
Theorem url_without_owner_raises_IndexError :
  forall (w : World) (repo_url : string),
    valid_url repo_url = true ->
    (List.length (PyStr.split "/" (PyStr.rstrip "/" repo_url)) < 2)%nat ->
    analyze_repo w repo_url = ([], Raise IndexError).
Proof.
  intros w repo_url Hvalid Hparts.
  unfold analyze_repo. rewrite Hvalid. cbn [negb].
  unfold PyStr.index_from_end at 1.
  apply Nat.ltb_lt in Hparts. rewrite Hparts.
  reflexivity.
Qed.

(** The URL ["github.com"] is such a request. *)
Lemma url_without_owner_witness :
  valid_url "github.com" = true /\
  analyze_repo Demo.w_timeouts "github.com" = ([], Raise IndexError).
Proof.
  split; [reflexivity|].
  apply url_without_owner_raises_IndexError.
  - reflexivity.
  - simpl. lia.
Defined.

(** ** The history walker *)

(** C8. Once the clone and the log have succeeded, a history of [n >= 2]
    commits makes the run hand to the analyzer exactly the pairs
    [(head = commits[i], base = commits[i+1])] for [i = 0 .. min(n-1, 20) - 1],
    in this order, every index being in range; a history of fewer than two
    commits makes the run raise the error of line 99 without any analyzer
    call. *)
Theorem history_walker_pairs :
  forall w url name dir cp lp,
    git_clone w url dir = Ok cp -> returncode cp = 0 ->
    git_log w dir = Ok lp ->
    let commits := parse_commits (stdout lp) in
    let n := List.length commits in
    ((2 <= n)%nat ->
     pairs_of_trace (fst (pipeline w url name dir))
     = map (fun i => (commit_at commits i, commit_at commits (i + 1)))
           (seq 0 (Nat.min (n - 1) 20))
     /\ List.length (pairs_of_trace (fst (pipeline w url name dir))) = Nat.min (n - 1) 20
     /\ (forall i, (i < Nat.min (n - 1) 20)%nat ->
           nth_error commits i = Some (commit_at commits i) /\
           nth_error commits (i + 1) = Some (commit_at commits (i + 1))))
    /\
    ((n < 2)%nat ->
     pipeline w url name dir
     = ([EvClone url dir; EvLog dir],
        Raise (HTTPException 400 "Repository must have at least 2 commits"))).
Proof.
  intros w url name dir cp lp Hclone Hrc Hlog commits n. split.
  - intros Hn.
    rewrite (pipeline_after_log w url name dir cp lp Hclone Hrc Hlog Hn).
    fold commits. cbn [fst pairs_of_trace].
    rewrite pairs_of_call_events. unfold pair_indices. fold n.
    split; [reflexivity|]. split.
    + rewrite length_map, length_seq. reflexivity.
    + intros i Hi. split; apply commit_at_some; fold n; lia.
  - intros Hn. unfold pipeline, emit. rewrite Hclone. cbn [bind]. rewrite Hrc.
    cbn [Z.eqb negb]. rewrite Hlog. cbn [bind]. fold commits. fold n.
    apply Nat.ltb_lt in Hn. rewrite Hn. reflexivity.
Qed.

(** Three commits give the two pairs (c0, c1) and (c1, c2). *)
Lemma history_walker_pairs_witness :
  (2 <= List.length (parse_commits Demo.log3))%nat /\
  pairs_of_trace (fst (pipeline Demo.w_timeouts Demo.url "demo" Demo.dir))
  = [("c0", "c1"); ("c1", "c2")].
Proof.
  split; [vm_compute; lia|].
  pose proof (history_walker_pairs Demo.w_timeouts Demo.url "demo" Demo.dir
                {| returncode := 0; stdout := EmptyString; stderr := EmptyString |}
                {| returncode := 0; stdout := Demo.log3; stderr := EmptyString |}
                eq_refl eq_refl eq_refl) as H.
  cbv zeta in H. destruct H as [H _].
  destruct H as [H _]; [vm_compute; lia|].
  rewrite H. reflexivity.
Defined.

(** ** Isolation of per-pair failures *)

(** C6. A pair whose analysis times out, exits with a non-zero status,
    prints nothing or prints malformed output leaves the totals as they were,
    and the loop goes on with the remaining positions; whatever the pairs
    do, the loop returns normally after one analyzer call per pair.  A
    failure of the clone or of the log ends the [try] block at once. *)
Theorem pair_failure_is_isolated :
  (forall w dir commits i rest acc,
      (i + 1 < List.length commits)%nat ->
      pair_failure w dir (commit_at commits i) (commit_at commits (i + 1)) ->
      loop_body w dir commits i acc = ([call_event dir commits i], Ok acc) /\
      for_each (loop_body w dir commits) (i :: rest) acc
      = (call_event dir commits i :: fst (for_each (loop_body w dir commits) rest acc),
         snd (for_each (loop_body w dir commits) rest acc)))
  /\
  (forall w dir commits,
      exists acc,
        analyze_commits w dir commits
        = (map (call_event dir commits) (pair_indices commits), Ok acc))
  /\
  (forall w url name dir e,
      git_clone w url dir = Raise e ->
      pipeline w url name dir = ([EvClone url dir], Raise e))
  /\
  (forall w url name dir cp e,
      git_clone w url dir = Ok cp -> returncode cp = 0 ->
      git_log w dir = Raise e ->
      pipeline w url name dir = ([EvClone url dir; EvLog dir], Raise e)).
Proof.
  split; [|split; [|split]].
  - intros w dir commits i rest acc Hi Hf.
    assert (Hbody : loop_body w dir commits i acc = ([call_event dir commits i], Ok acc)).
    { rewrite loop_body_outcome by exact Hi.
      unfold step_outcome, outcome_at.
      rewrite (pair_failure_outcome _ _ _ _ _ Hf). reflexivity. }
    split; [exact Hbody|].
    cbn [for_each]. rewrite Hbody. unfold bind.
    destruct (for_each (loop_body w dir commits) rest acc) as [t r]. reflexivity.
  - intros w dir commits. eexists. apply analyze_commits_outcome.
  - intros w url name dir e Hclone. unfold pipeline, emit. rewrite Hclone. reflexivity.
  - intros w url name dir cp e Hclone Hrc Hlog. unfold pipeline, emit.
    rewrite Hclone. cbn [bind]. rewrite Hrc. cbn [Z.eqb negb]. rewrite Hlog.
    reflexivity.
Qed.

(** A timeout on the first of two pairs. *)
Lemma pair_failure_is_isolated_witness :
  pair_failure Demo.w_timeouts Demo.dir
               (commit_at Demo.commits3 0) (commit_at Demo.commits3 1) /\
  for_each (loop_body Demo.w_timeouts Demo.dir Demo.commits3) [0; 1]%nat acc0
  = ([EvAnalyze Demo.dir "c1" "c0"; EvAnalyze Demo.dir "c2" "c1"], Ok acc0).
Proof.
  assert (Hf : pair_failure Demo.w_timeouts Demo.dir
                 (commit_at Demo.commits3 0) (commit_at Demo.commits3 1))
    by (apply Failure_timeout; reflexivity).
  split; [exact Hf|].
  destruct (proj1 pair_failure_is_isolated Demo.w_timeouts Demo.dir Demo.commits3
              0%nat [1%nat] acc0 ltac:(simpl; lia) Hf) as [_ H].
  rewrite H. reflexivity.
Defined.

(** ** The error of a run without analyzed pairs *)

(** C7. Once the clone and the log have succeeded on a history of two
    commits or more, the [try] block raises the error of line 173 if and
    only if the count of line 166 is zero after the loop, that count being
    the number of pairs the loop analyzed.  What the count depends on is
    stated on the answers of the analyzer and of the decoder alone: a pair
    whose analysis succeeds (exit status 0, an output that decodes to a
    valid success verdict) is counted, and one such pair is enough for the
    block not to raise that 400, nor any other; a pair whose analysis
    fails or is skipped is not counted, and when every pair fails or is
    skipped the error is raised.  Every pair is of one of these two kinds
    or carries a verdict of more than [2^39 / 15] changed functions;
    without such verdicts the error is raised if and only if every pair
    failed or was skipped. *)
Theorem no_pairs_analyzed_iff :
  forall w url name dir cp lp,
    git_clone w url dir = Ok cp -> returncode cp = 0 ->
    git_log w dir = Ok lp ->
    let commits := parse_commits (stdout lp) in
    (2 <= List.length commits)%nat ->
    (snd (pipeline w url name dir)
       = Raise (HTTPException 400 "No commits could be analyzed")
     <-> forall i, In i (pair_indices commits) -> pair_analyzed w dir commits i = false)
    /\
    (exists acc,
        snd (analyze_commits w dir commits) = Ok acc /\
        analyzed acc
        = Z.of_nat (List.length (filter (pair_analyzed w dir commits)
                                        (pair_indices commits))))
    /\
    ((exists i, In i (pair_indices commits) /\ pair_analyzed w dir commits i = true) ->
     forall d, snd (pipeline w url name dir) <> Raise (HTTPException 400 d))
    /\
    (forall i, In i (pair_indices commits) ->
       (pair_succeeds w dir commits i -> pair_analyzed w dir commits i = true)
       /\ (pair_skipped w dir commits i -> pair_analyzed w dir commits i = false)
       /\ (pair_succeeds w dir commits i
           \/ pair_skipped w dir commits i
           \/ pair_oversized w dir commits i))
    /\
    ((exists i, In i (pair_indices commits) /\ pair_succeeds w dir commits i) ->
     forall d, snd (pipeline w url name dir) <> Raise (HTTPException 400 d))
    /\
    ((forall i, In i (pair_indices commits) -> pair_skipped w dir commits i) ->
     snd (pipeline w url name dir)
     = Raise (HTTPException 400 "No commits could be analyzed"))
    /\
    ((forall i, In i (pair_indices commits) -> ~ pair_oversized w dir commits i) ->
     (snd (pipeline w url name dir)
        = Raise (HTTPException 400 "No commits could be analyzed")
      <-> forall i, In i (pair_indices commits) -> pair_skipped w dir commits i)).
Proof.
  intros w url name dir cp lp Hclone Hrc Hlog commits Hn.
  pose proof (analyzed_count w dir commits) as Hcount.
  rewrite (pipeline_after_log w url name dir cp lp Hclone Hrc Hlog Hn).
  fold commits. cbn [snd].
  assert (Hiff : respond name (fold_left (step_outcome w dir commits)
                                         (pair_indices commits) acc0)
                 = Raise (HTTPException 400 "No commits could be analyzed")
                 <-> forall i, In i (pair_indices commits) ->
                               pair_analyzed w dir commits i = false).
  { rewrite respond_no_pairs, Hcount. rewrite <- filter_empty_iff. lia. }
  assert (Hsome : (exists i, In i (pair_indices commits)
                             /\ pair_analyzed w dir commits i = true) ->
                  forall d, respond name (fold_left (step_outcome w dir commits)
                                                    (pair_indices commits) acc0)
                            <> Raise (HTTPException 400 d)).
  { intros [i [Hi Hai]] d H.
    apply respond_http in H; [|reflexivity]. destruct H as [Hz _].
    rewrite Hcount in Hz.
    assert (Hnil : List.length (filter (pair_analyzed w dir commits)
                                       (pair_indices commits)) = 0%nat) by lia.
    rewrite filter_empty_iff in Hnil. specialize (Hnil i Hi). congruence. }
  split; [exact Hiff|]. split.
  { eexists. split; [rewrite analyze_commits_outcome; reflexivity|exact Hcount]. }
  split; [exact Hsome|]. split.
  { intros i Hi. split; [apply pair_succeeds_analyzed; exact Hi|].
    split; [apply pair_skipped_not_analyzed; exact Hi|apply pair_classification]. }
  split.
  { intros [i [Hi Hs]]. apply Hsome. exists i. split; [exact Hi|].
    apply pair_succeeds_analyzed; assumption. }
  split.
  { intros Hall. apply Hiff. intros i Hi.
    apply pair_skipped_not_analyzed; [exact Hi|apply Hall; exact Hi]. }
  intros Hsize. rewrite Hiff. split.
  - intros Hnone i Hi.
    destruct (pair_classification w dir commits i) as [Hs|[Hk|Ho]].
    + pose proof (pair_succeeds_analyzed w dir commits i Hi Hs) as Ha.
      rewrite (Hnone i Hi) in Ha. discriminate Ha.
    + exact Hk.
    + exfalso. exact (Hsize i Hi Ho).
  - intros Hall i Hi. apply pair_skipped_not_analyzed; [exact Hi|apply Hall; exact Hi].
Qed.

(** Two pairs whose analyses both time out: the error is raised.  The same
    history with a valid success verdict of 28 changed functions for the
    first pair: no 400 is raised. *)
Lemma no_pairs_analyzed_iff_witness :
  (2 <= List.length (parse_commits Demo.log3))%nat
  /\ snd (pipeline Demo.w_timeouts Demo.url "demo" Demo.dir)
     = Raise (HTTPException 400 "No commits could be analyzed")
  /\ pair_succeeds Demo.w_smart28 Demo.dir Demo.commits3 0
  /\ (forall d, snd (pipeline Demo.w_smart28 Demo.url "demo" Demo.dir)
                <> Raise (HTTPException 400 d)).
Proof.
  assert (Hn : (2 <= List.length (parse_commits Demo.log3))%nat) by (vm_compute; lia).
  assert (Hs : pair_succeeds Demo.w_smart28 Demo.dir Demo.commits3 0).
  { exists {| returncode := 0; stdout := "SMART_28"; stderr := EmptyString |},
           Demo.smart28.
    split; [reflexivity|]. split; [reflexivity|]. split; [reflexivity|].
    split; [reflexivity|].
    exists [("success", JBool true); ("analysis_mode", JStr "smart_selection");
            ("changed_functions",
             JDict [("a.py", Demo.names 20); ("b.py", Demo.names 8)])],
           (JBool true), (JStr "smart_selection").
    split; [reflexivity|]. split; [reflexivity|]. split; [reflexivity|].
    split; [reflexivity|]. intros _. exists 28. split; [reflexivity|].
    change (2 ^ 39) with 549755813888. lia. }
  split; [exact Hn|]. split; [|split; [exact Hs|]].
  - destruct (no_pairs_analyzed_iff Demo.w_timeouts Demo.url "demo" Demo.dir
                {| returncode := 0; stdout := EmptyString; stderr := EmptyString |}
                {| returncode := 0; stdout := Demo.log3; stderr := EmptyString |}
                eq_refl eq_refl eq_refl Hn) as [_ [_ [_ [_ [_ [H _]]]]]].
    apply H. intros i Hi.
    exact (Skipped_not_run Demo.w_timeouts Demo.dir _ i TimeoutExpired eq_refl).
  - destruct (no_pairs_analyzed_iff Demo.w_smart28 Demo.url "demo" Demo.dir
                {| returncode := 0; stdout := EmptyString; stderr := EmptyString |}
                {| returncode := 0; stdout := Demo.log3; stderr := EmptyString |}
                eq_refl eq_refl eq_refl Hn) as [_ [_ [_ [_ [H _]]]]].
    apply H. exists 0%nat. split; [|exact Hs].
    vm_compute. left. reflexivity.
Defined.

(** ** Classification of a verdict *)



(** ** Bounds on the metrics of a pair *)

(** C2 (as amended). At a position below 20, the metrics of an analyzed
    pair have a selected count and a smart time that are not negative; the
    selected count is at most the total for every mode other than
    [smart_selection], while under [smart_selection] it is
    [max(50, 15*f)], whatever the total; and whenever the selected count is
    at most the total, the smart time is at most the baseline time. *)
Theorem pair_metrics_bounds :
  forall (i : nat) (analysis : json) (pm : PairMetrics),
    (i < 20)%nat ->
    pair_metrics i analysis = Ok pm ->
    0 <= pm_selected pm /\ 0 <= pm_smart_time pm
    /\
    (forall mode,
        PyObj.getitem analysis "analysis_mode" = Ok mode ->
        PyObj.eq_str mode "smart_selection" = false ->
        pm_selected pm <= pm_total_test_count pm)
    /\
    (forall mode n,
        PyObj.getitem analysis "analysis_mode" = Ok mode ->
        PyObj.eq_str mode "smart_selection" = true ->
        func_count analysis = Ok n ->
        pm_selected pm = Z.max 50 (n * 15))
    /\
    (pm_selected pm <= pm_total_test_count pm ->
     pm_smart_time pm <= pm_base_time pm).
Proof.
  intros i analysis pm Hi Hpm.
  destruct (pair_metrics_fields _ _ _ Hpm) as [Hb [Ht [Hsel Hs]]].
  destruct (pair_metrics_nonneg _ _ _ Hpm) as [Hsel0 Hs0].
  split; [exact Hsel0|]. split; [exact Hs0|]. split; [|split].
  - intros mode Hmode Hnot.
    rewrite (select_tests_cases i _ _ Hmode), Hnot in Hsel. rewrite Ht.
    destruct (PyObj.eq_str mode "no_changes"); injection Hsel as <-;
      unfold total_test_count; lia.
  - intros mode n Hmode Hsmart Hn.
    rewrite (select_tests_cases i _ _ Hmode), Hsmart, Hn in Hsel.
    cbn [rbind] in Hsel. congruence.
  - rewrite Ht, Hb. intros Hle.
    pose proof (total_test_count_small i Hi) as Hsmall.
    destruct (smart_time_in_range i (pm_selected pm) Hi ltac:(lia))
      as [s' [Hs' [_ [_ [Hbound _]]]]].
    rewrite Hs in Hs'. injection Hs' as <-. exact (Hbound Hle).
Qed.

(** 28 changed functions at position 0: 420 of 1000 tests, 504 of 1200
    seconds. *)
Lemma pair_metrics_bounds_witness :
  pair_metrics 0 Demo.smart28
  = Ok {| pm_base_time := 1200; pm_smart_time := 504;
          pm_total_test_count := 1000; pm_selected := 420 |}
  /\ (420 <= 1000 -> 504 <= 1200).
Proof.
  assert (H : pair_metrics 0 Demo.smart28
              = Ok {| pm_base_time := 1200; pm_smart_time := 504;
                      pm_total_test_count := 1000; pm_selected := 420 |})
    by (vm_compute; reflexivity).
  split; [exact H|].
  exact (proj2 (proj2 (proj2 (proj2
           (pair_metrics_bounds 0 Demo.smart28 _ ltac:(lia) H))))).
Defined.

(** C2 (counterexample). 100 changed functions at position 0: line 151
    selects 1500 tests of a total of 1000, and the smart time, 1800, exceeds
    the baseline time, 1200. *)
Lemma smart_selection_exceeds_total :
  exists pm,
    interpret_verdict 0 Demo.smart100 = Ok (Some pm)
    /\ pm = {| pm_base_time := 1200; pm_smart_time := 1800;
               pm_total_test_count := 1000; pm_selected := 1500 |}
    /\ ~ (pm_selected pm <= pm_total_test_count pm)
    /\ ~ (pm_smart_time pm <= pm_base_time pm).
Proof.
  eexists. split; [vm_compute; reflexivity|].
  split; [reflexivity|]. cbn. split; lia.
Qed.

(** ** The metrics simulator *)

(** C5 (as amended). For a workload and a selection that are not negative,
    the simulator returns the baseline [1200 + 30*i] and the smart time
    [int(baseline * ratio)], where [ratio] is the binary64 quotient
    [selected / total] when the total is positive and 0 otherwise, and the
    product is rounded to binary64; the product is not negative, so [int]
    is [floor] there.  It takes no environment, so equal inputs give equal
    metrics.  With a total of zero the smart time is 0.  At a position below
    20, with a positive total and a selection below [2^39], the smart time
    is defined and is the floor of the exact
    [baseline * selected / total], or one less. *)
Theorem metrics_simulator_formula :
  forall (total selected : Z) (i : nat),
    0 <= total -> 0 <= selected ->
    simulate_metrics total selected i
    = (s <- Spec.smart_time total selected i ;;
       Ok {| pm_base_time := Spec.baseline_time i;
             pm_smart_time := s;
             pm_total_test_count := total;
             pm_selected := selected |})%res
    /\
    (total = 0 -> Spec.smart_time total selected i = Ok 0)
    /\
    ((i < 20)%nat -> 0 < total < 2 ^ 53 -> selected < 2 ^ 39 ->
     exists s,
       Spec.smart_time total selected i = Ok s
       /\ 0 <= s
       /\ Spec.smart_time_exact total selected i - 1 <= s
          <= Spec.smart_time_exact total selected i).
Proof.
  intros total selected i Ht Hs.
  assert (Heq : smart_time_of (base_time i) selected total
                = Spec.smart_time total selected i).
  { rewrite smart_time_of_floor by (try apply base_time_nonneg; assumption).
    unfold Spec.smart_time. rewrite base_time_spec. reflexivity. }
  split; [|split].
  - unfold simulate_metrics. rewrite Heq, base_time_spec. reflexivity.
  - intros ->. unfold Spec.smart_time, Spec.ratio.
    cbn [Z.ltb Z.compare rbind PyNum.mul PyNum.floor]. f_equal. lia.
  - intros Hi Hpos Hsmall. rewrite <- Heq.
    destruct (smart_time_floor_or_less (base_time i) selected total
                (base_time_below_2048 i Hi) ltac:(lia) Hpos) as [s [Hs' Hexact]].
    exists s. split; [exact Hs'|]. split.
    + eapply smart_time_of_nonneg; [apply base_time_nonneg|exact Hs|exact Hs'].
    + unfold Spec.smart_time_exact.
      replace (0 <? total) with true by (symmetry; apply Z.ltb_lt; lia).
      rewrite <- base_time_spec. exact Hexact.
Qed.

(** 420 of 1000 tests at position 0: the smart time is 504, the exact
    value. *)
Lemma metrics_simulator_formula_witness :
  simulate_metrics 1000 420 0
  = Ok {| pm_base_time := 1200; pm_smart_time := 504;
          pm_total_test_count := 1000; pm_selected := 420 |}
  /\ Spec.smart_time 1000 420 0 = Ok 504
  /\ Spec.smart_time_exact 1000 420 0 = 504.
Proof.
  assert (Hs : Spec.smart_time 1000 420 0 = Ok 504) by (vm_compute; reflexivity).
  split; [|split; [exact Hs|reflexivity]].
  rewrite (proj1 (metrics_simulator_formula 1000 420 0 ltac:(lia) ltac:(lia))).
  rewrite Hs. reflexivity.
Defined.

(** C5 (counterexample). 19 changed functions at position 0 select 285 of
    1000 tests: line 159 computes the float nearest to 0.285, which is
    below it, line 160 computes [1200 * ratio = 341.99999999999994] and
    truncates it to 341, while [floor(1200 * 285 / 1000)] is 342. *)
Lemma smart_time_is_not_floor :
  exists pm,
    interpret_verdict 0 (Demo.verdict true "smart_selection" [("a.py", Demo.names 19)])
    = Ok (Some pm)
    /\ pm = {| pm_base_time := 1200; pm_smart_time := 341;
               pm_total_test_count := 1000; pm_selected := 285 |}
    /\ simulate_metrics (pm_total_test_count pm) (pm_selected pm) 0 = Ok pm
    /\ Spec.smart_time_exact (pm_total_test_count pm) (pm_selected pm) 0 = 342
    /\ pm_smart_time pm
       <> Spec.smart_time_exact (pm_total_test_count pm) (pm_selected pm) 0.
Proof.
  eexists. split; [vm_compute; reflexivity|].
  split; [reflexivity|]. cbn [pm_total_test_count pm_selected pm_smart_time].
  split; [vm_compute; reflexivity|]. split; [reflexivity|]. discriminate.
Qed.

(** ** Reduction of the totals *)

(** C3 (as amended). Whenever at least one pair was analyzed, the four
    averages are computed and are the totals divided by the count with
    integer division, which truncates since the totals are not negative; the
    average of the baseline times is at least 1200, so the division of line
    181 does not divide by zero (the code has no guard of its own); and the
    response carries these averages with the savings percent
    [int(((avg_current - avg_smart) / avg_current) * 100)], evaluated in
    binary64 and truncated toward zero; when the average smart time does
    not exceed the average baseline time, that percent is computed without
    an exception and is [floor(100 * (avg_current - avg_smart) /
    avg_current)] or one less. *)
Theorem reduction_of_totals :
  forall w dir commits name acc,
    snd (analyze_commits w dir commits) = Ok acc ->
    1 <= analyzed acc ->
    let n := analyzed acc in
    let avg_current := total_current_time acc / n in
    let avg_smart := total_smart_time acc / n in
    1200 <= avg_current <= 1770 /\ 0 <= avg_smart
    /\ floordiv (total_current_time acc) n = Ok avg_current
    /\ floordiv (total_smart_time acc) n = Ok avg_smart
    /\ avg_current = Z.quot (total_current_time acc) n
    /\ avg_smart = Z.quot (total_smart_time acc) n
    /\ savings_pct_of avg_current avg_smart <> Raise ZeroDivisionError
    /\ savings_pct_of avg_current avg_smart
       = (q <- PyFloat.truediv (avg_current - avg_smart) avg_current ;;
          h <- PyFloat.of_int 100 ;;
          PyFloat.to_int (PyFloat.mul q h))%res
    /\ (avg_smart <= avg_current ->
        exists p,
          savings_pct_of avg_current avg_smart = Ok p
          /\ Spec.savings_percent_exact avg_current avg_smart - 1 <= p
             <= Spec.savings_percent_exact avg_current avg_smart)
    /\ respond name acc
       = (savings_pct <- savings_pct_of avg_current avg_smart ;;
          dollar_savings <- dollar_savings_of avg_current avg_smart ;;
          Ok {| success := true;
                repo_name := name;
                current_time := avg_current;
                smart_time := avg_smart;
                savings_percent := savings_pct;
                commits_analyzed := n;
                tests_total := total_tests acc / n;
                tests_avg_selected := total_selected acc / n;
                monthly_savings := String "$" (format_grouped dollar_savings);
                error := None |})%res.
Proof.
  intros w dir commits name acc Hacc Hn n avg_current avg_smart.
  apply analyze_commits_in_range in Hacc.
  destruct Hacc as [_ [[Hlo Hhi] [Hsmart [_ _]]]]. fold n in Hlo, Hhi.
  assert (Hn0 : (n =? 0) = false) by (apply Z.eqb_neq; lia).
  assert (Ha : 1200 <= avg_current <= 1770).
  { unfold avg_current. split.
    - apply Z.div_le_lower_bound; lia.
    - apply Z.div_le_upper_bound; lia. }
  assert (Hs : 0 <= avg_smart) by (unfold avg_smart; apply Z.div_pos; lia).
  split; [exact Ha|]. split; [exact Hs|].
  split; [unfold floordiv; rewrite Hn0; reflexivity|].
  split; [unfold floordiv; rewrite Hn0; reflexivity|].
  split; [unfold avg_current; rewrite Z.quot_div_nonneg; lia|].
  split; [unfold avg_smart; rewrite Z.quot_div_nonneg; lia|].
  split; [apply savings_no_zero_division; lia|].
  split.
  - unfold savings_pct_of. cbn [PyNum.truediv].
    destruct (PyFloat.truediv (avg_current - avg_smart) avg_current) as [q|e];
      [|reflexivity].
    cbn [rbind PyNum.mul].
    destruct (PyFloat.of_int 100) as [h|e]; reflexivity.
  - split.
    { intros Hle. unfold Spec.savings_percent_exact.
      apply savings_pct_floor_or_less; [change (2 ^ 11) with 2048|]; lia. }
    unfold respond, floordiv. fold n. rewrite Hn0. cbn [rbind].
    fold avg_current. fold avg_smart.
    destruct (savings_pct_of avg_current avg_smart); reflexivity.
Qed.

(** The run with one analyzed pair of 28 changed functions. *)
Lemma reduction_of_totals_witness :
  snd (analyze_commits Demo.w_smart28 Demo.dir Demo.commits3) = Ok Demo.acc_smart28
  /\ 1 <= analyzed Demo.acc_smart28
  /\ 1200 <= total_current_time Demo.acc_smart28 / analyzed Demo.acc_smart28 <= 1770
  /\ exists p,
       savings_pct_of 1200 504 = Ok p
       /\ Spec.savings_percent_exact 1200 504 - 1 <= p
          <= Spec.savings_percent_exact 1200 504.
Proof.
  assert (H : snd (analyze_commits Demo.w_smart28 Demo.dir Demo.commits3)
              = Ok Demo.acc_smart28) by (vm_compute; reflexivity).
  assert (Hn : 1 <= analyzed Demo.acc_smart28) by (cbn; lia).
  split; [exact H|]. split; [exact Hn|].
  destruct (reduction_of_totals Demo.w_smart28 Demo.dir Demo.commits3 "demo"
              Demo.acc_smart28 H Hn)
    as [Hcur [_ [_ [_ [_ [_ [_ [_ [Hpct _]]]]]]]]].
  split; [exact Hcur|].
  apply Hpct. vm_compute. discriminate.
Defined.

(** C3 (counterexample). The run with one analyzed pair of 28 changed
    functions has [avg_current = 1200] and [avg_smart = 504]: line 181
    computes [(696 / 1200) * 100 = 57.99999999999999] and truncates it to
    57, while [floor(100 * 696 / 1200)] is 58, in exact arithmetic as in
    Python's. *)
Lemma savings_percent_is_not_floor :
  exists r,
    snd (analyze_repo Demo.w_smart28 Demo.url) = Ok r
    /\ commits_analyzed r = 1
    /\ current_time r = 1200 /\ smart_time r = 504
    /\ savings_percent r = 57
    /\ Spec.savings_percent_exact (current_time r) (smart_time r) = 58
    /\ Spec.savings_percent (current_time r) (smart_time r) = Ok 58
    /\ savings_percent r <> Spec.savings_percent_exact (current_time r) (smart_time r).
Proof.
  eexists. split; [vm_compute; reflexivity|].
  cbn [commits_analyzed current_time smart_time savings_percent].
  repeat split; try (vm_compute; reflexivity). discriminate.
Qed.

(** With an average smart time above the average baseline the quotient is
    negative, and [int] rounds it toward zero where a floor would round it
    down: 67 changed functions at position 0 give 1205 against 1200. *)
Example savings_percent_truncates :
  pair_metrics 0 (Demo.verdict true "smart_selection" [("a.py", Demo.names 67)])
  = Ok {| pm_base_time := 1200; pm_smart_time := 1205;
          pm_total_test_count := 1000; pm_selected := 1005 |}
  /\ savings_pct_of 1200 1205 = Ok 0
  /\ Spec.savings_percent_exact 1200 1205 = -1.
Proof. repeat split; vm_compute; reflexivity. Qed.

(** Nothing in lines 179-183 tests [avg_current]: on totals that no run
    produces, the division of line 181 raises. *)
Example reduction_has_no_guard :
  respond "demo" {| total_current_time := 0; total_smart_time := 0;
                    total_tests := 0; total_selected := 0; analyzed := 1 |}
  = Raise ZeroDivisionError.
Proof. vm_compute. reflexivity. Qed.

(** ** The savings projection *)

(** C9. With [avg_current = 1200] and [avg_smart = 0] the projector goes
    through 20 minutes per commit, 20000 minutes per day and 400000 minutes
    per month, all exact in binary64, and returns 480769 dollars; that is
    also the floor of the exact value of (400000/60) * (150000/2080), and
    the response prints it as ["$480,769"]. *)
Theorem monthly_savings_1200_0 :
  dollar_savings_of 1200 0 = Ok 480769 /\
  PyNum.truediv (NInt (1200 - 0)) (NInt 60)
  = (m <- PyFloat.of_int 20 ;; Ok (NFloat m))%res /\
  (m <- PyNum.truediv (NInt (1200 - 0)) (NInt 60) ;;
   tenfold <- PyNum.mul m (NInt 10) ;;
   PyNum.mul tenfold (NInt 100))%res
  = (d <- PyFloat.of_int 20000 ;; Ok (NFloat d))%res /\
  (d <- PyFloat.of_int 20000 ;; PyNum.mul (NFloat d) (NInt 20))%res
  = (mo <- PyFloat.of_int 400000 ;; Ok (NFloat mo))%res /\
  (400000 * 150000) / (60 * (52 * 40)) = 480769 /\
  (forall name tests selected,
      option_map monthly_savings
        (match respond name {| total_current_time := 1200; total_smart_time := 0;
                               total_tests := tests; total_selected := selected;
                               analyzed := 1 |} with
         | Ok r => Some r
         | Raise _ => None
         end)
      = Some "$480,769").
Proof.
  repeat split; try (vm_compute; reflexivity).
Qed.

(* ------------------------------------------------------------------ *)
(** * Further lemmas *)

(** ** Substrings *)

Lemma prefix_app : forall a c, prefix a (a ++ c) = true.
Proof.
  induction a as [|x a IH]; intros c; [destruct c; reflexivity|].
  cbn [append prefix]. destruct (ascii_dec x x); [apply IH|congruence].
Qed.

Lemma prefix_inv : forall a s, prefix a s = true -> exists c, s = (a ++ c)%string.
Proof.
  induction a as [|x a IH]; intros s H.
  - exists s. reflexivity.
  - destruct s as [|y s]; [discriminate|]. cbn [prefix] in H.
    destruct (ascii_dec x y) as [->|]; [|discriminate].
    destruct (IH s H) as [c ->]. exists c. reflexivity.
Qed.

Lemma contains_app : forall needle a b, PyStr.contains needle (a ++ needle ++ b) = true.
Proof.
  intros needle a b. induction a as [|x a IH].
  - cbn [append]. destruct (needle ++ b)%string eqn:E.
    + cbn [PyStr.contains]. rewrite <- E, prefix_app. reflexivity.
    + cbn [PyStr.contains]. rewrite <- E, prefix_app. reflexivity.
  - cbn [append PyStr.contains]. rewrite IH. apply orb_true_r.
Qed.

Lemma contains_inv :
  forall needle hay, PyStr.contains needle hay = true ->
    exists a b, hay = (a ++ needle ++ b)%string.
Proof.
  intros needle hay. induction hay as [|x hay IH]; intros H.
  - cbn [PyStr.contains] in H. rewrite orb_false_r in H.
    destruct (prefix_inv _ _ H) as [c Hc]. exists EmptyString, c. exact Hc.
  - cbn [PyStr.contains] in H. apply orb_true_iff in H. destruct H as [H|H].
    + destruct (prefix_inv _ _ H) as [c Hc]. exists EmptyString, c. exact Hc.
    + destruct (IH H) as [a [b ->]]. exists (String x a), b. reflexivity.
Qed.

(** ** The outcomes of a request *)

Lemma nonempty_app_marker :
  forall a m b, PyStr.nonempty m = true -> PyStr.nonempty (a ++ m ++ b) = true.
Proof. intros [|x a] [|y m] b H; try discriminate; reflexivity. Qed.

Lemma valid_url_spec :
  forall url, valid_url url = true <-> exists a b, url = (a ++ "github.com" ++ b)%string.
Proof.
  intros url. unfold valid_url. split.
  - intros H. apply andb_true_iff in H. apply contains_inv. apply H.
  - intros [a [b ->]]. rewrite contains_app, nonempty_app_marker; reflexivity.
Qed.

Lemma analyze_repo_started :
  forall w url owner name dir,
    valid_url url = true ->
    request_names url = Ok (owner, name) ->
    mkdtemp w (temp_prefix owner name) = Ok dir ->
    analyze_repo w url
    = (EvMkdtemp (temp_prefix owner name)
         :: fst (try_except (pipeline w url name dir) (on_error w)) ++ [EvRmtree dir],
       snd (try_except (pipeline w url name dir) (on_error w))).
Proof.
  intros w url owner name dir Hv Hn Hd.
  unfold analyze_repo. rewrite Hv. cbn [negb]. unfold request_names in Hn.
  destruct (PyStr.index_from_end _ 2) as [o|e]; [|discriminate].
  cbn [rbind] in Hn.
  destruct (PyStr.index_from_end _ 1) as [l|e]; [|discriminate].
  cbn [rbind] in Hn. injection Hn as Ho Hname. subst owner name.
  unfold lift, emit. cbn [bind app]. rewrite Hd. cbn [bind].
  unfold finally. reflexivity.
Qed.

Lemma try_except_trace :
  forall w (m : M AnalyzeResponse), fst (try_except m (on_error w)) = fst m.
Proof.
  intros w [t [r|e]]; [reflexivity|].
  unfold try_except, on_error. destruct e; cbn; apply app_nil_r.
Qed.

Lemma try_except_result :
  forall w (m : M AnalyzeResponse),
    snd (try_except m (on_error w))
    = match snd m with
      | Ok r => Ok r
      | Raise TimeoutExpired => Raise (HTTPException 408 "Analysis timed out")
      | Raise e => Raise (HTTPException 500 (exn_str w e))
      end.
Proof.
  intros w [t [r|e]]; [reflexivity|].
  unfold try_except, on_error. destruct e; reflexivity.
Qed.

Lemma pair_indices_length :
  forall commits, (List.length (pair_indices commits) <= 20)%nat.
Proof. intros commits. unfold pair_indices. rewrite length_seq. lia. Qed.

Lemma call_events_in_workspace :
  forall url dir commits idx,
    Forall (in_workspace url dir) (map (call_event dir commits) idx).
Proof.
  intros url dir commits idx. apply Forall_forall. intros ev Hev.
  apply in_map_iff in Hev. destruct Hev as [i [<- _]]. reflexivity.
Qed.

(** The external calls of the [try] block. *)
Lemma pipeline_trace :
  forall w url name dir,
    Forall (in_workspace url dir) (fst (pipeline w url name dir))
    /\ (List.length (fst (pipeline w url name dir)) <= 22)%nat.
Proof.
  intros w url name dir. unfold pipeline, emit.
  destruct (git_clone w url dir) as [cp|e]; cbn [bind fst].
  2:{ split; [repeat constructor|simpl; lia]. }
  destruct (negb (returncode cp =? 0)); cbn [raise fst app].
  { split; [repeat constructor|simpl; lia]. }
  destruct (git_log w dir) as [lp|e]; cbn [bind fst].
  2:{ split; [repeat constructor|simpl; lia]. }
  destruct (Nat.ltb _ 2); cbn [raise fst app].
  { split; [repeat constructor|simpl; lia]. }
  rewrite analyze_commits_outcome. cbn [bind lift fst app].
  rewrite app_nil_r. split.
  - constructor; [split; reflexivity|]. constructor; [reflexivity|].
    apply call_events_in_workspace.
  - cbn [List.length]. rewrite length_map.
    pose proof (pair_indices_length (parse_commits (stdout lp))). lia.
Qed.

(** The [try] block, stage by stage. *)
Lemma pipeline_stages :
  forall w url name dir,
    pipeline w url name dir
    = match git_clone w url dir with
      | Raise e => ([EvClone url dir], Raise e)
      | Ok cp =>
          if returncode cp =? 0 then
            match git_log w dir with
            | Raise e => ([EvClone url dir; EvLog dir], Raise e)
            | Ok lp =>
                let commits := parse_commits (stdout lp) in
                if Nat.ltb (List.length commits) 2
                then ([EvClone url dir; EvLog dir],
                      Raise (HTTPException 400 "Repository must have at least 2 commits"))
                else (EvClone url dir :: EvLog dir
                        :: map (call_event dir commits) (pair_indices commits),
                      respond name (fold_left (step_outcome w dir commits)
                                              (pair_indices commits) acc0))
            end
          else ([EvClone url dir],
                Raise (HTTPException 400
                         ("Failed to clone repository: " ++ stderr cp)%string))
      end.
Proof.
  intros w url name dir. unfold pipeline, emit.
  destruct (git_clone w url dir) as [cp|e]; cbn [bind]; [|reflexivity].
  destruct (returncode cp =? 0); cbn [negb raise app]; [|reflexivity].
  destruct (git_log w dir) as [lp|e]; cbn [bind]; [|reflexivity].
  cbv zeta. destruct (Nat.ltb _ 2); cbn [raise app]; [reflexivity|].
  rewrite analyze_commits_outcome. cbn [bind lift app]. rewrite app_nil_r. reflexivity.
Qed.

Lemma raises_arith_ok : forall A (a : A), raises_arith (Ok a).
Proof. intros A a e H. discriminate. Qed.

Lemma raises_arith_bind :
  forall A B (r : result A) (k : A -> result B),
    raises_arith r -> (forall a, raises_arith (k a)) -> raises_arith (rbind r k).
Proof.
  intros A B r k Hr Hk e H. destruct r as [a|e0]; simpl in H.
  - exact (Hk a e H).
  - injection H as <-. apply Hr. reflexivity.
Qed.

Lemma raises_arith_checked : forall x, raises_arith (PyFloat.checked x).
Proof.
  intros x e H. destruct x; simpl in H; try discriminate.
  injection H as <-. reflexivity.
Qed.

Lemma raises_arith_float_truediv : forall a b, raises_arith (PyFloat.truediv a b).
Proof.
  intros a b. unfold PyFloat.truediv. destruct (b =? 0).
  - intros e H. injection H as <-. reflexivity.
  - apply raises_arith_checked.
Qed.

Lemma raises_arith_float_div : forall x y, raises_arith (PyFloat.div x y).
Proof.
  intros x y e H. destruct y; simpl in H; try discriminate.
  injection H as <-. reflexivity.
Qed.

Lemma raises_arith_to_int : forall x, raises_arith (PyFloat.to_int x).
Proof.
  intros x e H.
  destruct x; simpl in H; try discriminate; injection H as <-; reflexivity.
Qed.

Lemma raises_arith_floordiv : forall a b, raises_arith (floordiv a b).
Proof.
  intros a b e H. unfold floordiv in H. destruct (b =? 0); [|discriminate].
  injection H as <-. reflexivity.
Qed.

Ltac raises_arith_tac :=
  repeat first
    [ apply raises_arith_bind; [|intros ?]
    | apply raises_arith_ok
    | apply raises_arith_checked
    | apply raises_arith_float_truediv
    | apply raises_arith_float_div
    | apply raises_arith_to_int
    | apply raises_arith_floordiv ].

Lemma raises_arith_num_truediv : forall a b, raises_arith (PyNum.truediv a b).
Proof.
  intros [x|x] [y|y]; cbn [PyNum.truediv]; unfold PyFloat.of_int; raises_arith_tac.
Qed.

Lemma raises_arith_num_mul : forall a b, raises_arith (PyNum.mul a b).
Proof.
  intros [x|x] [y|y]; cbn [PyNum.mul]; unfold PyFloat.of_int; raises_arith_tac.
Qed.

Lemma raises_arith_num_int : forall a, raises_arith (PyNum.int a).
Proof. intros [x|x]; cbn [PyNum.int]; raises_arith_tac. Qed.

(** Lines 172-205 raise the error of line 173 or an exception of the
    arithmetic, nothing else. *)
Lemma respond_raises :
  forall name acc e,
    respond name acc = Raise e ->
    (analyzed acc = 0 /\ e = HTTPException 400 "No commits could be analyzed")
    \/ (analyzed acc <> 0 /\ is_arith e = true).
Proof.
  intros name acc e H. unfold respond in H.
  destruct (analyzed acc =? 0) eqn:Hz.
  - apply Z.eqb_eq in Hz. injection H as <-. left. split; [exact Hz|reflexivity].
  - apply Z.eqb_neq in Hz. right. split; [exact Hz|]. revert H.
    match goal with
    | |- ?r = _ -> _ => assert (Harith : raises_arith r)
    end.
    { unfold savings_pct_of, dollar_savings_of.
      repeat first
        [ apply raises_arith_num_truediv
        | apply raises_arith_num_mul
        | apply raises_arith_num_int
        | apply raises_arith_floordiv
        | apply raises_arith_ok
        | apply raises_arith_bind; [|intros ?] ]. }
    intros H. exact (Harith _ H).
Qed.

(** ** The segments of a URL *)

Lemma split_not_nil : forall sep s, PyStr.split sep s <> [].
Proof.
  intros sep s. destruct s as [|a s]; cbn [PyStr.split]; [discriminate|].
  destruct (Ascii.eqb a sep); [discriminate|].
  destruct (PyStr.split sep s); discriminate.
Qed.

Lemma split_app_sep :
  forall sep a b,
    PyStr.split sep (a ++ String sep b) = PyStr.split sep a ++ PyStr.split sep b.
Proof.
  intros sep a b. induction a as [|x a IH].
  - cbn [append PyStr.split app]. rewrite Ascii.eqb_refl. reflexivity.
  - cbn [append PyStr.split]. destruct (Ascii.eqb x sep).
    + rewrite IH. reflexivity.
    + rewrite IH. pose proof (split_not_nil sep a) as Hne.
      destruct (PyStr.split sep a) as [|h t]; [contradiction|reflexivity].
Qed.

Lemma split_free :
  forall sep s, has_char sep s = false -> PyStr.split sep s = [s].
Proof.
  intros sep s. induction s as [|x s IH]; intros H; [reflexivity|].
  cbn [has_char] in H. apply orb_false_iff in H. destruct H as [Hx Hs].
  cbn [PyStr.split]. rewrite Hx, (IH Hs). reflexivity.
Qed.

Lemma split_parts_free :
  forall sep s part, In part (PyStr.split sep s) -> has_char sep part = false.
Proof.
  intros sep s. induction s as [|x s IH]; intros part H.
  - destruct H as [<-|[]]. reflexivity.
  - cbn [PyStr.split] in H. destruct (Ascii.eqb x sep) eqn:Hx.
    + destruct H as [<-|H]; [reflexivity|apply IH; exact H].
    + pose proof (split_not_nil sep s) as Hne.
      destruct (PyStr.split sep s) as [|h t]; [contradiction|].
      destruct H as [<-|H].
      * cbn [has_char]. rewrite Hx. apply IH. left. reflexivity.
      * apply IH. right. exact H.
Qed.

Lemma rstrip_free :
  forall c p n,
    n <> EmptyString -> has_char c n = false ->
    PyStr.rstrip c (p ++ n) = (p ++ n)%string.
Proof.
  intros c p n Hne Hfree. induction p as [|x p IH].
  - cbn [append]. clear Hne. induction n as [|y n IHn]; [reflexivity|].
    cbn [has_char] in Hfree. apply orb_false_iff in Hfree. destruct Hfree as [Hy Hn].
    cbn [PyStr.rstrip]. rewrite (IHn Hn). destruct n; [rewrite Hy|]; reflexivity.
  - cbn [append PyStr.rstrip]. rewrite IH.
    destruct (p ++ n)%string eqn:E; [|reflexivity].
    destruct p; [cbn in E; contradiction|discriminate].
Qed.

Lemma rstrip_slashes :
  forall s k, PyStr.rstrip "/" (s ++ slashes k) = PyStr.rstrip "/" s.
Proof.
  intros s k. induction s as [|x s IH].
  - cbn [append]. induction k as [|k IHk]; [reflexivity|].
    cbn [slashes PyStr.rstrip]. rewrite IHk. reflexivity.
  - cbn [append PyStr.rstrip]. rewrite IH. reflexivity.
Qed.

Lemma index_from_end_last_two :
  forall l o n,
    PyStr.index_from_end (l ++ [o; n]) 2 = Ok o
    /\ PyStr.index_from_end (l ++ [o; n]) 1 = Ok n.
Proof.
  intros l o n. unfold PyStr.index_from_end. rewrite length_app. cbn [List.length].
  replace (Nat.ltb (List.length l + 2) 2) with false by (symmetry; apply Nat.ltb_ge; lia).
  replace (Nat.ltb (List.length l + 2) 1) with false by (symmetry; apply Nat.ltb_ge; lia).
  rewrite !nth_error_app2 by lia.
  replace (List.length l + 2 - 2 - List.length l)%nat with 0%nat by lia.
  replace (List.length l + 2 - 1 - List.length l)%nat with 1%nat by lia.
  split; reflexivity.
Qed.

(** ** Removing [".git"] *)

Lemma replace_from_length :
  forall old s k,
    (String.length (PyStr.replace_from old EmptyString s k) <= String.length s)%nat.
Proof.
  intros old s. induction s as [|x s IH]; intros k; [simpl; lia|].
  cbn [PyStr.replace_from]. destruct k as [|k].
  - destruct (prefix old (String x s)).
    + cbn [append String.length]. specialize (IH (String.length old - 1)%nat). lia.
    + cbn [String.length]. specialize (IH 0%nat). lia.
  - cbn [String.length]. specialize (IH k). lia.
Qed.

Lemma replace_absent :
  forall old s, PyStr.contains old s = false -> PyStr.replace old EmptyString s = s.
Proof.
  intros old s. unfold PyStr.replace. induction s as [|x s IH]; intros H; [reflexivity|].
  cbn [PyStr.contains] in H. apply orb_false_iff in H. destruct H as [Hp Hc].
  cbn [PyStr.replace_from]. rewrite Hp, (IH Hc). reflexivity.
Qed.

Lemma replace_present :
  forall old s,
    PyStr.contains old s = true -> old <> EmptyString ->
    PyStr.replace old EmptyString s <> s.
Proof.
  intros old s Hc Hold. unfold PyStr.replace. induction s as [|x s IH].
  - cbn [PyStr.contains] in Hc. rewrite orb_false_r in Hc.
    destruct old; [contradiction|discriminate].
  - cbn [PyStr.contains] in Hc. cbn [PyStr.replace_from].
    destruct (prefix old (String x s)) eqn:Hp.
    + cbn [append]. intros E.
      pose proof (replace_from_length old s (String.length old - 1)) as Hlen.
      rewrite E in Hlen. cbn [String.length] in Hlen. lia.
    + cbn [orb] in Hc. intros E. injection E as E. exact (IH Hc E).
Qed.

(** An occurrence of [".git"] cannot begin before a final [".git"] and end
    inside it: the pattern has its only dot in front. *)
Lemma no_straddling_git :
  forall x s,
    prefix ".git" (String x s) = false ->
    prefix ".git" (String x s ++ ".git") = false.
Proof.
  intros x s H. cbn [append prefix] in *.
  destruct (ascii_dec "." x); [|reflexivity].
  destruct s as [|y s]; [reflexivity|]. cbn [append prefix] in *.
  destruct (ascii_dec "g" y); [|reflexivity].
  destruct s as [|z s]; [reflexivity|]. cbn [append prefix] in *.
  destruct (ascii_dec "i" z); [|reflexivity].
  destruct s as [|u s]; [reflexivity|]. cbn [append prefix] in *.
  destruct (ascii_dec "t" u); [|reflexivity].
  destruct s; discriminate H.
Qed.

Lemma replace_git_suffix :
  forall stem,
    PyStr.contains ".git" stem = false ->
    PyStr.replace ".git" EmptyString (stem ++ ".git") = stem.
Proof.
  intros stem. unfold PyStr.replace. induction stem as [|x s IH]; intros H; [reflexivity|].
  cbn [PyStr.contains] in H. apply orb_false_iff in H. destruct H as [Hp Hc].
  pose proof (no_straddling_git x s Hp) as Hq.
  cbn [append] in *. cbn [PyStr.replace_from]. rewrite Hq, (IH Hc). reflexivity.
Qed.

Lemma append_assoc_str :
  forall a b c : string, ((a ++ b) ++ c)%string = (a ++ (b ++ c))%string.
Proof.
  intros a b c. induction a as [|x a IH]; [reflexivity|].
  cbn [append]. rewrite IH. reflexivity.
Qed.

(** Lines 65-67 on a URL that ends with an owner segment, a last segment
    and any number of slashes. *)
Lemma request_names_segments :
  forall (base owner last : string) (k : nat),
    has_char "/" owner = false -> has_char "/" last = false ->
    last <> EmptyString ->
    request_names (base ++ "/" ++ owner ++ "/" ++ last ++ slashes k)
    = Ok (owner, PyStr.replace ".git" EmptyString last).
Proof.
  intros base owner last k Ho Hl Hne. unfold request_names.
  replace (base ++ "/" ++ owner ++ "/" ++ last ++ slashes k)%string
    with (((base ++ "/" ++ owner ++ "/") ++ last) ++ slashes k)%string
    by (rewrite !append_assoc_str; reflexivity).
  rewrite rstrip_slashes, rstrip_free by assumption.
  replace ((base ++ "/" ++ owner ++ "/") ++ last)%string
    with (base ++ String "/" (owner ++ String "/" last))%string
    by (rewrite !append_assoc_str; reflexivity).
  rewrite !split_app_sep, (split_free "/" owner Ho), (split_free "/" last Hl).
  cbn [app].
  destruct (index_from_end_last_two (PyStr.split "/" base) owner last) as [H2 H1].
  rewrite H2. cbn [rbind]. rewrite H1. reflexivity.
Qed.

(** ** The commits of the log *)

Lemma no_space_no_newline : forall s, no_space s = true -> has_char "010" s = false.
Proof.
  induction s as [|a s IH]; intros H; [reflexivity|].
  cbn [no_space] in H. apply andb_true_iff in H. destruct H as [Ha Hs].
  cbn [has_char]. rewrite (IH Hs), orb_false_r.
  destruct (Ascii.eqb a "010") eqn:E; [|reflexivity].
  apply Ascii.eqb_eq in E. subst a. discriminate Ha.
Qed.

Lemma lstrip_ws_word :
  forall h r, is_word h = true -> PyStr.lstrip_ws (h ++ r) = (h ++ r)%string.
Proof.
  intros [|a h] r H; [discriminate|].
  unfold is_word in H. cbn [PyStr.nonempty no_space andb] in H.
  apply andb_true_iff in H. destruct H as [Ha _].
  cbn [append PyStr.lstrip_ws]. apply negb_true_iff in Ha. rewrite Ha. reflexivity.
Qed.

Lemma rstrip_ws_newline :
  forall s, PyStr.rstrip_ws (s ++ String "010" EmptyString) = PyStr.rstrip_ws s.
Proof.
  induction s as [|a s IH]; [reflexivity|].
  cbn [append PyStr.rstrip_ws]. rewrite IH. reflexivity.
Qed.

Lemma rstrip_ws_word :
  forall p h, is_word h = true -> PyStr.rstrip_ws (p ++ h) = (p ++ h)%string.
Proof.
  intros p h H. unfold is_word in H. apply andb_true_iff in H. destruct H as [Hne Hns].
  induction p as [|x p IH].
  - cbn [append]. clear Hne. induction h as [|y h IHh]; [reflexivity|].
    cbn [no_space] in Hns. apply andb_true_iff in Hns. destruct Hns as [Hy Hh].
    cbn [PyStr.rstrip_ws]. rewrite (IHh Hh). apply negb_true_iff in Hy.
    destruct h; [rewrite Hy|]; reflexivity.
  - cbn [append PyStr.rstrip_ws]. rewrite IH.
    destruct (p ++ h)%string eqn:E; [|reflexivity].
    destruct p; [cbn in E; subst h; discriminate Hne|discriminate].
Qed.

Lemma log_lines_join :
  forall h t, log_lines (h :: t) = (join_nl h t ++ String "010" EmptyString)%string.
Proof.
  intros h t. revert h. induction t as [|h2 t IH]; intros h.
  - cbn [log_lines join_nl]. reflexivity.
  - cbn [log_lines join_nl] in *. rewrite IH, append_assoc_str. reflexivity.
Qed.

Lemma rstrip_ws_join :
  forall t p h,
    Forall (fun x => is_word x = true) (h :: t) ->
    PyStr.rstrip_ws (p ++ join_nl h t) = (p ++ join_nl h t)%string.
Proof.
  induction t as [|h2 t IH]; intros p h H.
  - cbn [join_nl]. apply rstrip_ws_word. inversion H; assumption.
  - cbn [join_nl].
    replace (p ++ h ++ String "010" (join_nl h2 t))%string
      with ((p ++ h ++ String "010" EmptyString) ++ join_nl h2 t)%string
      by (rewrite !append_assoc_str; reflexivity).
    apply IH. inversion H; assumption.
Qed.

Lemma split_join :
  forall t h,
    Forall (fun x => is_word x = true) (h :: t) ->
    PyStr.split "010" (join_nl h t) = h :: t.
Proof.
  induction t as [|h2 t IH]; intros h H; inversion H as [|? ? Hh Ht]; subst.
  - cbn [join_nl]. apply split_free. apply no_space_no_newline.
    unfold is_word in Hh. apply andb_true_iff in Hh. apply Hh.
  - cbn [join_nl]. rewrite split_app_sep, (IH h2 Ht).
    rewrite split_free; [reflexivity|]. apply no_space_no_newline.
    unfold is_word in Hh. apply andb_true_iff in Hh. apply Hh.
Qed.

Lemma filter_words :
  forall hs, Forall (fun x => is_word x = true) hs -> filter PyStr.nonempty hs = hs.
Proof.
  induction hs as [|h t IH]; intros H; [reflexivity|].
  inversion H as [|? ? Hh Ht]; subst. cbn [filter].
  unfold is_word in Hh. apply andb_true_iff in Hh. destruct Hh as [-> _].
  rewrite (IH Ht). reflexivity.
Qed.

Lemma parse_commits_log_lines :
  forall hs, Forall (fun x => is_word x = true) hs -> parse_commits (log_lines hs) = hs.
Proof.
  intros [|h t] H; [reflexivity|].
  unfold parse_commits, PyStr.strip.
  assert (Hh : is_word h = true) by (inversion H; assumption).
  cbn [log_lines]. rewrite (lstrip_ws_word h _ Hh).
  change (h ++ String "010" (log_lines t))%string with (log_lines (h :: t)).
  rewrite log_lines_join, rstrip_ws_newline.
  pose proof (rstrip_ws_join t EmptyString h H) as Hr. cbn [append] in Hr.
  rewrite Hr.
  rewrite (split_join t h H). apply filter_words. exact H.
Qed.

(** ** The thousands separator *)

Lemma numeral_chars :
  forall d a,
    In a (list_ascii_of_string (DecimalString.NilEmpty.string_of_uint d)) ->
    a <> ","%char.
Proof.
  induction d as [|d IH|d IH|d IH|d IH|d IH|d IH|d IH|d IH|d IH|d IH];
    intros a H; cbn in H; try contradiction;
    (destruct H as [<-|H]; [discriminate|apply IH; exact H]).
Qed.

Lemma numeral_no_comma :
  forall n a, In a (list_ascii_of_string (numeral n)) -> a <> ","%char.
Proof.
  intros n a H. unfold numeral, DecimalString.NilZero.string_of_uint in H.
  destruct (N.to_uint n) eqn:E;
    try (rewrite <- E in H; exact (numeral_chars _ _ H)).
  cbn in H. destruct H as [<-|[]]. discriminate.
Qed.

Lemma group_rev_filter :
  forall l k,
    (forall a, In a l -> a <> ","%char) ->
    filter (fun a => negb (Ascii.eqb a ",")) (group_rev l k) = l.
Proof.
  induction l as [|d ds IH]; intros k H; [reflexivity|].
  assert (Hd : negb (Ascii.eqb d ",") = true).
  { apply negb_true_iff. apply Ascii.eqb_neq. apply H. left. reflexivity. }
  assert (Hds : forall a, In a ds -> a <> ","%char) by (intros a Ha; apply H; right; exact Ha).
  destruct k as [|[|[|[|k]]]]; cbn [group_rev filter Ascii.eqb Bool.eqb negb];
    rewrite ?Ascii.eqb_refl; cbn [negb]; rewrite Hd, (IH _ Hds); reflexivity.
Qed.

Lemma group_rev_length :
  forall l k,
    (k <= 3)%nat ->
    List.length (group_rev l k)
    = (List.length l + (List.length l + k - 1) / 3)%nat.
Proof.
  induction l as [|d ds IH]; intros k Hk.
  - cbn [group_rev List.length].
    destruct k as [|[|[|[|k]]]]; try lia; reflexivity.
  - destruct k as [|[|[|[|k]]]]; try lia; cbn [group_rev List.length];
      rewrite IH by lia.
    + replace (S (List.length ds) + 0 - 1)%nat with (List.length ds) by lia.
      replace (List.length ds + 1 - 1)%nat with (List.length ds) by lia. lia.
    + replace (S (List.length ds) + 1 - 1)%nat with (List.length ds + 2 - 1)%nat by lia.
      lia.
    + replace (S (List.length ds) + 2 - 1)%nat with (List.length ds + 3 - 1)%nat by lia.
      lia.
    + replace (List.length ds + 1 - 1)%nat with (List.length ds) by lia.
      replace (S (List.length ds) + 3 - 1)%nat with (List.length ds + 1 * 3)%nat by lia.
      rewrite Nat.div_add by lia. lia.
Qed.

Lemma group_rev_commas :
  forall l k j c,
    (k <= 3)%nat ->
    (forall a, In a l -> a <> ","%char) ->
    nth_error (group_rev l k) j = Some c ->
    (c = ","%char <-> ((j + k) mod 4 = 3)%nat).
Proof.
  induction l as [|d ds IH]; intros k j c Hk H Hj.
  - destruct j; discriminate Hj.
  - assert (Hd : d <> ","%char) by (apply H; left; reflexivity).
    assert (Hds : forall a, In a ds -> a <> ","%char)
      by (intros a Ha; apply H; right; exact Ha).
    destruct k as [|[|[|[|k]]]]; try lia; cbn [group_rev] in Hj.
    + destruct j as [|j]; cbn [nth_error] in Hj.
      * injection Hj as <-. split; [contradiction|discriminate].
      * rewrite (IH 1%nat j c ltac:(lia) Hds Hj).
        replace (S j + 0)%nat with (j + 1)%nat by lia. reflexivity.
    + destruct j as [|j]; cbn [nth_error] in Hj.
      * injection Hj as <-. split; [contradiction|discriminate].
      * rewrite (IH 2%nat j c ltac:(lia) Hds Hj).
        replace (S j + 1)%nat with (j + 2)%nat by lia. reflexivity.
    + destruct j as [|j]; cbn [nth_error] in Hj.
      * injection Hj as <-. split; [contradiction|discriminate].
      * rewrite (IH 3%nat j c ltac:(lia) Hds Hj).
        replace (S j + 2)%nat with (j + 3)%nat by lia. reflexivity.
    + destruct j as [|[|j]]; cbn [nth_error] in Hj.
      * injection Hj as <-. split; reflexivity.
      * injection Hj as <-. split; [contradiction|discriminate].
      * rewrite (IH 1%nat j c ltac:(lia) Hds Hj).
        replace (S (S j) + 3)%nat with (j + 1 + 1 * 4)%nat by lia.
        rewrite Nat.Div0.mod_add. reflexivity.
Qed.

Lemma format_grouped_body :
  forall n, 0 <= n ->
    list_ascii_of_string (format_grouped n)
    = rev (group_rev (rev (list_ascii_of_string (numeral (Z.to_N n)))) 0).
Proof.
  intros n Hn. unfold format_grouped, numeral.
  replace (n <? 0) with false by (symmetry; apply Z.ltb_ge; exact Hn).
  replace (Z.abs_N n) with (Z.to_N n) by (destruct n; try reflexivity; lia).
  apply list_ascii_of_string_of_list_ascii.
Qed.

Lemma string_length_list :
  forall s, String.length s = List.length (list_ascii_of_string s).
Proof. induction s as [|a s IH]; [reflexivity|]. cbn. rewrite IH. reflexivity. Qed.

Lemma to_uint_not_nil : forall n, N.to_uint n <> Decimal.Nil.
Proof.
  intros n H. pose proof (DecimalN.Unsigned.of_to n) as E.
  rewrite H in E. cbn in E. subst n. discriminate H.
Qed.

Lemma format_grouped_sign :
  forall n,
    format_grouped n
    = if n <? 0 then String "-" (format_grouped (Z.abs n)) else format_grouped (Z.abs n).
Proof.
  intros n. unfold format_grouped.
  replace (Z.abs n <? 0) with false by (symmetry; apply Z.ltb_ge; lia).
  replace (Z.abs_N (Z.abs n)) with (Z.abs_N n) by (destruct n; reflexivity).
  reflexivity.
Qed.

Lemma ungroup_format_grouped :
  forall n, 0 <= n -> ungroup (format_grouped n) = numeral (Z.to_N n).
Proof.
  intros n Hn. unfold ungroup. rewrite (format_grouped_body n Hn).
  rewrite filter_rev, group_rev_filter.
  - rewrite rev_involutive. apply string_of_list_ascii_of_string.
  - intros a Ha. apply in_rev in Ha. exact (numeral_no_comma _ _ Ha).
Qed.

(** ** The dollar figure *)

(** Every saving from 0 to 1770 seconds. *)
Lemma dollars_ok_all : forallb dollars_ok (map Z.of_nat (seq 0 1771)) = true.
Proof. vm_cast_no_check (eq_refl true). Qed.

Lemma dollar_savings_of_difference :
  forall a s, dollar_savings_of a s = dollar_savings_of (a - s) 0.
Proof. intros a s. unfold dollar_savings_of. rewrite Z.sub_0_r. reflexivity. Qed.

Lemma dollar_savings_in_range :
  forall a s, 0 <= a - s <= 1770 ->
    exists v,
      dollar_savings_of a s = Ok v
      /\ dollar_savings_exact a s - 1 <= v <= dollar_savings_exact a s
      /\ ((a - s) mod 39 <> 0 -> v = dollar_savings_exact a s).
Proof.
  intros a s Hd.
  pose proof dollars_ok_all as Hall. rewrite forallb_forall in Hall.
  specialize (Hall (a - s)).
  assert (Hin : In (a - s) (map Z.of_nat (seq 0 1771))).
  { apply in_map_iff. exists (Z.to_nat (a - s)). split; [lia|]. apply in_seq. lia. }
  specialize (Hall Hin). unfold dollars_ok in Hall.
  rewrite dollar_savings_of_difference.
  assert (He : dollar_savings_exact (a - s) 0 = dollar_savings_exact a s)
    by (unfold dollar_savings_exact; rewrite Z.sub_0_r; reflexivity).
  rewrite He in Hall.
  destruct (dollar_savings_of (a - s) 0) as [v|e]; [|discriminate].
  exists v. split; [reflexivity|].
  apply andb_true_iff in Hall. destruct Hall as [Hb Hx].
  apply andb_true_iff in Hb. destruct Hb as [H1 H2].
  apply Z.leb_le in H1, H2. split; [lia|].
  intros Hm. apply orb_true_iff in Hx. destruct Hx as [Hx|Hx].
  - apply Z.eqb_eq in Hx. contradiction.
  - apply Z.eqb_eq in Hx. exact Hx.
Qed.

(** ** The fields of a response *)

Lemma respond_fields :
  forall name acc r,
    respond name acc = Ok r ->
    analyzed acc <> 0
    /\ savings_pct_of (total_current_time acc / analyzed acc)
                      (total_smart_time acc / analyzed acc)
       = Ok (savings_percent r)
    /\ (exists v,
          dollar_savings_of (total_current_time acc / analyzed acc)
                            (total_smart_time acc / analyzed acc) = Ok v
          /\ monthly_savings r = String "$" (format_grouped v))
    /\ success r = true /\ error r = None /\ repo_name r = name
    /\ commits_analyzed r = analyzed acc
    /\ current_time r = total_current_time acc / analyzed acc
    /\ smart_time r = total_smart_time acc / analyzed acc
    /\ tests_total r = total_tests acc / analyzed acc
    /\ tests_avg_selected r = total_selected acc / analyzed acc.
Proof.
  intros name acc r H. unfold respond, floordiv in H.
  destruct (analyzed acc =? 0) eqn:Hz; [discriminate|].
  apply Z.eqb_neq in Hz. cbn [rbind] in H.
  destruct (savings_pct_of _ _) as [p|e]; [|discriminate]. cbn [rbind] in H.
  destruct (dollar_savings_of _ _) as [v|e]; [|discriminate]. cbn [rbind] in H.
  injection H as <-. cbn.
  split; [exact Hz|]. split; [reflexivity|]. split; [exists v; split; reflexivity|].
  repeat split.
Qed.

Lemma respond_total :
  forall name acc p v,
    analyzed acc <> 0 ->
    savings_pct_of (total_current_time acc / analyzed acc)
                   (total_smart_time acc / analyzed acc) = Ok p ->
    dollar_savings_of (total_current_time acc / analyzed acc)
                      (total_smart_time acc / analyzed acc) = Ok v ->
    respond name acc
    = Ok {| success := true;
            repo_name := name;
            current_time := total_current_time acc / analyzed acc;
            smart_time := total_smart_time acc / analyzed acc;
            savings_percent := p;
            commits_analyzed := analyzed acc;
            tests_total := total_tests acc / analyzed acc;
            tests_avg_selected := total_selected acc / analyzed acc;
            monthly_savings := String "$" (format_grouped v);
            error := None |}.
Proof.
  intros name acc p v Hz Hp Hv. unfold respond, floordiv.
  apply Z.eqb_neq in Hz. rewrite Hz. cbn [rbind]. rewrite Hp. cbn [rbind].
  rewrite Hv. reflexivity.
Qed.

(** A response comes out of the last stage of the [try] block. *)
Lemma analyze_repo_response :
  forall w url t r,
    analyze_repo w url = (t, Ok r) ->
    exists owner name dir commits,
      request_names url = Ok (owner, name)
      /\ (2 <= List.length commits)%nat
      /\ respond name (fold_left (step_outcome w dir commits)
                                 (pair_indices commits) acc0) = Ok r.
Proof.
  intros w url t r H.
  destruct (valid_url url) eqn:Hv.
  2:{ unfold analyze_repo in H. rewrite Hv in H. discriminate H. }
  destruct (request_names url) as [[owner name]|e] eqn:Hn.
  2:{ unfold analyze_repo, request_names in *. rewrite Hv in H. cbn [negb] in H.
      destruct (PyStr.index_from_end _ 2) as [o|e2]; [|discriminate H].
      cbn [rbind lift bind] in *.
      destruct (PyStr.index_from_end _ 1) as [l|e1]; [discriminate Hn|discriminate H]. }
  destruct (mkdtemp w (temp_prefix owner name)) as [dir|e] eqn:Hd.
  2:{ unfold analyze_repo, request_names in *. rewrite Hv in H. cbn [negb] in H.
      destruct (PyStr.index_from_end _ 2) as [o|e2]; [|discriminate H].
      cbn [rbind lift bind] in *.
      destruct (PyStr.index_from_end _ 1) as [l|e1]; [|discriminate H].
      cbn [rbind lift bind app] in *. injection Hn as Ho Hname. subst owner name.
      unfold emit in H. rewrite Hd in H. discriminate H. }
  rewrite (analyze_repo_started w url owner name dir Hv Hn Hd) in H.
  injection H as _ H. rewrite try_except_result, pipeline_stages in H.
  exists owner, name, dir.
  destruct (git_clone w url dir) as [cp|e].
  2:{ cbn [snd] in H. destruct e; discriminate H. }
  destruct (returncode cp =? 0); [|discriminate H].
  destruct (git_log w dir) as [lp|e].
  2:{ cbn [snd] in H. destruct e; discriminate H. }
  cbv zeta in H. destruct (Nat.ltb _ 2) eqn:Hlt; [discriminate H|].
  apply Nat.ltb_ge in Hlt. cbn [snd] in H.
  exists (parse_commits (stdout lp)). split; [reflexivity|]. split; [exact Hlt|].
  destruct (respond name _) as [r'|e]; [congruence|]. destruct e; discriminate H.
Qed.

Lemma analyzed_at_most_20 :
  forall w dir commits,
    analyzed (fold_left (step_outcome w dir commits) (pair_indices commits) acc0) <= 20.
Proof.
  intros w dir commits. rewrite analyzed_count.
  pose proof (filter_length_le (pair_analyzed w dir commits) (pair_indices commits)).
  pose proof (pair_indices_length commits). lia.
Qed.

Lemma fold_totals_in_range :
  forall w dir commits,
    totals_in_range
      (fold_left (step_outcome w dir commits) (pair_indices commits) acc0).
Proof.
  intros w dir commits. apply (analyze_commits_in_range w dir commits).
  rewrite analyze_commits_outcome. reflexivity.
Qed.

Lemma savings_pct_nonneg :
  forall a s p, 0 < a -> s <= a -> savings_pct_of a s = Ok p -> 0 <= p.
Proof.
  intros a s p Ha Hs H. unfold savings_pct_of in H. cbn [PyNum.truediv] in H.
  destruct (PyFloat.truediv (a - s) a) as [q|e] eqn:Hq; [|discriminate].
  cbn [rbind PyNum.mul] in H.
  destruct (PyFloat.of_int 100) as [h|e] eqn:Hh; [|discriminate].
  cbn [rbind PyNum.int] in H.
  eapply to_int_nonneg; [|exact H]. apply mul_nonneg.
  - apply (truediv_nonneg (a - s) a); [lia|lia|exact Hq].
  - apply (of_int_nonneg 100); [lia|exact Hh].
Qed.

Lemma dollar_savings_exact_reduced :
  forall a s, dollar_savings_exact a s = 15625 * (a - s) / 39.
Proof.
  intros a s. unfold dollar_savings_exact.
  replace ((a - s) * (10 * 100 * 20) * 150000) with (15625 * (a - s) * 192000) by lia.
  replace (60 * 60 * (52 * 40)) with (39 * 192000) by lia.
  apply Z.div_mul_cancel_r; lia.
Qed.

(** ** Runs in which every pair is analyzed *)

Lemma outcome_fields :
  forall w dir commits i pm,
    outcome_at w dir commits i = Some pm ->
    pm_base_time pm = base_time i /\ pm_total_test_count pm = total_test_count i.
Proof.
  intros w dir commits i pm H. unfold outcome_at in H.
  destruct (pair_outcome_metrics w dir _ _ _ _ H) as [analysis Hpm].
  destruct (pair_metrics_fields _ _ _ Hpm) as [Hb [Ht _]]. split; assumption.
Qed.

Lemma fold_all_analyzed :
  forall w dir commits len m acc,
    (forall i, In i (seq m len) -> is_some (outcome_at w dir commits i) = true) ->
    let acc' := fold_left (step_outcome w dir commits) (seq m len) acc in
    analyzed acc' = analyzed acc + Z.of_nat len
    /\ total_current_time acc'
       = total_current_time acc
         + Z.of_nat len * (1200 + 30 * Z.of_nat m + 15 * (Z.of_nat len - 1))
    /\ total_tests acc'
       = total_tests acc
         + Z.of_nat len * (1000 + 50 * Z.of_nat m + 25 * (Z.of_nat len - 1)).
Proof.
  intros w dir commits len. induction len as [|len IH]; intros m acc Hall.
  - cbn [seq fold_left]. cbv zeta. lia.
  - cbn [seq fold_left]. cbv zeta.
    assert (Hm : is_some (outcome_at w dir commits m) = true)
      by (apply Hall; left; reflexivity).
    assert (Hrest : forall i, In i (seq (S m) len) ->
                      is_some (outcome_at w dir commits i) = true)
      by (intros i Hi; apply Hall; right; exact Hi).
    specialize (IH (S m) (step_outcome w dir commits acc m) Hrest). cbv zeta in IH.
    destruct IH as [Ha [Hc Ht]]. rewrite Ha, Hc, Ht.
    unfold step_outcome.
    destruct (outcome_at w dir commits m) as [pm|] eqn:Ho; [|discriminate Hm].
    destruct (outcome_fields _ _ _ _ _ Ho) as [Hb Htt].
    cbn [add_outcome accumulate analyzed total_current_time total_tests].
    rewrite Hb, Htt. unfold base_time, total_test_count.
    rewrite !Nat2Z.inj_succ. unfold Z.succ. split; [lia|]. split; ring.
Qed.

(** ** The ends of the percent scale *)

(** An int divided by itself is 1.0. *)
Lemma truediv_self :
  forall a, 0 < a ->
    PyFloat.truediv a a = Ok (S754_finite false 4503599627370496 (-52)).
Proof.
  intros a Ha. unfold PyFloat.truediv.
  replace (a =? 0) with false by (symmetry; apply Z.eqb_neq; lia).
  destruct a as [|p|p]; try lia.
  cbn [PyFloat.exact SFdiv xorb]. unfold SFdiv_core_binary.
  replace (Zdigits2 (Zpos p) + 0 - (Zdigits2 (Zpos p) + 0)) with 0 by lia.
  change (Z.min (fexp PyFloat.prec PyFloat.emax 0) (0 - 0)) with (-53).
  change (0 - 0 - -53) with 53. cbv iota.
  rewrite Z.shiftl_mul_pow2 by lia.
  assert (Hq : Zpos p * 2 ^ 53 / Zpos p = 2 ^ 53)
    by (rewrite Z.mul_comm; apply Z.div_mul; lia).
  assert (Hr : (Zpos p * 2 ^ 53) mod Zpos p = 0)
    by (rewrite Z.mul_comm; apply Z.mod_mul; lia).
  unfold Z.div, Z.modulo in Hq, Hr.
  destruct (Z.div_eucl (Zpos p * 2 ^ 53) (Zpos p)) as [q r].
  subst q r. unfold new_location, new_location_even, new_location_odd.
  destruct (Z.even (Zpos p)); reflexivity.
Qed.

Lemma savings_pct_all : forall a, 0 < a -> savings_pct_of a 0 = Ok 100.
Proof.
  intros a Ha. unfold savings_pct_of. rewrite Z.sub_0_r.
  cbn [PyNum.truediv]. rewrite (truediv_self a Ha). reflexivity.
Qed.

Lemma savings_pct_none : forall a, 0 < a -> savings_pct_of a a = Ok 0.
Proof.
  intros a Ha. unfold savings_pct_of. rewrite Z.sub_diag.
  cbn [PyNum.truediv]. unfold PyFloat.truediv.
  replace (a =? 0) with false by (symmetry; apply Z.eqb_neq; lia).
  destruct a as [|p|p]; try lia. reflexivity.
Qed.

Lemma dollar_savings_none : forall a, dollar_savings_of a a = Ok 0.
Proof.
  intros a. rewrite dollar_savings_of_difference, Z.sub_diag.
  vm_compute. reflexivity.
Qed.

Example run_no_changes :
  analyze_repo w_no_changes Demo.url
  = ([EvMkdtemp "smartci_octo_demo_"; EvClone Demo.url Demo.dir; EvLog Demo.dir;
      EvAnalyze Demo.dir "c1" "c0"; EvAnalyze Demo.dir "c2" "c1";
      EvRmtree Demo.dir],
     Ok {| success := true; repo_name := "demo";
           current_time := 1215; smart_time := 0; savings_percent := 100;
           commits_analyzed := 2; tests_total := 1025; tests_avg_selected := 0;
           monthly_savings := "$486,778"; error := None |}).
Proof. vm_compute. reflexivity. Qed.

(** ** Signs of the figures of a slower run *)

Lemma round_aux_nonpos :
  forall m e l,
    float_nonpos (binary_round_aux PyFloat.prec PyFloat.emax true m e l) = true.
Proof.
  intros m e l. unfold binary_round_aux.
  destruct (shr_fexp PyFloat.prec PyFloat.emax m e l) as [mrs e1].
  destruct (shr_fexp PyFloat.prec PyFloat.emax _ e1 loc_Exact) as [mrs2 e2].
  destruct (shr_m mrs2); try reflexivity.
  destruct (e2 <=? PyFloat.emax - PyFloat.prec); reflexivity.
Qed.

Lemma truediv_nonpos :
  forall a b x,
    a <= 0 -> 0 < b -> PyFloat.truediv a b = Ok x -> float_nonpos x = true.
Proof.
  intros a b x Ha Hb H. unfold PyFloat.truediv in H.
  destruct (b =? 0); [discriminate|].
  apply checked_ok in H. subst x.
  destruct a as [|p|p]; [|lia|]; destruct b as [|q|q]; try lia; try reflexivity.
  unfold PyFloat.exact, SFdiv.
  destruct (SFdiv_core_binary _ _ _ _ _ _) as [[mz ez] lz].
  apply round_aux_nonpos.
Qed.

Lemma mul_nonpos :
  forall x y,
    float_nonpos x = true -> PyFloat.nonneg y = true ->
    float_nonpos (PyFloat.mul x y) = true.
Proof.
  intros x y Hx Hy. unfold PyFloat.mul, SFmul.
  destruct x as [sx|sx| |sx mx ex], y as [sy|sy| |sy my ey];
    try reflexivity; try discriminate;
    try (destruct sx; try discriminate); try (destruct sy; try discriminate);
    try reflexivity.
  apply round_aux_nonpos.
Qed.

Lemma div_nonpos :
  forall x y q,
    float_nonpos x = true -> PyFloat.nonneg y = true ->
    PyFloat.div x y = Ok q -> float_nonpos q = true.
Proof.
  intros x y q Hx Hy H. unfold PyFloat.div in H.
  destruct y as [sy|sy| |sy my ey]; try discriminate; injection H as <-;
    destruct x as [sx|sx| |sx mx ex];
    try reflexivity; try discriminate;
    try (destruct sx; try discriminate); try (destruct sy; try discriminate);
    try reflexivity.
  unfold SFdiv. destruct (SFdiv_core_binary _ _ _ _ _ _) as [[mz ez] lz].
  apply round_aux_nonpos.
Qed.

Lemma to_int_nonpos :
  forall x n, float_nonpos x = true -> PyFloat.to_int x = Ok n -> n <= 0.
Proof.
  intros x n Hx H. destruct x as [s|s| |s m e]; simpl in H; try discriminate.
  - injection H as <-. lia.
  - destruct s; [|discriminate]. injection H as <-.
    pose proof (magnitude_nonneg m e). lia.
Qed.

Lemma num_mul_int_nonpos :
  forall x z y,
    float_nonpos x = true -> 0 <= z ->
    PyNum.mul (NFloat x) (NInt z) = Ok y ->
    exists fy, y = NFloat fy /\ float_nonpos fy = true.
Proof.
  intros x z y Hx Hz H. cbn [PyNum.mul] in H.
  destruct (PyFloat.of_int z) as [fz|e] eqn:Hfz; [|discriminate].
  cbn [rbind] in H. injection H as <-. eexists. split; [reflexivity|].
  apply mul_nonpos; [exact Hx|apply (of_int_nonneg z); assumption].
Qed.

Lemma savings_pct_nonpos :
  forall a s p, 0 < a -> a <= s -> savings_pct_of a s = Ok p -> p <= 0.
Proof.
  intros a s p Ha Hs H. unfold savings_pct_of in H. cbn [PyNum.truediv] in H.
  destruct (PyFloat.truediv (a - s) a) as [q|e] eqn:Hq; [|discriminate].
  cbn [rbind] in H.
  destruct (PyNum.mul (NFloat q) (NInt 100)) as [y|e] eqn:Hy; [|discriminate].
  destruct (num_mul_int_nonpos q 100 y) as [fy [-> Hfy]];
    [apply (truediv_nonpos (a - s) a); [lia|lia|exact Hq]|lia|exact Hy|].
  cbn [rbind PyNum.int] in H. exact (to_int_nonpos fy p Hfy H).
Qed.

Lemma dollar_savings_nonpos :
  forall a s v, a <= s -> dollar_savings_of a s = Ok v -> v <= 0.
Proof.
  intros a s v Hs H. unfold dollar_savings_of in H. cbn [PyNum.truediv] in H.
  destruct (PyFloat.truediv (a - s) 60) as [q|e] eqn:Hq; [|discriminate].
  cbn [rbind] in H.
  assert (Hq' : float_nonpos q = true)
    by (apply (truediv_nonpos (a - s) 60); [lia|lia|exact Hq]).
  destruct (PyNum.mul (NFloat q) (NInt 10)) as [y1|e] eqn:H1; [|discriminate].
  destruct (num_mul_int_nonpos q 10 y1 Hq' ltac:(lia) H1) as [f1 [-> Hf1]].
  cbn [rbind] in H.
  destruct (PyNum.mul (NFloat f1) (NInt 100)) as [y2|e] eqn:H2; [|discriminate].
  destruct (num_mul_int_nonpos f1 100 y2 Hf1 ltac:(lia) H2) as [f2 [-> Hf2]].
  cbn [rbind] in H.
  destruct (PyNum.mul (NFloat f2) (NInt 20)) as [y3|e] eqn:H3; [|discriminate].
  destruct (num_mul_int_nonpos f2 20 y3 Hf2 ltac:(lia) H3) as [f3 [-> Hf3]].
  cbn [rbind] in H.
  destruct (PyFloat.truediv 150000 (52 * 40)) as [rate|e] eqn:Hrate; [|discriminate].
  cbn [rbind PyNum.truediv] in H.
  assert (Hrate' : PyFloat.nonneg rate = true)
    by (apply (truediv_nonneg 150000 (52 * 40)); [lia|lia|exact Hrate]).
  destruct (PyFloat.of_int 60) as [f60|e] eqn:H60; [|discriminate].
  cbn [rbind] in H.
  destruct (PyFloat.div f3 f60) as [hours|e] eqn:Hh; [|discriminate].
  cbn [rbind PyNum.mul PyNum.int] in H.
  assert (Hhours : float_nonpos hours = true).
  { apply (div_nonpos f3 f60 hours Hf3); [|exact Hh].
    apply (of_int_nonneg 60); [lia|exact H60]. }
  exact (to_int_nonpos _ v (mul_nonpos hours rate Hhours Hrate') H).
Qed.

Example run_smart67 :
  analyze_repo w_smart67 Demo.url
  = ([EvMkdtemp "smartci_octo_demo_"; EvClone Demo.url Demo.dir; EvLog Demo.dir;
      EvAnalyze Demo.dir "c1" "c0"; EvAnalyze Demo.dir "c2" "c1";
      EvRmtree Demo.dir],
     Ok {| success := true; repo_name := "demo";
           current_time := 1200; smart_time := 1205; savings_percent := 0;
           commits_analyzed := 1; tests_total := 1000; tests_avg_selected := 1005;
           monthly_savings := "$-2,003"; error := None |}).
Proof. vm_compute. reflexivity. Qed.

(* ------------------------------------------------------------------ *)
(** * Further properties of the endpoint *)

(** ** Validation, stages and cleanup *)

Lemma index_from_end_raises :
  forall parts k e, PyStr.index_from_end parts k = Raise e -> e = IndexError.
Proof.
  intros parts k e H. unfold PyStr.index_from_end in H.
  destruct (Nat.ltb _ k); [congruence|].
  destruct (nth_error _ _); congruence.
Qed.

(** X1. The request is refused with status 400 and without any external
    call exactly when the URL does not contain ["github.com"] as a
    substring: neither a scheme nor a host is looked at, and the empty URL
    is one such case. *)
Theorem invalid_url_iff_no_marker :
  forall (w : World) (repo_url : string),
    analyze_repo w repo_url = ([], Raise (HTTPException 400 "Invalid GitHub URL"))
    <-> (forall a b, repo_url <> (a ++ "github.com" ++ b)%string).
Proof.
  intros w url. split.
  - intros H a b Hurl.
    assert (Hv : valid_url url = true) by (apply valid_url_spec; eauto).
    unfold analyze_repo in H. rewrite Hv in H. cbn [negb] in H.
    destruct (PyStr.index_from_end _ 2) as [o|e] eqn:Ho.
    2:{ apply index_from_end_raises in Ho. subst e. discriminate H. }
    cbn [lift bind] in H.
    destruct (PyStr.index_from_end _ 1) as [l|e] eqn:Hl.
    2:{ apply index_from_end_raises in Hl. subst e. discriminate H. }
    cbn [lift bind app] in H. unfold emit in H.
    destruct (mkdtemp w _) as [dir|e]; cbn [bind] in H; [|discriminate H].
    destruct (finally _ _) as [t r]. discriminate H.
  - intros H. unfold analyze_repo.
    destruct (valid_url url) eqn:Hv; [|reflexivity].
    apply valid_url_spec in Hv. destruct Hv as [a [b Hurl]].
    exfalso. exact (H a b Hurl).
Qed.

(** X2. Once the workspace has been created, the run makes at most 22
    further external calls, all of them on the requested repository and
    inside the workspace, removes the workspace as its last action, and
    ends with a response, with status 408 or with status 500: the
    [finally] clause runs on every path. *)
Theorem workspace_is_removed_last :
  forall (w : World) (repo_url owner name temp_dir : string),
    valid_url repo_url = true ->
    request_names repo_url = Ok (owner, name) ->
    mkdtemp w (temp_prefix owner name) = Ok temp_dir ->
    exists t,
      fst (analyze_repo w repo_url)
      = EvMkdtemp (temp_prefix owner name) :: t ++ [EvRmtree temp_dir]
      /\ Forall (in_workspace repo_url temp_dir) t
      /\ (List.length t <= 22)%nat
      /\ ((exists r, snd (analyze_repo w repo_url) = Ok r)
          \/ snd (analyze_repo w repo_url)
             = Raise (HTTPException 408 "Analysis timed out")
          \/ (exists e, snd (analyze_repo w repo_url)
                        = Raise (HTTPException 500 (exn_str w e)))).
Proof.
  intros w url owner name dir Hv Hn Hd.
  rewrite (analyze_repo_started w url owner name dir Hv Hn Hd). cbn [fst snd].
  exists (fst (pipeline w url name dir)).
  rewrite try_except_trace, try_except_result.
  destruct (pipeline_trace w url name dir) as [Hall Hlen].
  split; [reflexivity|]. split; [exact Hall|]. split; [exact Hlen|].
  destruct (snd (pipeline w url name dir)) as [r|e].
  - left. exists r. reflexivity.
  - destruct e; try (right; right; eexists; reflexivity).
    right. left. reflexivity.
Qed.

(** The run of [Demo.w_smart28]. *)
Lemma workspace_is_removed_last_witness :
  exists t,
    fst (analyze_repo Demo.w_smart28 Demo.url)
    = EvMkdtemp "smartci_octo_demo_" :: t ++ [EvRmtree Demo.dir]
    /\ Forall (in_workspace Demo.url Demo.dir) t
    /\ (List.length t <= 22)%nat
    /\ ((exists r, snd (analyze_repo Demo.w_smart28 Demo.url) = Ok r)
        \/ snd (analyze_repo Demo.w_smart28 Demo.url)
           = Raise (HTTPException 408 "Analysis timed out")
        \/ (exists e, snd (analyze_repo Demo.w_smart28 Demo.url)
                      = Raise (HTTPException 500 (exn_str Demo.w_smart28 e)))).
Proof.
  exact (workspace_is_removed_last Demo.w_smart28 Demo.url "octo" "demo" Demo.dir
           eq_refl eq_refl eq_refl).
Defined.

(** X3. With the workspace created, the request ends with status 408
    exactly when [git clone] times out, or succeeds and [git log] times
    out; the timeout of a pair analysis, or any other failure, never gives
    408. *)
Theorem status_408_iff_clone_or_log_timeout :
  forall (w : World) (repo_url owner name temp_dir : string),
    valid_url repo_url = true ->
    request_names repo_url = Ok (owner, name) ->
    mkdtemp w (temp_prefix owner name) = Ok temp_dir ->
    (snd (analyze_repo w repo_url) = Raise (HTTPException 408 "Analysis timed out")
     <-> (git_clone w repo_url temp_dir = Raise TimeoutExpired
          \/ exists cp,
               git_clone w repo_url temp_dir = Ok cp /\ returncode cp = 0
               /\ git_log w temp_dir = Raise TimeoutExpired)).
Proof.
  intros w url owner name dir Hv Hn Hd.
  rewrite (analyze_repo_started w url owner name dir Hv Hn Hd). cbn [snd].
  rewrite try_except_result, pipeline_stages.
  destruct (git_clone w url dir) as [cp|e].
  - destruct (returncode cp =? 0) eqn:Hrc.
    + apply Z.eqb_eq in Hrc.
      destruct (git_log w dir) as [lp|e].
      * cbv zeta. destruct (Nat.ltb _ 2); cbn [snd].
        { split; [discriminate|]. intros [H|[cp' [_ [_ H]]]]; discriminate. }
        destruct (respond name _) as [r|e] eqn:Hr.
        { split; [discriminate|]. intros [H|[cp' [_ [_ H]]]]; discriminate. }
        split; [|intros [H|[cp' [_ [_ H]]]]; discriminate].
        intros H. exfalso.
        destruct (respond_raises _ _ _ Hr) as [[_ ->]|[_ Ha]]; [discriminate|].
        destruct e; try discriminate.
      * cbn [snd]. split.
        { intros H. right. exists cp. split; [reflexivity|]. split; [exact Hrc|].
          destruct e; try discriminate. reflexivity. }
        intros [H|[cp' [_ [_ H]]]]; [discriminate|].
        injection H as ->. reflexivity.
    + cbn [snd]. split; [discriminate|].
      intros [H|[cp' [H [Hrc' _]]]]; [discriminate|].
      injection H as <-. apply Z.eqb_neq in Hrc. contradiction.
  - cbn [snd]. split.
    + intros H. left. destruct e; try discriminate. reflexivity.
    + intros [H|[cp' [H _]]]; [|discriminate]. injection H as ->. reflexivity.
Qed.

(** The log of a cloned repository times out. *)
Lemma status_408_witness :
  snd (analyze_repo w_log_timeout Demo.url)
  = Raise (HTTPException 408 "Analysis timed out").
Proof.
  apply (status_408_iff_clone_or_log_timeout w_log_timeout Demo.url "octo" "demo"
           Demo.dir eq_refl eq_refl eq_refl).
  right. exists {| returncode := 0; stdout := EmptyString; stderr := EmptyString |}.
  repeat split.
Defined.

(** X4. [git log] runs exactly when [git clone] has returned with exit
    status 0, and the analyzer runs exactly when, in addition, [git log]
    has returned and its output holds two commits or more: a failed clone
    or a short history stops the run before the next stage. *)
Theorem stages_are_gated :
  forall (w : World) (repo_url owner name temp_dir : string),
    valid_url repo_url = true ->
    request_names repo_url = Ok (owner, name) ->
    mkdtemp w (temp_prefix owner name) = Ok temp_dir ->
    (In (EvLog temp_dir) (fst (analyze_repo w repo_url))
     <-> exists cp, git_clone w repo_url temp_dir = Ok cp /\ returncode cp = 0)
    /\
    ((exists b h, In (EvAnalyze temp_dir b h) (fst (analyze_repo w repo_url)))
     <-> exists cp lp,
           git_clone w repo_url temp_dir = Ok cp /\ returncode cp = 0
           /\ git_log w temp_dir = Ok lp
           /\ (2 <= List.length (parse_commits (stdout lp)))%nat).
Proof.
  intros w url owner name dir Hv Hn Hd.
  rewrite (analyze_repo_started w url owner name dir Hv Hn Hd). cbn [fst].
  rewrite try_except_trace, pipeline_stages.
  destruct (git_clone w url dir) as [cp|e].
  2:{ cbn [fst app]. split; split.
      - intros [H|[H|[H|[]]]]; discriminate.
      - intros [cp [H _]]. discriminate.
      - intros [b [h [H|[H|[H|[]]]]]]; discriminate.
      - intros [cp [lp [H _]]]. discriminate. }
  destruct (returncode cp =? 0) eqn:Hrc.
  2:{ apply Z.eqb_neq in Hrc. cbn [fst app]. split; split.
      - intros [H|[H|[H|[]]]]; discriminate.
      - intros [cp' [H Hrc']]. injection H as <-. contradiction.
      - intros [b [h [H|[H|[H|[]]]]]]; discriminate.
      - intros [cp' [lp [H [Hrc' _]]]]. injection H as <-. contradiction. }
  apply Z.eqb_eq in Hrc.
  assert (Hlog : forall t, In (EvLog dir)
                   (EvMkdtemp (temp_prefix owner name)
                      :: (EvClone url dir :: EvLog dir :: t) ++ [EvRmtree dir]))
    by (intros t; right; right; left; reflexivity).
  destruct (git_log w dir) as [lp|e].
  2:{ cbn [fst]. split; split.
      - intros _. exists cp. split; [reflexivity|exact Hrc].
      - intros _. apply (Hlog []).
      - intros [b [h [H|[H|[H|[H|[]]]]]]]; discriminate.
      - intros [cp' [lp [_ [_ [H _]]]]]. discriminate. }
  cbv zeta. destruct (Nat.ltb _ 2) eqn:Hlt.
  - apply Nat.ltb_lt in Hlt. cbn [fst]. split; split.
    + intros _. exists cp. split; [reflexivity|exact Hrc].
    + intros _. apply (Hlog []).
    + intros [b [h [H|[H|[H|[H|[]]]]]]]; discriminate.
    + intros [cp' [lp' [_ [_ [H Hlen]]]]]. injection H as <-. lia.
  - apply Nat.ltb_ge in Hlt. cbn [fst]. split; split.
    + intros _. exists cp. split; [reflexivity|exact Hrc].
    + intros _. apply Hlog.
    + intros _. exists cp, lp. repeat split; assumption.
    + intros _.
      exists (commit_at (parse_commits (stdout lp)) (0 + 1)),
             (commit_at (parse_commits (stdout lp)) 0).
      right. apply in_or_app. left. right. right.
      apply (in_map (call_event dir (parse_commits (stdout lp)))
               (pair_indices (parse_commits (stdout lp))) 0%nat).
      unfold pair_indices. apply in_seq. lia.
Qed.

(** A clone that exits with status 128: neither the log nor the analyzer
    runs. *)
Lemma stages_are_gated_witness :
  ~ In (EvLog Demo.dir) (fst (analyze_repo Demo.w_clone_fails Demo.url))
  /\ ~ (exists b h, In (EvAnalyze Demo.dir b h)
                       (fst (analyze_repo Demo.w_clone_fails Demo.url))).
Proof.
  destruct (stages_are_gated Demo.w_clone_fails Demo.url "octo" "demo" Demo.dir
              eq_refl eq_refl eq_refl) as [Hlog Hcalls].
  split.
  - intros H. apply Hlog in H. destruct H as [cp [Hcp Hrc]].
    injection Hcp as <-. discriminate Hrc.
  - intros H. apply Hcalls in H. destruct H as [cp [lp [Hcp [Hrc _]]]].
    injection Hcp as <-. discriminate Hrc.
Defined.

(** ** The owner and the repository name *)

(** X5. For a URL that ends with [/owner/last] and any number of slashes,
    the workspace is asked for with the prefix [smartci_<owner>_<name>_],
    where [name] is [last] without its occurrences of [".git"]; the
    trailing slashes play no part in the names, while [git clone] receives
    the URL as it was given. *)
Theorem workspace_prefix_of_url :
  forall (w : World) (base owner last temp_dir : string) (k : nat),
    has_char "/" owner = false -> has_char "/" last = false ->
    last <> EmptyString ->
    let repo_url := (base ++ "/" ++ owner ++ "/" ++ last ++ slashes k)%string in
    let name := PyStr.replace ".git" EmptyString last in
    valid_url repo_url = true ->
    mkdtemp w ("smartci_" ++ owner ++ "_" ++ name ++ "_") = Ok temp_dir ->
    exists t,
      fst (analyze_repo w repo_url)
      = EvMkdtemp ("smartci_" ++ owner ++ "_" ++ name ++ "_")
          :: EvClone repo_url temp_dir :: t.
Proof.
  intros w base owner last dir k Ho Hl Hne url name Hv Hd.
  pose proof (request_names_segments base owner last k Ho Hl Hne) as Hn.
  fold url in Hn. fold name in Hn.
  rewrite (analyze_repo_started w url owner name dir Hv Hn Hd). cbn [fst].
  rewrite try_except_trace, pipeline_stages.
  destruct (git_clone w url dir) as [cp|e]; [|eexists; reflexivity].
  destruct (returncode cp =? 0); [|eexists; reflexivity].
  destruct (git_log w dir) as [lp|e]; [|eexists; reflexivity].
  cbv zeta. destruct (Nat.ltb _ 2); eexists; reflexivity.
Qed.

(** The URL of the demo repository followed by two slashes. *)
Lemma workspace_prefix_of_url_witness :
  exists t,
    fst (analyze_repo Demo.w_smart28 "https://github.com/octo/demo.git//")
    = EvMkdtemp "smartci_octo_demo_"
        :: EvClone "https://github.com/octo/demo.git//" Demo.dir :: t.
Proof.
  exact (workspace_prefix_of_url Demo.w_smart28 "https://github.com" "octo" "demo.git"
           Demo.dir 2 eq_refl eq_refl ltac:(discriminate) eq_refl eq_refl).
Defined.

(** X6. The repository name of the response and of the workspace is the
    last segment of the URL with every occurrence of [".git"] removed: it
    is the segment itself exactly when the segment does not contain
    [".git"], it is [stem] for a segment [stem.git] whose stem does not
    contain [".git"], and it differs from the segment in every other
    case, an occurrence inside the name being removed as well. *)
Theorem repo_name_of_last_segment :
  forall (base owner last : string) (k : nat),
    has_char "/" owner = false -> has_char "/" last = false ->
    last <> EmptyString ->
    let repo_url := (base ++ "/" ++ owner ++ "/" ++ last ++ slashes k)%string in
    (request_names repo_url = Ok (owner, last)
     <-> PyStr.contains ".git" last = false)
    /\
    (forall stem,
        last = (stem ++ ".git")%string -> PyStr.contains ".git" stem = false ->
        request_names repo_url = Ok (owner, stem)).
Proof.
  intros base owner last k Ho Hl Hne url.
  pose proof (request_names_segments base owner last k Ho Hl Hne) as Hn.
  fold url in Hn. rewrite Hn. split; [split|].
  - intros H. injection H as H.
    destruct (PyStr.contains ".git" last) eqn:Hc; [|reflexivity].
    exfalso. apply (replace_present ".git" last Hc); [discriminate|exact H].
  - intros Hc. rewrite (replace_absent _ _ Hc). reflexivity.
  - intros stem -> Hc. rewrite (replace_git_suffix stem Hc). reflexivity.
Qed.

(** A repository named after its site: the name loses the [".git"] of
    [".github"]. *)
Lemma repo_name_of_last_segment_witness :
  request_names "https://github.com/octo/octo.github.io"
  = Ok ("octo", "octohub.io")
  /\ request_names "https://github.com/octo/demo.git/" = Ok ("octo", "demo").
Proof.
  split; [reflexivity|].
  exact (proj2 (repo_name_of_last_segment "https://github.com" "octo" "demo.git" 1
                  eq_refl eq_refl ltac:(discriminate))
           "demo" eq_refl eq_refl).
Defined.

(** ** The commits read from the log *)

(** X7. Line 96 reads back the commits that [git log --format=%H] prints:
    for hashes that are not empty and hold no whitespace, printed one per
    line, the parsed list is the list of the hashes, in order.  Whatever
    the output, no parsed commit is empty or holds a newline. *)
Theorem parse_commits_reads_log :
  forall (hs : list string),
    Forall (fun h => is_word h = true) hs ->
    parse_commits (log_lines hs) = hs
    /\ (forall out c, In c (parse_commits out) ->
          c <> EmptyString /\ has_char "010" c = false).
Proof.
  intros hs H. split; [apply parse_commits_log_lines; exact H|].
  intros out c Hc. unfold parse_commits in Hc.
  apply filter_In in Hc. destruct Hc as [Hin Hne]. split.
  - intros ->. discriminate Hne.
  - apply (split_parts_free "010" _ c Hin).
Qed.

(** The three commits of the demo repository. *)
Lemma parse_commits_reads_log_witness :
  parse_commits Demo.log3 = Demo.commits3.
Proof.
  exact (proj1 (parse_commits_reads_log Demo.commits3
                  ltac:(repeat constructor))).
Defined.

(** ** The dollar figure as a string *)

(** X8. The thousands-grouped numeral of line 204: a minus sign for a
    negative number, then the decimal digits of the absolute value with
    commas; removing the commas gives the decimal numeral back, which
    reads as the number; [d] digits take [(d - 1) / 3] commas; counted
    from the right, the characters at the positions 3, 7, 11, ... are the
    commas and no other character is one. *)
Theorem grouped_numeral_shape :
  forall n : Z,
    let body := format_grouped (Z.abs n) in
    let digits := numeral (Z.abs_N n) in
    format_grouped n = (if n <? 0 then String "-" body else body)
    /\ ungroup body = digits
    /\ option_map (fun u => Z.of_N (N.of_uint u))
         (DecimalString.NilZero.uint_of_string (ungroup body))
       = Some (Z.abs n)
    /\ String.length body
       = (String.length digits + (String.length digits - 1) / 3)%nat
    /\ (forall j c,
          nth_error (rev (list_ascii_of_string body)) j = Some c ->
          (c = ","%char <-> (j mod 4 = 3)%nat)).
Proof.
  intros n body digits.
  assert (Habs : 0 <= Z.abs n) by lia.
  assert (HN : Z.to_N (Z.abs n) = Z.abs_N n) by (destruct n; reflexivity).
  assert (Hun : ungroup body = digits).
  { unfold body, digits. rewrite (ungroup_format_grouped _ Habs), HN. reflexivity. }
  split; [apply format_grouped_sign|]. split; [exact Hun|]. split; [|split].
  - rewrite Hun. unfold digits, numeral.
    rewrite DecimalString.NilZero.usu by apply to_uint_not_nil.
    cbn [option_map]. rewrite DecimalN.Unsigned.of_to.
    f_equal. destruct n; reflexivity.
  - unfold body, digits. rewrite !string_length_list.
    rewrite (format_grouped_body _ Habs), HN.
    rewrite length_rev, group_rev_length by lia. rewrite length_rev.
    replace (List.length (list_ascii_of_string (numeral (Z.abs_N n))) + 0 - 1)%nat
      with (List.length (list_ascii_of_string (numeral (Z.abs_N n))) - 1)%nat by lia.
    reflexivity.
  - intros j c Hj. unfold body in Hj.
    rewrite (format_grouped_body _ Habs), rev_involutive in Hj.
    assert (Hdig : forall a,
               In a (rev (list_ascii_of_string (numeral (Z.to_N (Z.abs n))))) ->
               a <> ","%char)
      by (intros a Ha; apply in_rev in Ha; exact (numeral_no_comma _ _ Ha)).
    rewrite (group_rev_commas _ 0%nat j c ltac:(lia) Hdig Hj).
    replace (j + 0)%nat with j by lia. reflexivity.
Qed.

(** ** The figures of a response *)

(** X9. For averages that differ by 0 to 1770 seconds, the dollar figure
    of lines 187-191 is defined and is the floor of the exact value, which
    is 15625/39 dollars for each second saved, or one dollar less; it is
    the floor itself whenever the saving is not a multiple of 39 seconds.
    Lines 187-191 use the difference of the averages only. *)
Theorem dollar_figure_within_a_dollar :
  forall avg_current avg_smart : Z,
    0 <= avg_current - avg_smart <= 1770 ->
    exists v,
      dollar_savings_of avg_current avg_smart = Ok v
      /\ 15625 * (avg_current - avg_smart) / 39 - 1 <= v
         <= 15625 * (avg_current - avg_smart) / 39
      /\ ((avg_current - avg_smart) mod 39 <> 0 ->
          v = 15625 * (avg_current - avg_smart) / 39)
      /\ dollar_savings_exact avg_current avg_smart
         = 15625 * (avg_current - avg_smart) / 39
      /\ dollar_savings_of avg_current avg_smart
         = dollar_savings_of (avg_current - avg_smart) 0.
Proof.
  intros a s Hd.
  destruct (dollar_savings_in_range a s Hd) as [v [Hv [Hb Hx]]].
  rewrite dollar_savings_exact_reduced in Hb, Hx.
  exists v. split; [exact Hv|]. split; [exact Hb|]. split; [exact Hx|].
  split; [apply dollar_savings_exact_reduced|apply dollar_savings_of_difference].
Qed.

(** 39 seconds saved are worth 15625 dollars exactly; the code reports
    15624. *)
Lemma dollar_figure_witness :
  exists v,
    dollar_savings_of 1239 1200 = Ok v
    /\ 15625 * (1239 - 1200) / 39 - 1 <= v <= 15625 * (1239 - 1200) / 39
    /\ v = 15624.
Proof.
  destruct (dollar_figure_within_a_dollar 1239 1200 ltac:(lia)) as [v [Hv [Hb _]]].
  exists v. split; [exact Hv|]. split; [exact Hb|].
  assert (H : dollar_savings_of 1239 1200 = Ok 15624) by (vm_compute; reflexivity).
  congruence.
Defined.

(** X10. Every response of the endpoint reports success and no error,
    carries the repository name read off the URL, counts between 1 and 20
    analyzed pairs, an average baseline time between 1200 and 1770, an
    average test count between 1000 and 1950, an average smart time and an
    average selection that are not negative, and a savings percent and a
    dollar string that lines 181 and 187-204 compute from the two average
    times of the same response. *)
Theorem response_invariants :
  forall (w : World) (repo_url : string) (t : list event) (r : AnalyzeResponse),
    analyze_repo w repo_url = (t, Ok r) ->
    success r = true /\ error r = None
    /\ (exists owner, request_names repo_url = Ok (owner, repo_name r))
    /\ 1 <= commits_analyzed r <= 20
    /\ 1200 <= current_time r <= 1770
    /\ 1000 <= tests_total r <= 1950
    /\ 0 <= smart_time r
    /\ 0 <= tests_avg_selected r
    /\ savings_pct_of (current_time r) (smart_time r) = Ok (savings_percent r)
    /\ (exists v,
          dollar_savings_of (current_time r) (smart_time r) = Ok v
          /\ monthly_savings r = String "$" (format_grouped v)).
Proof.
  intros w url t r H.
  destruct (analyze_repo_response w url t r H)
    as [owner [name [dir [commits [Hn [_ Hr]]]]]].
  pose proof (analyzed_at_most_20 w dir commits) as H20.
  pose proof (fold_totals_in_range w dir commits) as Hrange.
  set (acc := fold_left (step_outcome w dir commits) (pair_indices commits) acc0) in *.
  destruct (respond_fields name acc r Hr)
    as [Hz [Hp [Hv [Hs [He [Hname [Hc [Hcur [Hsm [Ht Hsel]]]]]]]]]].
  destruct Hrange as [Ha0 [[Hc1 Hc2] [Hs0 [[Ht1 Ht2] Hsel0]]]].
  assert (Hpos : 0 < analyzed acc) by lia.
  split; [exact Hs|]. split; [exact He|].
  split; [exists owner; rewrite Hname; exact Hn|].
  split; [rewrite Hc; lia|].
  split.
  { rewrite Hcur. split.
    - apply Z.div_le_lower_bound; lia.
    - apply Z.div_le_upper_bound; lia. }
  split.
  { rewrite Ht. split.
    - apply Z.div_le_lower_bound; lia.
    - apply Z.div_le_upper_bound; lia. }
  split; [rewrite Hsm; apply Z.div_pos; lia|].
  split; [rewrite Hsel; apply Z.div_pos; lia|].
  rewrite Hcur, Hsm. split; [exact Hp|exact Hv].
Qed.

(** The response of the run of [Demo.w_smart28]. *)
Lemma response_invariants_witness :
  exists r,
    snd (analyze_repo Demo.w_smart28 Demo.url) = Ok r
    /\ 1 <= commits_analyzed r <= 20
    /\ 1200 <= current_time r <= 1770
    /\ 1000 <= tests_total r <= 1950.
Proof.
  eexists. split; [rewrite run_smart28; reflexivity|].
  destruct (response_invariants _ _ _ _ run_smart28)
    as [_ [_ [_ [Hc [Hcur [Ht _]]]]]].
  split; [exact Hc|]. split; [exact Hcur|exact Ht].
Defined.

(** X11. When at least one pair was analyzed and the average smart time
    does not exceed the average baseline time, lines 179-205 raise no
    exception: the response exists, its savings percent lies between 0
    and 100, and its dollar figure is not negative. *)
Theorem response_when_smart_is_not_slower :
  forall (w : World) (temp_dir : string) (commits : list string) (name : string)
         (acc : Accum),
    snd (analyze_commits w temp_dir commits) = Ok acc ->
    1 <= analyzed acc ->
    total_smart_time acc / analyzed acc <= total_current_time acc / analyzed acc ->
    exists r v,
      respond name acc = Ok r
      /\ 0 <= savings_percent r <= 100
      /\ monthly_savings r = String "$" (format_grouped v)
      /\ 0 <= v <= 709134.
Proof.
  intros w dir commits name acc Hacc Hn Hle.
  apply analyze_commits_in_range in Hacc.
  destruct Hacc as [_ [[Hc1 Hc2] [Hs0 _]]].
  set (a := total_current_time acc / analyzed acc) in *.
  set (s := total_smart_time acc / analyzed acc) in *.
  assert (Ha : 1200 <= a <= 1770).
  { unfold a. split; [apply Z.div_le_lower_bound|apply Z.div_le_upper_bound]; lia. }
  assert (Hs : 0 <= s) by (unfold s; apply Z.div_pos; lia).
  destruct (savings_pct_floor_or_less a s ltac:(change (2 ^ 11) with 2048; lia)
              ltac:(lia)) as [p [Hp Hpb]].
  destruct (dollar_savings_in_range a s ltac:(lia)) as [v [Hv [Hvb _]]].
  rewrite dollar_savings_exact_reduced in Hvb.
  exists {| success := true; repo_name := name; current_time := a; smart_time := s;
            savings_percent := p; commits_analyzed := analyzed acc;
            tests_total := total_tests acc / analyzed acc;
            tests_avg_selected := total_selected acc / analyzed acc;
            monthly_savings := String "$" (format_grouped v); error := None |}, v.
  split; [apply respond_total; [lia|exact Hp|exact Hv]|].
  cbn [savings_percent monthly_savings].
  pose proof (savings_pct_nonneg a s p ltac:(lia) Hle Hp) as Hp0.
  assert (Hp100 : 100 * (a - s) / a <= 100)
    by (apply Z.div_le_upper_bound; lia).
  split; [lia|]. split; [reflexivity|].
  assert (Hlo : 0 <= 15625 * (a - s) / 39) by (apply Z.div_pos; lia).
  assert (Hhi : 15625 * (a - s) / 39 < 709135)
    by (apply Z.div_lt_upper_bound; lia).
  assert (Hv0 : 0 <= v).
  { destruct (Z.eq_dec (a - s) 0) as [E|E].
    - rewrite dollar_savings_of_difference, E in Hv.
      vm_compute in Hv. injection Hv as <-. lia.
    - assert (1 <= 15625 * (a - s) / 39); [|lia].
      apply Z.div_le_lower_bound; lia. }
  lia.
Qed.

(** The totals of the run of [Demo.w_smart28]. *)
Lemma response_when_smart_is_not_slower_witness :
  exists r v,
    respond "demo" Demo.acc_smart28 = Ok r
    /\ 0 <= savings_percent r <= 100
    /\ monthly_savings r = String "$" (format_grouped v)
    /\ 0 <= v <= 709134.
Proof.
  apply (response_when_smart_is_not_slower Demo.w_smart28 Demo.dir Demo.commits3).
  - vm_compute. reflexivity.
  - cbn. lia.
  - vm_compute. discriminate.
Defined.

(** ** Verdicts without metrics *)

(** X12. An analyzer output that decodes to a verdict without usable
    content (not an object, [success] absent or falsy, no [analysis_mode],
    or, under [smart_selection], a [changed_functions] that is not an
    object or holds a value without a length) is skipped like a failed
    analysis: the iteration makes its one analyzer call, leaves the five
    totals as they were, and the loop goes on. *)
Theorem unusable_verdict_is_skipped :
  forall (w : World) (temp_dir : string) (commits : list string) (i : nat)
         (acc : Accum) (result : CompletedProcess) (analysis : json),
    (i + 1 < List.length commits)%nat ->
    smart_ci w temp_dir (commit_at commits (i + 1)) (commit_at commits i) = Ok result ->
    json_loads w (stdout result) = Ok analysis ->
    unusable_verdict analysis ->
    loop_body w temp_dir commits i acc
    = ([EvAnalyze temp_dir (commit_at commits (i + 1)) (commit_at commits i)], Ok acc).
Proof.
  intros w dir commits i acc result analysis Hi Hrun Hjson Hu.
  rewrite loop_body_outcome by exact Hi.
  unfold call_event, step_outcome, outcome_at, pair_outcome.
  rewrite Hrun. destruct (_ && _); [|reflexivity].
  rewrite Hjson.
  pose proof (unusable_verdict_contributes_nothing i analysis) as Hno.
  destruct (interpret_verdict i analysis) as [[pm|]|e]; try reflexivity.
  exfalso. exact (Hno pm Hu eq_refl).
Qed.

(** The verdict [FAILED] of the demo analyzer, whose [success] is false. *)
Lemma unusable_verdict_is_skipped_witness :
  loop_body (Demo.world Demo.clone_ok Demo.log3
               (fun _ => Demo.completed 0 "FAILED" EmptyString))
            Demo.dir Demo.commits3 0 acc0
  = ([EvAnalyze Demo.dir "c1" "c0"], Ok acc0).
Proof.
  apply (unusable_verdict_is_skipped _ Demo.dir Demo.commits3 0 acc0
           {| returncode := 0; stdout := "FAILED"; stderr := EmptyString |}
           (Demo.verdict false "full_run" [])).
  - simpl. lia.
  - reflexivity.
  - reflexivity.
  - apply (Unusable_falsy_success _ (JBool false)); reflexivity.
Defined.

(** ** The averages of a full window *)

(** X13. When every pair of the window is analyzed, the reported baseline
    time and test count depend on the number [k] of pairs only, not on the
    repository: the loop ends with [k] analyzed pairs, a total baseline of
    [k * (1200 + 15 * (k - 1))] and a total of [k * (1000 + 25 * (k - 1))]
    tests, so that a response shows [current_time = 1200 + 15 * (k - 1)]
    and [tests_total = 1000 + 25 * (k - 1)]. *)
Theorem averages_of_a_full_window :
  forall (w : World) (temp_dir : string) (commits : list string) (name : string),
    (2 <= List.length commits)%nat ->
    (forall i, In i (pair_indices commits) ->
               pair_analyzed w temp_dir commits i = true) ->
    let k := Z.of_nat (Nat.min (List.length commits - 1) 20) in
    exists acc,
      snd (analyze_commits w temp_dir commits) = Ok acc
      /\ analyzed acc = k
      /\ total_current_time acc = k * (1200 + 15 * (k - 1))
      /\ total_tests acc = k * (1000 + 25 * (k - 1))
      /\ (forall r, respond name acc = Ok r ->
            commits_analyzed r = k
            /\ current_time r = 1200 + 15 * (k - 1)
            /\ tests_total r = 1000 + 25 * (k - 1)).
Proof.
  intros w dir commits name Hlen Hall k.
  rewrite analyze_commits_outcome. cbn [snd]. eexists. split; [reflexivity|].
  assert (Hsome : forall i, In i (seq 0 (Nat.min (List.length commits - 1) 20)) ->
                    is_some (outcome_at w dir commits i) = true).
  { intros i Hi. rewrite <- pair_analyzed_outcome.
    - apply Hall. exact Hi.
    - apply pair_indices_in_range in Hi. lia. }
  destruct (fold_all_analyzed w dir commits _ 0%nat acc0 Hsome) as [Ha [Hc Ht]].
  unfold pair_indices. fold k in Ha, Hc, Ht.
  cbn [acc0 analyzed total_current_time total_tests Z.of_nat] in Ha, Hc, Ht.
  set (acc := fold_left (step_outcome w dir commits)
                        (seq 0 (Nat.min (List.length commits - 1) 20)) acc0) in *.
  assert (Hk : 1 <= k) by (unfold k; lia).
  split; [lia|]. split; [lia|]. split; [lia|].
  intros r Hr.
  destruct (respond_fields name acc r Hr)
    as [_ [_ [_ [_ [_ [_ [Hcount [Hcur [_ [Htests _]]]]]]]]]].
  rewrite Hcount, Hcur, Htests, Ha, Hc, Ht. split; [reflexivity|].
  replace (0 + k * (1200 + 30 * 0 + 15 * (k - 1)))
    with ((1200 + 15 * (k - 1)) * k) by ring.
  replace (0 + k * (1000 + 50 * 0 + 25 * (k - 1)))
    with ((1000 + 25 * (k - 1)) * k) by ring.
  replace (0 + k) with k by lia.
  rewrite !Z.div_mul by lia. split; reflexivity.
Qed.

(** Three commits, both pairs reported as full runs. *)
Lemma averages_of_a_full_window_witness :
  exists acc,
    snd (analyze_commits w_full_runs Demo.dir Demo.commits3) = Ok acc
    /\ analyzed acc = 2
    /\ total_current_time acc = 2 * (1200 + 15 * (2 - 1))
    /\ total_tests acc = 2 * (1000 + 25 * (2 - 1))
    /\ (forall r, respond "demo" acc = Ok r ->
          commits_analyzed r = 2
          /\ current_time r = 1200 + 15 * (2 - 1)
          /\ tests_total r = 1000 + 25 * (2 - 1)).
Proof.
  apply (averages_of_a_full_window w_full_runs Demo.dir Demo.commits3 "demo").
  - simpl. lia.
  - intros i Hi. cbn in Hi. destruct Hi as [<-|[<-|[]]]; vm_compute; reflexivity.
Defined.

(** ** The ends of the percent scale *)

(** X14. In every response, an average smart time of 0 gives a savings
    percent of exactly 100, and an average smart time equal to the average
    baseline time gives a savings percent of exactly 0 and the dollar
    string ["$0"]: the rounding that costs one percent elsewhere does not
    occur at the two ends. *)
Theorem savings_at_the_ends :
  forall (w : World) (repo_url : string) (t : list event) (r : AnalyzeResponse),
    analyze_repo w repo_url = (t, Ok r) ->
    (smart_time r = 0 -> savings_percent r = 100)
    /\ (smart_time r = current_time r ->
        savings_percent r = 0 /\ monthly_savings r = "$0"%string).
Proof.
  intros w url t r H.
  destruct (analyze_repo_response w url t r H)
    as [owner [name [dir [commits [_ [_ Hr]]]]]].
  pose proof (fold_totals_in_range w dir commits) as Hrange.
  set (acc := fold_left (step_outcome w dir commits) (pair_indices commits) acc0) in *.
  destruct (respond_fields name acc r Hr)
    as [Hz [Hp [[v [Hv Hm]] [_ [_ [_ [_ [Hcur [Hsm _]]]]]]]]].
  destruct Hrange as [Ha0 [[Hc1 _] _]].
  assert (Hpos : 0 < current_time r).
  { rewrite Hcur. assert (1200 <= total_current_time acc / analyzed acc); [|lia].
    apply Z.div_le_lower_bound; lia. }
  rewrite <- Hcur, <- Hsm in Hp, Hv. split.
  - intros H0. rewrite H0, (savings_pct_all _ Hpos) in Hp. congruence.
  - intros He. rewrite He, (savings_pct_none _ Hpos) in Hp.
    rewrite He, dollar_savings_none in Hv.
    injection Hp as <-. injection Hv as <-. split; [reflexivity|exact Hm].
Qed.

(** Two pairs without changes: 100 percent. *)
Lemma savings_at_the_ends_witness :
  exists r,
    snd (analyze_repo w_no_changes Demo.url) = Ok r
    /\ smart_time r = 0 /\ savings_percent r = 100.
Proof.
  eexists. split; [rewrite run_no_changes; reflexivity|].
  split; [reflexivity|].
  exact (proj1 (savings_at_the_ends _ _ _ _ run_no_changes) eq_refl).
Defined.

(** ** A run that makes the suite slower *)

(** X15. A response whose average smart time exceeds its average baseline
    time (an unclamped selection can do that) never shows a saving: its
    savings percent is not positive, and its dollar string is ["$"]
    followed by the grouped numeral of a figure that is not positive, with
    a minus sign after the dollar sign when the figure is negative. *)
Theorem slower_run_shows_no_saving :
  forall (w : World) (repo_url : string) (t : list event) (r : AnalyzeResponse),
    analyze_repo w repo_url = (t, Ok r) ->
    current_time r <= smart_time r ->
    savings_percent r <= 0
    /\ exists v,
         v <= 0
         /\ monthly_savings r = String "$" (format_grouped v)
         /\ (v < 0 ->
             monthly_savings r = String "$" (String "-" (format_grouped (- v)))).
Proof.
  intros w url t r H Hle.
  destruct (analyze_repo_response w url t r H)
    as [owner [name [dir [commits [_ [_ Hr]]]]]].
  pose proof (fold_totals_in_range w dir commits) as Hrange.
  set (acc := fold_left (step_outcome w dir commits) (pair_indices commits) acc0) in *.
  destruct (respond_fields name acc r Hr)
    as [Hz [Hp [[v [Hv Hm]] [_ [_ [_ [_ [Hcur [Hsm _]]]]]]]]].
  destruct Hrange as [Ha0 [[Hc1 _] _]].
  assert (Hpos : 0 < current_time r).
  { rewrite Hcur. assert (1200 <= total_current_time acc / analyzed acc); [|lia].
    apply Z.div_le_lower_bound; lia. }
  rewrite <- Hcur, <- Hsm in Hp, Hv.
  split; [exact (savings_pct_nonpos _ _ _ Hpos Hle Hp)|].
  exists v. split; [exact (dollar_savings_nonpos _ _ _ Hle Hv)|].
  split; [exact Hm|].
  intros Hneg. rewrite Hm, (format_grouped_sign v).
  replace (v <? 0) with true by (symmetry; apply Z.ltb_lt; exact Hneg).
  replace (Z.abs v) with (- v) by lia. reflexivity.
Qed.

(** 67 changed functions at position 0: 1205 seconds against 1200. *)
Lemma slower_run_shows_no_saving_witness :
  exists r,
    snd (analyze_repo w_smart67 Demo.url) = Ok r
    /\ current_time r <= smart_time r
    /\ savings_percent r <= 0
    /\ monthly_savings r = "$-2,003"%string.
Proof.
  eexists. split; [rewrite run_smart67; reflexivity|].
  split; [cbn; lia|].
  split; [|reflexivity].
  exact (proj1 (slower_run_shows_no_saving _ _ _ _ run_smart67 ltac:(cbn; lia))).
Defined.
